(** * Oracle 23ai vector store: a shallow embedding of [oracle_vectorstore.py]

    The module under verification is the llama-index adapter
    [Oracle-23ai-RAG-Chatbot/oracle_vectorstore.py]: the module-level
    functions [oracle_query] and [save_chunks_with_embeddings_in_db], and
    the class [OracleVectorStore] with its methods [add], [delete],
    [query] and [persist].

    Conventions of the embedding.
    - A Python [float] is an IEEE binary64 number: Rocq's primitive
      [float], whose operations are specified by [FloatAxioms] in terms
      of [SpecFloat].
    - A Python [int] is a [Z], a [str] is a [string].
    - Code that raises, logs or talks to the database runs in the monad
      [M S A := S -> result A * S]: the state survives an exception, as
      log records and database effects do in Python.
    - The Oracle driver, the configuration module and the streamlit
      session are not part of the module: they are parameters (records
      [oracledb], [config] and [session_state]).
    - [print] calls and wall-clock measurements do not influence any
      value the functions return or store; they are left out. *)

From Stdlib Require Import ZArith List String Ascii Bool Lia Psatz Floats.
From Stdlib Require Import Strings.Byte.
From Stdlib Require Import Sorting.Sorted Sorting.Permutation.
From stdpp Require Import base option gmap strings.
Import ListNotations.

#[local] Open Scope string_scope.
#[local] Open Scope list_scope.

(* ===================================================================== *)
(** * Python values, exceptions and effects *)
(* ===================================================================== *)

(** The Python objects that occur as metadata values, bound SQL
    parameters and ad-hoc instance attributes. *)
Inductive pyobj :=
| PyNone
| PyBool (b : bool)
| PyInt (z : Z)
| PyFloat (f : float)
| PyStr (s : string).

(** The exception classes the module can meet.  All of them derive from
    [Exception]; [DatabaseError] stands for the driver's [oracledb.Error]
    family. *)
Inductive exn :=
| AttributeError (attr : string)
| KeyError (key : string)
| TypeError (msg : string)
| ValueError (msg : string)
| NotImplementedError (msg : string)
| DatabaseError (msg : string).

Inductive result (A : Type) :=
| Ok (a : A)
| Raise (e : exn).
Arguments Ok {A} a.
Arguments Raise {A} e.

(** ** The state-and-exception monad *)

Definition M (S A : Type) : Type := S -> result A * S.

Definition ret {S A} (a : A) : M S A := fun s => (Ok a, s).

Definition raise {S A} (e : exn) : M S A := fun s => (Raise e, s).

Definition bind {S A B} (m : M S A) (k : A -> M S B) : M S B :=
  fun s => match m s with
           | (Ok a, s') => k a s'
           | (Raise e, s') => (Raise e, s')
           end.

(** [try: m except Exception as e: h e] *)
Definition try_except {S A} (m : M S A) (h : exn -> M S A) : M S A :=
  fun s => match m s with
           | (Ok a, s') => (Ok a, s')
           | (Raise e, s') => h e s'
           end.

Definition get {S} : M S S := fun s => (Ok s, s).
Definition modify {S} (f : S -> S) : M S unit := fun s => (Ok tt, f s).

(** A value that is either computed or raises, used in a monadic block. *)
Definition lift_result {S A} (r : result A) : M S A :=
  match r with Ok a => ret a | Raise e => raise e end.

(** Run a computation on a component of a larger state. *)
Definition zoom {S T A} (proj : T -> S) (upd : S -> T -> T) (m : M S A) : M T A :=
  fun t => match m (proj t) with (r, s') => (r, upd s' t) end.

Declare Scope py_scope.
Delimit Scope py_scope with py.
Notation "x <- m ;; k" := (bind m (fun x => k))
  (at level 100, m at next level, right associativity) : py_scope.
Notation "m ;;; k" := (bind m (fun _ => k))
  (at level 100, right associativity) : py_scope.
#[local] Open Scope py_scope.

(** ** Log records

    [logging.info]/[logging.error] write to the root logger,
    [logger.error] to the logger named [ConsoleLogger].  The formatted
    argument of an f-string message is kept apart from its text. *)
Inductive log_level := INFO | ERROR.

Inductive log_arg :=
| NoArg
| ExnArg (e : exn)
| NatArg (n : nat)
| ZArg (z : Z).

Record log_record := LogRecord {
  lr_logger : string;
  lr_level : log_level;
  lr_msg : string;
  lr_arg : log_arg
}.

(* ===================================================================== *)
(** * Configuration *)
(* ===================================================================== *)

(** The names imported from the [config] module.  They are module-level
    constants, fixed when the module is loaded. *)
Record config := Config {
  DB_USER : string;
  DB_PWD : string;
  DB_HOST_IP : string;
  DB_SERVICE : string;
  EMBEDDINGS_BITS : Z;
  ADD_PHX_TRACING : bool;
  DSN : string;
  WALLET_LOCATION : string;
  WALLET_PASSWORD : string;
  CONFIG_DIR : string
}.

(* ===================================================================== *)
(** * Binary vectors: Python's [array.array] *)
(* ===================================================================== *)

(** [array.array(typecode, values)] belongs to the Python standard
    library.  With typecode ["d"] every item is stored as a C [double]
    (IEEE binary64, 8 bytes), with ["f"] as a C [float] (IEEE binary32,
    4 bytes, the double being rounded to the nearest binary32 number);
    the items lie one after the other in one buffer, in the byte order of
    the machine, taken here to be little-endian. *)
Module Array.

#[local] Open Scope Z_scope.

(** The IEEE interchange encoding of a number of the format with
    [prec] significand bits, exponent field width [ew] and
    [emax = 2^(ew-1)]: sign bit, biased exponent, trailing significand. *)
Definition bits_of_SF (prec ew : Z) (x : spec_float) : Z :=
  let mw := prec - 1 in
  let emax := 2 ^ (ew - 1) in
  let sign (s : bool) := if s then 2 ^ (mw + ew) else 0 in
  match x with
  | S754_zero s => sign s
  | S754_infinity s => sign s + (2 ^ ew - 1) * 2 ^ mw
  | S754_nan => (2 ^ ew - 1) * 2 ^ mw + 2 ^ (mw - 1)
  | S754_finite s m e =>
      if 2 ^ mw <=? Z.pos m
      then sign s + (e - SpecFloat.emin prec emax + 1) * 2 ^ mw + (Z.pos m - 2 ^ mw)
      else sign s + Z.pos m
  end.

Definition SF_of_bits (prec ew : Z) (b : Z) : spec_float :=
  let mw := prec - 1 in
  let emax := 2 ^ (ew - 1) in
  let s := Z.testbit b (mw + ew) in
  let be := (b / 2 ^ mw) mod 2 ^ ew in
  let mf := b mod 2 ^ mw in
  if be =? 0 then
    match mf with
    | Z.pos m => S754_finite s m (SpecFloat.emin prec emax)
    | _ => S754_zero s
    end
  else if be =? 2 ^ ew - 1 then
    (if mf =? 0 then S754_infinity s else S754_nan)
  else
    match mf + 2 ^ mw with
    | Z.pos m => S754_finite s m (be + SpecFloat.emin prec emax - 1)
    | _ => S754_nan
    end.

(** The C conversion from [double] to [float]: round to nearest, ties
    to even; zeros, infinities and NaN are kept. *)
Definition SF_to_binary32 (x : spec_float) : spec_float :=
  match x with
  | S754_finite s m e => binary_normalize 24 128 (cond_Zopp s (Z.pos m)) e s
  | _ => x
  end.

(** A binary32 number read back as a Python float: every binary32
    number is a binary64 number. *)
Definition SF_of_binary32 (x : spec_float) : spec_float :=
  match x with
  | S754_finite s m e => binary_normalize 53 1024 (cond_Zopp s (Z.pos m)) e s
  | _ => x
  end.

Definition byte_of_Z (z : Z) : byte :=
  match Byte.of_N (Z.to_N (z mod 256)) with
  | Some b => b
  | None => x00
  end.

Definition Z_of_byte (b : byte) : Z := Z.of_N (Byte.to_N b).

(** [n] bytes of [z], least significant first. *)
Fixpoint le_bytes (n : nat) (z : Z) : list byte :=
  match n with
  | O => []
  | S n' => byte_of_Z z :: le_bytes n' (z / 256)
  end.

Fixpoint le_value (bs : list byte) : Z :=
  match bs with
  | [] => 0
  | b :: bs' => Z_of_byte b + 256 * le_value bs'
  end.

(** [array.itemsize] *)
Definition itemsize (typecode : string) : nat :=
  if String.eqb typecode "d" then 8%nat else 4%nat.

Definition pack_item (typecode : string) (x : float) : list byte :=
  if String.eqb typecode "d"
  then le_bytes 8 (bits_of_SF 53 11 (Prim2SF x))
  else le_bytes 4 (bits_of_SF 24 8 (SF_to_binary32 (Prim2SF x))).

Definition unpack_item (typecode : string) (bs : list byte) : float :=
  if String.eqb typecode "d"
  then SF2Prim (SF_of_bits 53 11 (le_value bs))
  else SF2Prim (SF_of_binary32 (SF_of_bits 24 8 (le_value bs))).

(** The array object: its typecode and its buffer. *)
Record array := Build_array {
  typecode : string;
  buffer : list byte
}.

(** [array.array(typecode, values)] for the two floating typecodes;
    any other typecode the module could pass is refused. *)
Definition array_ (tc : string) (values : list float) : result array :=
  if String.eqb tc "d" || String.eqb tc "f"
  then Ok (Build_array tc (concat (map (pack_item tc) values)))
  else Raise (ValueError "bad typecode").

Fixpoint chunks (n : nat) (fuel : nat) (bs : list byte) : list (list byte) :=
  match fuel with
  | O => []
  | S fuel' =>
      match bs with
      | [] => []
      | _ => firstn n bs :: chunks n fuel' (skipn n bs)
      end
  end.

(** [a.tolist()] *)
Definition tolist (a : array) : list float :=
  map (unpack_item (typecode a))
      (chunks (itemsize (typecode a)) (List.length (buffer a)) (buffer a)).

End Array.

(* ===================================================================== *)
(** * llama-index data types *)
(* ===================================================================== *)

(** [TextNode]: the fields the module reads or writes.  [embedding] is
    [None] until an embedding model has filled it in; [metadata] is a
    Python [dict]. *)
Record TextNode := Build_TextNode {
  id_ : string;
  text : string;
  embedding : option (list float);
  metadata : gmap string pyobj
}.

Record VectorStoreQuery := Build_VectorStoreQuery {
  query_embedding : list float
}.

Record VectorStoreQueryResult := Build_VectorStoreQueryResult {
  nodes : list TextNode;
  similarities : list float;
  ids : list string
}.

(* ===================================================================== *)
(** * The Oracle driver and the world around the module *)
(* ===================================================================== *)

(** A CLOB handle as the driver returns it: [read()] either delivers the
    text or fails. *)
Record LOB := Build_LOB { read_outcome : result string }.

(** One row of the SELECT of [oracle_query]; field [row_i] is [row[i]]:
    C.ID, C.CHUNK, C.PAGE_NUM, the cosine distance [d], B.NAME. *)
Record select_row := Build_select_row {
  row_0 : string;
  row_1 : LOB;
  row_2 : Z;
  row_3 : float;
  row_4 : string
}.

(** The two holes of the f-string that builds the SELECT statement; the
    rest of the text is constant:
    [SELECT C.ID, C.CHUNK, C.PAGE_NUM, VECTOR_DISTANCE(C.VEC,:1, COSINE) as d,
     B.NAME FROM CHUNKS C, BOOKS B WHERE C.BOOK_ID = B.ID ORDER BY 4
     FETCH {approx_clause} FIRST {top_k} ROWS ONLY]. *)
Record select_statement := Build_select_statement {
  approx_clause : string;
  fetch_first : Z
}.

(** The bound parameters of
    [INSERT INTO CHUNKS (ID, CHUNK, VEC, PAGE_NUM, BOOK_ID)
     VALUES (:1, :2, :3, :4, :5)]. *)
Record insert_row := Build_insert_row {
  ins_id : string;
  ins_chunk : string;
  ins_vec : Array.array;
  ins_page_num : pyobj;
  ins_book_id : pyobj
}.

(** The keyword arguments of [oracledb.connect]. *)
Record connect_args := Build_connect_args {
  ca_user : string;
  ca_password : string;
  ca_dsn : pyobj;
  ca_wallet_location : option string;
  ca_config_dir : option string;
  ca_wallet_password : option string
}.

(** How the driver and the database answer.  [None] as an outcome means
    that the call succeeds.
    - [ordered_rows clause v] is the join of CHUNKS and BOOKS with the
      distance to [v] in column 4, in the order in which the engine ranks
      it for [ORDER BY 4] (exactly, or through the vector index when
      [clause] is [APPROXIMATE]); [FETCH FIRST k ROWS ONLY] delivers its
      first [k] rows.
    - [insert_outcome r done] is the outcome of inserting [r] after the
      rows [done] of the same transaction. *)
Record oracledb := Build_oracledb {
  connect_outcome : connect_args -> option exn;
  cursor_outcome : option exn;
  ordered_rows : string -> Array.array -> result (list select_row);
  insert_outcome : insert_row -> list insert_row -> option exn;
  commit_outcome : option exn
}.

(** [st.session_state]: the two keys the module reads. [None]: the key is
    not set. *)
Record session_state := Build_session_state {
  ss_top_k : option Z;
  ss_similarity : option float
}.

(** The state outside the store object. *)
Record world := Build_world {
  log : list log_record;            (* log records, oldest first *)
  opened : list connect_args;       (* connections opened, oldest first *)
  pending : list insert_row;        (* rows inserted, not yet committed *)
  committed : list insert_row;      (* rows of CHUNKS committed by the module *)
  spans : list string;              (* tracing spans started *)
  session : session_state
}.

Definition set_log (f : list log_record -> list log_record) (w : world) : world :=
  Build_world (f (log w)) (opened w) (pending w) (committed w) (spans w) (session w).
Definition set_opened (f : list connect_args -> list connect_args) (w : world) : world :=
  Build_world (log w) (f (opened w)) (pending w) (committed w) (spans w) (session w).
Definition set_pending (f : list insert_row -> list insert_row) (w : world) : world :=
  Build_world (log w) (opened w) (f (pending w)) (committed w) (spans w) (session w).
Definition set_committed (f : list insert_row -> list insert_row) (w : world) : world :=
  Build_world (log w) (opened w) (pending w) (f (committed w)) (spans w) (session w).
Definition set_spans (f : list string -> list string) (w : world) : world :=
  Build_world (log w) (opened w) (pending w) (committed w) (f (spans w)) (session w).

(** ** Logging *)

Definition emit (logger : string) (lvl : log_level) (msg : string) (a : log_arg)
  : M world unit :=
  modify (set_log (fun l => l ++ [LogRecord logger lvl msg a])).

(** [logging.info], [logging.error]: the root logger. *)
Definition logging_info (msg : string) (a : log_arg) : M world unit :=
  emit "root" INFO msg a.
Definition logging_error (msg : string) (a : log_arg) : M world unit :=
  emit "root" ERROR msg a.
(** [logger = logging.getLogger("ConsoleLogger")] *)
Definition logger_error (msg : string) (a : log_arg) : M world unit :=
  emit "ConsoleLogger" ERROR msg a.

(** ** Driver calls *)

Section Driver.

Variable drv : oracledb.

Definition outcome (o : option exn) : M world unit :=
  match o with None => ret tt | Some e => raise e end.

(** [with oracledb.connect(...) as connection: body]: when the block is
    left, normally or by an exception, the connection is closed and
    what was not committed is rolled back. *)
Definition with_connect {A} (args : connect_args) (body : M world A) : M world A :=
  outcome (connect_outcome drv args) ;;;
  modify (set_opened (fun l => l ++ [args])) ;;;
  fun w => match body w with
           | (r, w') => (r, set_pending (fun _ => []) w')
           end.

(** [with connection.cursor() as cursor: body] *)
Definition with_cursor {A} (body : M world A) : M world A :=
  outcome (cursor_outcome drv) ;;; body.

(** [cursor.execute(select, [array_query])] followed by
    [cursor.fetchall()].  Oracle treats a negative row count of
    [FETCH FIRST] as zero. *)
Definition execute_select (select : select_statement) (array_query : Array.array)
  : M world (list select_row) :=
  rows <- lift_result (ordered_rows drv (approx_clause select) array_query) ;;
  ret (firstn (Z.to_nat (fetch_first select)) rows).

(** [cursor.execute("INSERT INTO CHUNKS ...", [...])] *)
Definition execute_insert (r : insert_row) : M world unit :=
  w <- get ;;
  outcome (insert_outcome drv r (pending w)) ;;;
  modify (set_pending (fun l => l ++ [r])).

(** [connection.commit()] *)
Definition commit : M world unit :=
  outcome (commit_outcome drv) ;;;
  modify (fun w => set_pending (fun _ => [])
                     (set_committed (fun l => l ++ pending w) w)).

(** [row[1].read()] *)
Definition LOB_read (l : LOB) : M world string := lift_result (read_outcome l).

End Driver.

(** [st.session_state[key]] *)
Definition session_get {A} (key : string) (field : session_state -> option A)
  : M world A :=
  w <- get ;;
  match field (session w) with
  | Some v => ret v
  | None => raise (KeyError key)
  end.

(* ===================================================================== *)
(** * The module-level functions *)
(* ===================================================================== *)

Section ModuleFunctions.

Variable cfg : config.
Variable drv : oracledb.

(** [array_type = "d" if EMBEDDINGS_BITS == 64 else "f"] *)
Definition array_type : string :=
  if (EMBEDDINGS_BITS cfg =? 64)%Z then "d" else "f".

(** [optional_tracing(span_name)] used as [with optional_tracing(..): body] *)
Definition optional_tracing {A} (span_name : string) (body : M world A) : M world A :=
  if ADD_PHX_TRACING cfg
  then modify (set_spans (fun l => l ++ [span_name])) ;;; body
  else body.

(** The node built from a row that passed the threshold, given the text
    read from its CLOB. *)
Definition node_of_row (row : select_row) (full_clob_data : string) : TextNode :=
  Build_TextNode (row_0 row) full_clob_data None
    (<["file_name" := PyStr (row_4 row)]>
     (<["page#" := PyInt (row_2 row)]>
      (<["Similarity Score" := PyFloat (1 - row_3 row)%float]> ∅))).

(** The loop [for row in rows] of [oracle_query]; the accumulator holds
    [result_nodes], [node_ids] and [similarities]. *)
Fixpoint process_rows (rows : list select_row)
    (acc : list TextNode * list string * list float)
  : M world (list TextNode * list string * list float) :=
  match rows with
  | [] => ret acc
  | row :: rest =>
      threshold <- session_get "similarity" ss_similarity ;;
      if (threshold <=? 1 - row_3 row)%float then
        full_clob_data <- LOB_read (row_1 row) ;;
        let '(result_nodes, node_ids, similarities) := acc in
        process_rows rest
          (result_nodes ++ [node_of_row row full_clob_data],
           node_ids ++ [row_0 row],
           similarities ++ [row_3 row])
      else process_rows rest acc
  end.

(** [oracle_query(embed_query, top_k, verbose, approximate)].  The
    result is [None] when the [except] branch returns, and the
    [VectorStoreQueryResult] otherwise. *)
Definition oracle_query (embed_query : list float) (top_k : Z)
    (verbose approximate : bool) : M world (option VectorStoreQueryResult) :=
  tried <-
    try_except
      (with_connect drv
         (Build_connect_args (DB_USER cfg) (DB_PWD cfg) (PyStr (DSN cfg))
            (Some (WALLET_LOCATION cfg)) (Some (CONFIG_DIR cfg))
            (Some (WALLET_PASSWORD cfg)))
         (with_cursor drv
            (array_query <- lift_result (Array.array_ array_type embed_query) ;;
             let approx_clause := if approximate then "APPROXIMATE" else "" in
             let select := Build_select_statement approx_clause top_k in
             rows <- execute_select drv select array_query ;;
             acc <- process_rows rows ([], [], []) ;;
             ret (Some acc))))
      (fun e =>
         logger_error "Error occurred in oracle_query: " (ExnArg e) ;;;
         ret None) ;;
  match tried with
  | None => ret None
  | Some (result_nodes, node_ids, similarities) =>
      ret (Some (Build_VectorStoreQueryResult result_nodes similarities node_ids))
  end.

(** [zip(pages_id, pages_text, pages_num, embeddings)] *)
Fixpoint zip4 {A B C D} (la : list A) (lb : list B) (lc : list C) (ld : list D)
  : list (A * B * C * D) :=
  match la, lb, lc, ld with
  | a :: la', b :: lb', c :: lc', d :: ld' => (a, b, c, d) :: zip4 la' lb' lc' ld'
  | _, _, _, _ => []
  end.

(** [array.array(array_type, vector)] on an embedding that may be
    [None]. *)
Definition array_of_embedding (vector : option (list float)) : result Array.array :=
  match vector with
  | Some v => Array.array_ array_type v
  | None => Raise (TypeError "'NoneType' object is not iterable")
  end.

(** The loop of [save_chunks_with_embeddings_in_db]; it carries
    [tot_errors]. *)
Fixpoint insert_chunks (items : list (string * string * pyobj * option (list float)))
    (book_id : pyobj) (tot_errors : nat) : M world nat :=
  match items with
  | [] => ret tot_errors
  | (id, text, page_num, vector) :: rest =>
      input_array <- lift_result (array_of_embedding vector) ;;
      failed <-
        try_except
          (execute_insert drv (Build_insert_row id text input_array page_num book_id) ;;;
           ret false)
          (fun e =>
             logging_error "Error in save_chunks_with_embeddings: " (ExnArg e) ;;;
             ret true) ;;
      insert_chunks rest book_id (if failed : bool then S tot_errors else tot_errors)
  end.

(** [save_chunks_with_embeddings_in_db(pages_id, pages_text, pages_num,
    embeddings, book_id, connection)]; the connection is the one that
    the caller has open.  [cursor.setinputsizes] only declares the types
    of the bound parameters. *)
Definition save_chunks_with_embeddings_in_db
    (pages_id pages_text : list string) (pages_num : list pyobj)
    (embeddings : list (option (list float))) (book_id : pyobj) : M world unit :=
  try_except
    (tot_errors <-
       with_cursor drv
         (logging_info "Saving texts and embeddings to DB..." NoArg ;;;
          insert_chunks (zip4 pages_id pages_text pages_num embeddings) book_id 0) ;;
     logging_info "Total errors in save_chunks_with_embeddings: " (NatArg tot_errors))
    (fun e =>
       logging_error "Critical error in save_chunks_with_embeddings_in_db: " (ExnArg e) ;;;
       raise e).

End ModuleFunctions.

(* ===================================================================== *)
(** * Python dictionaries with string keys *)
(* ===================================================================== *)

(** A [dict] keeps its items in insertion order and [persist] iterates
    over it, so the staging buffer is an association list without
    repeated keys. *)
Definition odict (V : Type) : Type := list (string * V).

(** [d[k] = v]: replaces the value of an existing key in place, appends a
    new key at the end. *)
Fixpoint odict_set {V} (k : string) (v : V) (d : odict V) : odict V :=
  match d with
  | [] => [(k, v)]
  | (k', v') :: d' =>
      if String.eqb k k' then (k, v) :: d' else (k', v') :: odict_set k v d'
  end.

Fixpoint odict_get {V} (k : string) (d : odict V) : option V :=
  match d with
  | [] => None
  | (k', v') :: d' => if String.eqb k k' then Some v' else odict_get k d'
  end.

Definition odict_keys {V} (d : odict V) : list string := map fst d.

(** [d[key]] on a metadata dictionary. *)
Definition getitem (d : gmap string pyobj) (key : string) : result pyobj :=
  match d !! key with
  | Some v => Ok v
  | None => Raise (KeyError key)
  end.

(* ===================================================================== *)
(** * The class [OracleVectorStore] *)
(* ===================================================================== *)

Module OracleVectorStore.

(** An instance: the three attributes that [__init__] assigns, and
    [attrs], the other entries of the instance dictionary (attributes a
    caller may have assigned from outside; no method assigns any). *)
Record instance := Build_instance {
  verbose : bool;
  enable_hnsw_indexes : bool;
  node_dict : odict TextNode;
  attrs : gmap string pyobj
}.

Definition set_node_dict (d : odict TextNode) (self : instance) : instance :=
  Build_instance (verbose self) (enable_hnsw_indexes self) d (attrs self).

(** Data attributes found on the class when the instance dictionary has
    no entry: the class body sets [stores_text] and [verbose]; the base
    class, llama-index's [VectorStore] protocol, sets
    [is_embedding_query].  The remaining class members are the methods. *)
Definition class_attribute (name : string) : option pyobj :=
  if String.eqb name "stores_text" then Some (PyBool true)
  else if String.eqb name "verbose" then Some (PyBool false)
  else if String.eqb name "is_embedding_query" then Some (PyBool true)
  else None.

(** [self.<name>] for a name other than the three of [__init__]. *)
Definition getattr (self : instance) (name : string) : result pyobj :=
  match attrs self !! name with
  | Some v => Ok v
  | None =>
      match class_attribute name with
      | Some v => Ok v
      | None => Raise (AttributeError name)
      end
  end.

(** [OracleVectorStore(verbose, enable_hnsw_indexes)] *)
Definition __init__ (verbose enable_hnsw_indexes : bool) : instance :=
  Build_instance verbose enable_hnsw_indexes [] ∅.

(** The loop of [add]: the dictionary and [ids_list]. *)
Fixpoint add_loop (nodes : list TextNode) (d : odict TextNode) (ids_list : list string)
  : odict TextNode * list string :=
  match nodes with
  | [] => (d, ids_list)
  | node :: rest => add_loop rest (odict_set (id_ node) node d) (ids_list ++ [id_ node])
  end.

(** [self.add(nodes)]: the instance afterwards and the returned list. *)
Definition add (self : instance) (nodes : list TextNode) : instance * list string :=
  let '(d, ids_list) := add_loop nodes (node_dict self) [] in
  (set_node_dict d self, ids_list).

Section Methods.

Variable cfg : config.
Variable drv : oracledb.

(** The state of a method call: the instance and the world. *)
Definition heap : Type := instance * world.

Definition in_world {A} (m : M world A) : M heap A :=
  zoom snd (fun w h => (fst h, w)) m.

(** [self.delete(node_id, **delete_kwargs)] *)
Definition delete (node_id : string) (delete_kwargs : list (string * pyobj))
  : M heap unit :=
  raise (NotImplementedError "Delete not yet implemented for Oracle Vector Store.").

(** [self.query(query, **kwargs)] *)
Definition query (query : VectorStoreQuery) : M heap (option VectorStoreQueryResult) :=
  similarity_top_k <- in_world (session_get "top_k" ss_top_k) ;;
  h <- get ;;
  let self := fst h in
  (if verbose self
   then in_world (logging_info "---> Calling query on DB with top_k=" (ZArg similarity_top_k))
   else ret tt) ;;;
  in_world
    (optional_tracing cfg "oracle_vector_db"
       (oracle_query cfg drv (query_embedding query) similarity_top_k
          (verbose self) (enable_hnsw_indexes self))).

(** The loop of [persist] that fills [pages_id], [pages_text],
    [embeddings] and [pages_num]. *)
Fixpoint collect (items : odict TextNode)
    (acc : list string * list string * list (option (list float)) * list pyobj)
  : result (list string * list string * list (option (list float)) * list pyobj) :=
  match items with
  | [] => Ok acc
  | (key, node) :: rest =>
      let '(pages_id, pages_text, embeddings, pages_num) := acc in
      match getitem (metadata node) "page#" with
      | Ok page => collect rest (pages_id ++ [id_ node], pages_text ++ [text node],
                                 embeddings ++ [embedding node], pages_num ++ [page])
      | Raise e => Raise e
      end
  end.

(** [self.persist(persist_path, fs)] *)
Definition persist : M heap unit :=
  h <- get ;;
  let self := fst h in
  match node_dict self with
  | [] => ret tt
  | _ :: _ =>
      in_world (logging_info "Persisting to DB..." NoArg) ;;;
      lists <- lift_result (collect (node_dict self) ([], [], [], [])) ;;
      let '(pages_id, pages_text, embeddings, pages_num) := lists in
      dsn <- lift_result (getattr self "DSN") ;;
      in_world
        (with_connect drv
           (Build_connect_args (DB_USER cfg) (DB_PWD cfg) dsn
              None (Some (WALLET_LOCATION cfg)) None)
           (save_chunks_with_embeddings_in_db cfg drv
              pages_id pages_text pages_num embeddings PyNone ;;;
            commit drv)) ;;;
      modify (fun h => (set_node_dict [] (fst h), snd h))
  end.

End Methods.

End OracleVectorStore.

(* ===================================================================== *)
(** * Vocabulary of the specifications *)
(* ===================================================================== *)

(** The test of [oracle_query] on a row:
    [1 - row[3] >= st.session_state['similarity']]. *)
Definition passes (threshold : float) (row : select_row) : bool :=
  (threshold <=? 1 - row_3 row)%float.

(** Reading the CLOBs of a list of rows, first to last; the first failure
    ends it. *)
Fixpoint read_rows (rows : list select_row) : result (list (select_row * string)) :=
  match rows with
  | [] => Ok []
  | row :: rest =>
      match read_outcome (row_1 row) with
      | Raise e => Raise e
      | Ok t =>
          match read_rows rest with
          | Ok l => Ok ((row, t) :: l)
          | Raise e => Raise e
          end
      end
  end.

Definition node_of (rt : select_row * string) : TextNode := node_of_row (fst rt) (snd rt).

(** The three lists built from rows with their texts. *)
Definition lists_of (l : list (select_row * string))
  : list TextNode * list string * list float :=
  (map node_of l, map (fun rt => row_0 (fst rt)) l, map (fun rt => row_3 (fst rt)) l).

(** The metadata entry ["Similarity Score"] of a result node. *)
Definition similarity_score (n : TextNode) : option pyobj :=
  metadata n !! "Similarity Score".

(** The arguments with which [oracle_query] connects. *)
Definition query_connect_args (cfg : config) : connect_args :=
  Build_connect_args (DB_USER cfg) (DB_PWD cfg) (PyStr (DSN cfg))
    (Some (WALLET_LOCATION cfg)) (Some (CONFIG_DIR cfg)) (Some (WALLET_PASSWORD cfg)).


(** The record that the [except] branch of [oracle_query] logs. *)
Definition query_error_record (e : exn) : log_record :=
  LogRecord "ConsoleLogger" ERROR "Error occurred in oracle_query: " (ExnArg e).

(** The result of a query in which no row passes the floor. *)
Definition empty_result : VectorStoreQueryResult :=
  Build_VectorStoreQueryResult [] [] [].

(** The order of [ORDER BY] on distances: Oracle ranks NaN after every
    number. *)
Definition dist_le (a b : float) : bool :=
  (negb (b =? b) || (a <=? b))%float.

(** Rows ranked closest first. *)
Definition ranked (rows : list select_row) : Prop :=
  StronglySorted (fun a b => dist_le (row_3 a) (row_3 b) = true) rows.

(** The instances that the class itself produces: built by [__init__],
    then changed by its methods only. *)
Inductive produced (cfg : config) (drv : oracledb) : OracleVectorStore.instance -> Prop :=
| produced_init v h :
    produced cfg drv (OracleVectorStore.__init__ v h)
| produced_add self nodes :
    produced cfg drv self ->
    produced cfg drv (fst (OracleVectorStore.add self nodes))
| produced_persist self w :
    produced cfg drv self ->
    produced cfg drv (fst (snd (OracleVectorStore.persist cfg drv (self, w))))
| produced_query self q w :
    produced cfg drv self ->
    produced cfg drv (fst (snd (OracleVectorStore.query cfg drv q (self, w))))
| produced_delete self node_id kw w :
    produced cfg drv self ->
    produced cfg drv (fst (snd (OracleVectorStore.delete node_id kw (self, w)))).

(** The last node of [nodes] whose id is [k]. *)
Fixpoint last_with_id (k : string) (nodes : list TextNode) : option TextNode :=
  match nodes with
  | [] => None
  | n :: rest =>
      match last_with_id k rest with
      | Some n' => Some n'
      | None => if String.eqb k (id_ n) then Some n else None
      end
  end.

(** The binary vector that [oracle_query] binds for [embed_query]. *)
Definition bound_vector (cfg : config) (embed_query : list float) : Array.array :=
  Array.Build_array (array_type cfg)
    (concat (map (Array.pack_item (array_type cfg)) embed_query)).

(** What the loop over the fetched rows yields under session [ss]: the
    rows that pass, with their texts, or the first exception. *)
Definition scan (ss : session_state) (rows : list select_row)
  : result (list (select_row * string)) :=
  match rows with
  | [] => Ok []
  | _ :: _ =>
      match ss_similarity ss with
      | None => Raise (KeyError "similarity")
      | Some threshold => read_rows (List.filter (passes threshold) rows)
      end
  end.

(** The outcome of the [try] block of [oracle_query] once the connection
    is open. *)
Definition connected_outcome (cfg : config) (drv : oracledb)
    (embed_query : list float) (top_k : Z) (approximate : bool) (ss : session_state)
  : result (list (select_row * string)) :=
  match cursor_outcome drv with
  | Some e => Raise e
  | None =>
      match ordered_rows drv (if approximate then "APPROXIMATE" else "")
              (bound_vector cfg embed_query) with
      | Raise e => Raise e
      | Ok rows => scan ss (firstn (Z.to_nat top_k) rows)
      end
  end.

(** The world once [oracle_query] has opened and closed its connection. *)
Definition after_connection (cfg : config) (w : world) : world :=
  set_pending (fun _ => []) (set_opened (fun l => l ++ [query_connect_args cfg]) w).

Definition result_of (l : list (select_row * string)) : VectorStoreQueryResult :=
  Build_VectorStoreQueryResult
    (map node_of l) (map (fun rt => row_3 (fst rt)) l) (map (fun rt => row_0 (fst rt)) l).

Definition logged (r : log_record) (w : world) : world :=
  set_log (fun l => l ++ [r]) w.

(** The arguments with which [persist] connects, given the value of
    [self.DSN]. *)
Definition persist_connect_args (cfg : config) (dsn : pyobj) : connect_args :=
  Build_connect_args (DB_USER cfg) (DB_PWD cfg) dsn None (Some (WALLET_LOCATION cfg)) None.

(** A staged node whose metadata has the key ["page#"]. *)
Definition has_page (kv : string * TextNode) : Prop :=
  is_Some (metadata (snd kv) !! "page#").

(** The clause that [oracle_query] puts between FETCH and FIRST. *)
Definition clause_of (approximate : bool) : string :=
  if approximate then "APPROXIMATE" else "".

(** Ascending and descending lists of floats. *)
Definition ascending (l : list float) : Prop :=
  StronglySorted (fun a b => (a <=? b)%float = true) l.
Definition descending (l : list float) : Prop :=
  StronglySorted (fun a b => (b <=? a)%float = true) l.

(** The situation that the specification describes as a limitation of
    filtering after the limit: a successful query over a store that ranks
    by distance returns fewer than [top_k] results although a row beyond
    the first [top_k] of the ranking satisfies the floor. *)
Definition fewer_than_top_k_despite_qualifying_row : Prop :=
  exists (cfg : config) (drv : oracledb) (embed_query : list float) (top_k : Z)
         (verbose approximate : bool) (w : world) (r : VectorStoreQueryResult)
         (ranking : list select_row) (threshold : float),
    fst (oracle_query cfg drv embed_query top_k verbose approximate w) = Ok (Some r) /\
    ordered_rows drv (clause_of approximate) (bound_vector cfg embed_query) = Ok ranking /\
    ranked ranking /\
    ss_similarity (session w) = Some threshold /\
    (List.length (nodes r) < Z.to_nat top_k)%nat /\
    Exists (fun row => passes threshold row = true) (skipn (Z.to_nat top_k) ranking).

(* ===================================================================== *)
(** * Vocabulary for the effects of [query], [persist] and the insert loop *)
(* ===================================================================== *)

(** The configuration that differs from [cfg] in [ADD_PHX_TRACING] only. *)
Definition with_tracing (b : bool) (cfg : config) : config :=
  Config (DB_USER cfg) (DB_PWD cfg) (DB_HOST_IP cfg) (DB_SERVICE cfg)
    (EMBEDDINGS_BITS cfg) b (DSN cfg) (WALLET_LOCATION cfg) (WALLET_PASSWORD cfg)
    (CONFIG_DIR cfg).

(** The record that [query] logs on a verbose instance. *)
Definition calling_record (top_k : Z) : log_record :=
  LogRecord "root" INFO "---> Calling query on DB with top_k=" (ZArg top_k).

(** The world in which [query] calls [oracle_query]: the record of a
    verbose instance is logged, and the span is started when tracing is
    on. *)
Definition before_oracle_query (cfg : config) (self : OracleVectorStore.instance)
    (top_k : Z) (w : world) : world :=
  let w1 := if OracleVectorStore.verbose self then logged (calling_record top_k) w else w in
  if ADD_PHX_TRACING cfg
  then set_spans (fun l => l ++ ["oracle_vector_db"]) w1
  else w1.

(** The records of [save_chunks_with_embeddings_in_db]. *)
Definition saving_record : log_record :=
  LogRecord "root" INFO "Saving texts and embeddings to DB..." NoArg.
Definition row_error_record (e : exn) : log_record :=
  LogRecord "root" ERROR "Error in save_chunks_with_embeddings: " (ExnArg e).
Definition total_record (tot_errors : nat) : log_record :=
  LogRecord "root" INFO "Total errors in save_chunks_with_embeddings: " (NatArg tot_errors).
Definition critical_record (e : exn) : log_record :=
  LogRecord "root" ERROR "Critical error in save_chunks_with_embeddings_in_db: " (ExnArg e).

(** The exception of [array.array(array_type, None)]. *)
Definition not_iterable : exn := TypeError "'NoneType' object is not iterable".

(** The parameters that the insert loop binds for one item of the zipped
    lists; there are none when the embedding is [None]. *)
Definition item_row (cfg : config) (book_id : pyobj)
    (it : string * string * pyobj * option (list float)) : option insert_row :=
  let '(id, text, page_num, vector) := it in
  match vector with
  | Some v => Some (Build_insert_row id text (bound_vector cfg v) page_num book_id)
  | None => None
  end.

(** The parameters that [persist] binds for a staged node. *)
Definition staged_row (cfg : config) (node : TextNode) : option insert_row :=
  match metadata node !! "page#" with
  | Some page => item_row cfg PyNone (id_ node, text node, page, embedding node)
  | None => None
  end.

(** The database's side of a sequence of inserts in one transaction that
    already holds [done]: the rows of the transaction afterwards, and the
    exceptions of the refused rows, in order. *)
Fixpoint accepted (drv : oracledb) (rows done : list insert_row) : list insert_row :=
  match rows with
  | [] => done
  | r :: rest =>
      match insert_outcome drv r done with
      | None => accepted drv rest (done ++ [r])
      | Some _ => accepted drv rest done
      end
  end.

Fixpoint refusals (drv : oracledb) (rows done : list insert_row) : list exn :=
  match rows with
  | [] => []
  | r :: rest =>
      match insert_outcome drv r done with
      | None => refusals drv rest (done ++ [r])
      | Some e => e :: refusals drv rest done
      end
  end.

(** The world after the insert loop has gone through [rows]. *)
Definition after_inserts (drv : oracledb) (rows : list insert_row) (w : world) : world :=
  set_pending (fun _ => accepted drv rows (pending w))
    (set_log (fun l => l ++ map row_error_record (refusals drv rows (pending w))) w).

(** The ids of a list in the order of their first occurrence. *)
Fixpoint first_occurrences (l : list string) : list string :=
  match l with
  | [] => []
  | x :: rest => x :: List.filter (fun y => negb (String.eqb y x)) (first_occurrences rest)
  end.

(** [k not in keys] *)
Definition not_among (keys : list string) (k : string) : bool :=
  negb (existsb (String.eqb k) keys).

(** A staging buffer as [add] builds it: no key twice, every node under
    its own id. *)
Definition well_keyed (d : odict TextNode) : Prop :=
  List.NoDup (odict_keys d) /\ Forall (fun kv => fst kv = id_ (snd kv)) d.

(** The shortest of the four lists that the insert loop zips. *)
Definition shortest {A B C D} (la : list A) (lb : list B) (lc : list C) (ld : list D) : nat :=
  Nat.min (Nat.min (List.length la) (List.length lb))
          (Nat.min (List.length lc) (List.length ld)).

(* ===================================================================== *)
(** * Concrete configurations, databases and nodes *)
(* ===================================================================== *)

Definition example_cfg : config :=
  Config "rag" "secret" "10.0.0.5" "ragpdb" 32 false "ragdb_high" "/wallet" "wpw" "/wallet".

Definition example_row (id : string) (d : float) : select_row :=
  Build_select_row id (Build_LOB (Ok (String.append "chunk " id))) 1 d "book.pdf".

(** A row whose CLOB cannot be read. *)
Definition unreadable_row (id : string) (d : float) : select_row :=
  Build_select_row id (Build_LOB (Raise (DatabaseError "ORA-22922"))) 1 d "book.pdf".

(** A database that answers every call and ranks [rows] for any query
    vector. *)
Definition serving (rows : list select_row) : oracledb :=
  Build_oracledb (fun _ => None) None (fun _ _ => Ok rows) (fun _ _ => None) None.

(** A database that cannot be reached. *)
Definition unreachable : oracledb :=
  Build_oracledb (fun _ => Some (DatabaseError "DPY-6005")) None
    (fun _ _ => Ok []) (fun _ _ => None) None.

(** A database that refuses the rows whose id is [bad]. *)
Definition rejecting (bad : string) : oracledb :=
  Build_oracledb (fun _ => None) None (fun _ _ => Ok [])
    (fun r _ => if String.eqb (ins_id r) bad then Some (DatabaseError "ORA-00001") else None)
    None.

Definition example_world (top_k : Z) (floor : float) : world :=
  Build_world [] [] [] [] [] (Build_session_state (Some top_k) (Some floor)).

Definition example_node (id : string) (page : Z) : TextNode :=
  Build_TextNode id (String.append "chunk " id) (Some [0.5; 0.25]%float) (<["page#" := PyInt page]> ∅).

(** A node whose metadata has no page number. *)
Definition pageless_node (id : string) : TextNode :=
  Build_TextNode id (String.append "chunk " id) (Some [0.5; 0.25]%float) ∅.

Definition fresh : OracleVectorStore.instance := OracleVectorStore.__init__ false false.

(** The record that [persist] logs first. *)
Definition persisting_record : log_record :=
  LogRecord "root" INFO "Persisting to DB..." NoArg.

(** The message of [delete]. *)
Definition delete_message : string :=
  "Delete not yet implemented for Oracle Vector Store.".

(** Three rows at distances 0.125, 0.25 and 0.5, closest first. *)
Definition three_rows : list select_row :=
  [example_row "a" 0.125; example_row "b" 0.25; example_row "c" 0.5]%float.


(** The Python floats [0.1], [0.2] and [0.3]: the binary64 numbers
    nearest to the decimal fractions, written in hexadecimal. *)
Definition scenario_vector : list float :=
  [0x1.999999999999ap-4; 0x1.999999999999ap-3; 0x1.3333333333333p-2]%float.

(** The machine epsilon of binary32, [2^-23]. *)
Definition float32_epsilon : float := 0x1p-23%float.

(** [y] lies within [eps] of [x], absolutely and relative to [x]. *)
Definition within (eps x y : float) : bool :=
  ((abs (y - x) <=? eps) && (abs (y - x) <=? eps * abs x))%float.

(* ===================================================================== *)
(** * Further instances, worlds and rows *)
(* ===================================================================== *)

(** An instance to which a caller has assigned a [DSN] attribute. *)
Definition dsn_assigned : OracleVectorStore.instance :=
  OracleVectorStore.Build_instance false false [] (<["DSN" := PyStr "ragdb_high"]> ∅).

(** A verbose instance with one staged node. *)
Definition verbose_staged : OracleVectorStore.instance :=
  fst (OracleVectorStore.add (OracleVectorStore.__init__ true false) [example_node "z" 9]).

(** A world whose session has ["top_k"] and no ["similarity"]. *)
Definition floorless_world (top_k : Z) : world :=
  Build_world [] [] [] [] [] (Build_session_state (Some top_k) None).

(** A world in which something was logged and traced before. *)
Definition used_world (top_k : Z) (floor : float) : world :=
  Build_world [persisting_record] [] [] [] ["earlier"]
    (Build_session_state (Some top_k) (Some floor)).

(** The parameters bound for [example_node id page]. *)
Definition example_insert (id : string) (page : Z) : insert_row :=
  Build_insert_row id (String.append "chunk " id)
    (bound_vector example_cfg [0.5; 0.25]%float) (PyInt page) PyNone.

(* ===================================================================== *)
(** * Vocabulary for binary64 arithmetic *)
(* ===================================================================== *)

(** The order of Python floats and the monotonicity of [1 - d] are proved
    from the specification of the primitive floats ([SpecFloat]).  The
    value of a binary64 number is measured in units of the smallest
    subnormal, [2^-1074], which makes it an integer. *)

#[local] Open Scope Z_scope.

(** The value of a number in units of [2^-1074]; the infinities lie just
    beyond the largest finite number. *)
Definition SF2Z (x : spec_float) : Z :=
  match x with
  | S754_zero _ => 0
  | S754_nan => 0
  | S754_infinity s => cond_Zopp s (2 ^ 2098)
  | S754_finite s m e => cond_Zopp s (Z.pos m * 2 ^ (e + 1074))
  end.

(** Round to nearest, ties to even, the quotient of [m] by [2^k]. *)
Definition rne (m k : Z) : Z :=
  let q := m / 2 ^ k in
  match 2 * (m mod 2 ^ k) ?= 2 ^ k with
  | Lt => q
  | Eq => if Z.even q then q else q + 1
  | Gt => q + 1
  end.

(** Round a positive integer to 53 significant bits. *)
Definition rnd53 (v : Z) : Z :=
  let k := Z.max 0 (Z.log2 v - 52) in rne v k * 2 ^ k.

(** Rounding of integers, odd and monotone. *)
Definition rndZ (v : Z) : Z :=
  match v with
  | 0 => 0
  | Z.pos _ => rnd53 v
  | Z.neg p => - rnd53 (Z.pos p)
  end.

(** The rounding bit [r] and the sticky bit [s] describe a remainder
    [rem] of a division by [2^k]. *)
Definition loc_ok (r s : bool) (rem k : Z) : Prop :=
  match r, s with
  | false, false => rem = 0
  | false, true => 0 < rem /\ 2 * rem < 2 ^ k
  | true, false => 2 * rem = 2 ^ k
  | true, true => 2 ^ k < 2 * rem
  end.

(** [mrs] is what [k] right shifts make of [m]. *)
Definition shr_inv (m k : Z) (mrs : shr_record) : Prop :=
  0 <= shr_m mrs /\
  exists rem, m = shr_m mrs * 2 ^ k + rem /\ 0 <= rem < 2 ^ k /\
              loc_ok (shr_r mrs) (shr_s mrs) rem k.

Definition not_nan (x : spec_float) : Prop :=
  match x with S754_nan => False | _ => True end.

(** The number one. *)
Definition SF_one : spec_float := S754_finite false (2 ^ 52)%positive (-52).

#[local] Close Scope Z_scope.

(* ===================================================================== *)
(** * Properties of the monad and of the query loop *)
(* ===================================================================== *)

Lemma array_type_cases (cfg : config) :
  array_type cfg = "d" \/ array_type cfg = "f".
Proof. unfold array_type. destruct (EMBEDDINGS_BITS cfg =? 64)%Z; auto. Qed.

Lemma array_of_array_type (cfg : config) (v : list float) :
  Array.array_ (array_type cfg) v = Ok (bound_vector cfg v).
Proof.
  unfold Array.array_, bound_vector.
  destruct (array_type_cases cfg) as [-> | ->]; reflexivity.
Qed.

Lemma in_world_run {A} (m : M world A) (self : OracleVectorStore.instance) (w : world) :
  OracleVectorStore.in_world m (self, w) = (fst (m w), (self, snd (m w))).
Proof.
  unfold OracleVectorStore.in_world, zoom. simpl. destruct (m w); reflexivity.
Qed.

Section QueryLoop.

Variable cfg : config.
Variable drv : oracledb.

Lemma process_rows_passing (rows : list select_row) :
  forall nl il sl (w : world) threshold,
    ss_similarity (session w) = Some threshold ->
    process_rows rows (nl, il, sl) w =
    match read_rows (List.filter (passes threshold) rows) with
    | Ok l => (Ok (nl ++ map node_of l,
                   il ++ map (fun rt => row_0 (fst rt)) l,
                   sl ++ map (fun rt => row_3 (fst rt)) l), w)
    | Raise e => (Raise e, w)
    end.
Proof.
  induction rows as [|row rest IH]; intros nl il sl w threshold Hth.
  - simpl. unfold ret. now rewrite !app_nil_r.
  - simpl. unfold bind at 1. unfold session_get, bind, get. rewrite Hth.
    unfold ret at 1. unfold passes at 1.
    destruct (threshold <=? 1 - row_3 row)%float.
    + simpl. unfold LOB_read, lift_result.
      destruct (read_outcome (row_1 row)) as [t|e].
      * unfold ret at 1. rewrite (IH _ _ _ w threshold Hth).
        destruct (read_rows (List.filter (passes threshold) rest)) as [l|e]; [|reflexivity].
        simpl. unfold node_of at 2. simpl. now rewrite <- !app_assoc.
      * reflexivity.
    + apply IH, Hth.
Qed.

Lemma process_rows_scan (rows : list select_row) (w : world) :
  process_rows rows ([], [], []) w =
  match scan (session w) rows with
  | Ok l => (Ok (lists_of l), w)
  | Raise e => (Raise e, w)
  end.
Proof.
  destruct rows as [|row rest]; [reflexivity|].
  unfold scan. destruct (ss_similarity (session w)) as [threshold|] eqn:Hth.
  - rewrite (process_rows_passing _ _ _ _ w threshold Hth).
    destruct (read_rows _); reflexivity.
  - simpl. unfold bind, session_get, bind, get. now rewrite Hth.
Qed.

(** [oracle_query] in closed form. *)
Lemma oracle_query_run (embed_query : list float) (top_k : Z)
    (verbose approximate : bool) (w : world) :
  oracle_query cfg drv embed_query top_k verbose approximate w =
  match connect_outcome drv (query_connect_args cfg) with
  | Some e => (Ok None, logged (query_error_record e) w)
  | None =>
      match connected_outcome cfg drv embed_query top_k approximate (session w) with
      | Raise e => (Ok None, logged (query_error_record e) (after_connection cfg w))
      | Ok l => (Ok (Some (result_of l)), after_connection cfg w)
      end
  end.
Proof.
  unfold oracle_query, connected_outcome. fold (query_connect_args cfg).
  cbv [bind ret raise try_except with_connect with_cursor outcome modify get
       lift_result execute_select logger_error emit approx_clause fetch_first].
  destruct (connect_outcome drv (query_connect_args cfg)) as [e|]; [reflexivity|].
  destruct (cursor_outcome drv) as [e|]; [reflexivity|].
  rewrite array_of_array_type.
  destruct (ordered_rows drv _ _) as [rows|e]; [|reflexivity].
  rewrite process_rows_scan. simpl.
  destruct (scan _ _) as [l|e]; reflexivity.
Qed.

End QueryLoop.

(* ===================================================================== *)
(** * The staging buffer *)
(* ===================================================================== *)

Lemma odict_get_set {V} (k k' : string) (v : V) (d : odict V) :
  odict_get k (odict_set k' v d) = if String.eqb k k' then Some v else odict_get k d.
Proof.
  induction d as [|[k0 v0] d IH]; simpl.
  - reflexivity.
  - destruct (String.eqb_spec k' k0) as [->|Hne]; simpl.
    + destruct (String.eqb k k0); reflexivity.
    + rewrite IH. destruct (String.eqb_spec k k0) as [->|Hne'].
      * destruct (String.eqb_spec k0 k') as [Heq|_]; [congruence|reflexivity].
      * reflexivity.
Qed.

Lemma odict_set_In_keys {V} (k : string) (v : V) (d : odict V) (x : string) :
  In x (odict_keys (odict_set k v d)) <-> x = k \/ In x (odict_keys d).
Proof.
  induction d as [|[k0 v0] d IH]; simpl.
  - intuition.
  - destruct (String.eqb_spec k k0) as [->|Hne]; simpl.
    + intuition.
    + rewrite IH. intuition.
Qed.

Lemma odict_set_NoDup {V} (k : string) (v : V) (d : odict V) :
  List.NoDup (odict_keys d) -> List.NoDup (odict_keys (odict_set k v d)).
Proof.
  induction d as [|[k0 v0] d IH]; simpl; intros Hnd.
  - constructor; [intros []|constructor].
  - inversion Hnd as [|? ? Hnotin Hnd']; subst.
    destruct (String.eqb_spec k k0) as [->|Hne]; simpl.
    + constructor; assumption.
    + constructor; [|auto].
      intros Hin. apply odict_set_In_keys in Hin as [Heq|Hin]; [congruence|contradiction].
Qed.

Lemma add_loop_ids (nodes : list TextNode) :
  forall d ids_list,
    snd (OracleVectorStore.add_loop nodes d ids_list) = ids_list ++ map id_ nodes.
Proof.
  induction nodes as [|n rest IH]; intros d ids_list; simpl.
  - now rewrite app_nil_r.
  - rewrite IH, <- app_assoc. reflexivity.
Qed.

Lemma add_loop_get (nodes : list TextNode) (k : string) :
  forall d ids_list,
    odict_get k (fst (OracleVectorStore.add_loop nodes d ids_list)) =
    match last_with_id k nodes with
    | Some n => Some n
    | None => odict_get k d
    end.
Proof.
  induction nodes as [|n rest IH]; intros d ids_list; simpl.
  - reflexivity.
  - rewrite IH. destruct (last_with_id k rest); [reflexivity|].
    rewrite odict_get_set. destruct (String.eqb k (id_ n)); reflexivity.
Qed.

Lemma add_loop_In_keys (nodes : list TextNode) (x : string) :
  forall d ids_list,
    In x (odict_keys (fst (OracleVectorStore.add_loop nodes d ids_list))) <->
    In x (odict_keys d) \/ In x (map id_ nodes).
Proof.
  induction nodes as [|n rest IH]; intros d ids_list; simpl.
  - intuition.
  - rewrite IH, odict_set_In_keys. intuition.
Qed.

Lemma add_loop_NoDup (nodes : list TextNode) :
  forall d ids_list,
    List.NoDup (odict_keys d) ->
    List.NoDup (odict_keys (fst (OracleVectorStore.add_loop nodes d ids_list))).
Proof.
  induction nodes as [|n rest IH]; intros d ids_list Hnd; simpl.
  - assumption.
  - apply IH, odict_set_NoDup, Hnd.
Qed.

Lemma add_loop_app (n1 n2 : list TextNode) :
  forall d ids_list,
    fst (OracleVectorStore.add_loop (n1 ++ n2) d ids_list) =
    fst (OracleVectorStore.add_loop n2
           (fst (OracleVectorStore.add_loop n1 d ids_list)) []).
Proof.
  induction n1 as [|n rest IH]; intros d ids_list; simpl.
  - revert d ids_list. generalize (@nil string).
    induction n2 as [|m n2 IH2]; intros l d ids_list; simpl; [reflexivity|].
    apply IH2.
  - apply IH.
Qed.

Lemma add_run (self : OracleVectorStore.instance) (nodes : list TextNode) :
  OracleVectorStore.add self nodes =
  (OracleVectorStore.set_node_dict
     (fst (OracleVectorStore.add_loop nodes (OracleVectorStore.node_dict self) [])) self,
   map id_ nodes).
Proof.
  unfold OracleVectorStore.add.
  pose proof (add_loop_ids nodes (OracleVectorStore.node_dict self) []) as Hids.
  destruct (OracleVectorStore.add_loop nodes (OracleVectorStore.node_dict self) []) as [d l].
  simpl in *. now subst.
Qed.

(** Distinct ids, counted. *)
Lemma staged_count (nodes : list TextNode) :
  List.length (fst (OracleVectorStore.add_loop nodes [] [])) =
  List.length (nodup string_dec (map id_ nodes)).
Proof.
  rewrite <- (length_map fst). change (map fst ?d) with (odict_keys d).
  apply Permutation.Permutation_length, Permutation.NoDup_Permutation.
  - apply add_loop_NoDup. constructor.
  - apply NoDup_nodup.
  - intros x. rewrite add_loop_In_keys, nodup_In. simpl. intuition.
Qed.

(* ===================================================================== *)
(** * [persist], [query] and [delete] on the instance *)
(* ===================================================================== *)

Section Persist.

Variable cfg : config.
Variable drv : oracledb.

(** [persist] in closed form. *)
Lemma persist_run (self : OracleVectorStore.instance) (w : world) :
  OracleVectorStore.persist cfg drv (self, w) =
  match OracleVectorStore.node_dict self with
  | [] => (Ok tt, (self, w))
  | _ :: _ =>
      match OracleVectorStore.collect (OracleVectorStore.node_dict self) ([], [], [], []) with
      | Raise e => (Raise e, (self, logged persisting_record w))
      | Ok (pages_id, pages_text, embeddings, pages_num) =>
          match OracleVectorStore.getattr self "DSN" with
          | Raise e => (Raise e, (self, logged persisting_record w))
          | Ok dsn =>
              match with_connect drv (persist_connect_args cfg dsn)
                      (save_chunks_with_embeddings_in_db cfg drv
                         pages_id pages_text pages_num embeddings PyNone ;;;
                       commit drv)
                      (logged persisting_record w) with
              | (Ok _, w') => (Ok tt, (OracleVectorStore.set_node_dict [] self, w'))
              | (Raise e, w') => (Raise e, (self, w'))
              end
          end
      end
  end.
Proof.
  unfold OracleVectorStore.persist. unfold bind at 1. unfold get at 1. cbn [fst snd].
  destruct (OracleVectorStore.node_dict self) as [|kv rest] eqn:Hd; [reflexivity|].
  set (c := OracleVectorStore.collect (kv :: rest) ([], [], [], [])). clearbody c.
  unfold bind at 1. rewrite in_world_run.
  change (fst (logging_info "Persisting to DB..." NoArg w)) with (@Ok unit tt).
  change (snd (logging_info "Persisting to DB..." NoArg w)) with (logged persisting_record w).
  cbv iota beta. unfold bind at 1.
  destruct c as [[[[pages_id pages_text] embeddings] pages_num]|e]; [|reflexivity].
  cbn [lift_result ret]. unfold bind at 1.
  destruct (OracleVectorStore.getattr self "DSN") as [dsn|e]; [|reflexivity].
  cbn [lift_result ret]. unfold bind at 1. rewrite in_world_run.
  fold (persist_connect_args cfg dsn).
  destruct (with_connect drv (persist_connect_args cfg dsn) _ _) as [[[]|e] w']; reflexivity.
Qed.

Lemma collect_raises (items : odict TextNode) :
  forall acc e, OracleVectorStore.collect items acc = Raise e -> e = KeyError "page#".
Proof.
  induction items as [|[k n] rest IH]; intros [[[a b] c] d] e; simpl.
  - discriminate.
  - unfold getitem. destruct (metadata n !! "page#").
    + apply IH.
    + congruence.
Qed.

Lemma collect_succeeds (items : odict TextNode) :
  forall acc, Forall has_page items <-> exists l, OracleVectorStore.collect items acc = Ok l.
Proof.
  induction items as [|[k n] rest IH]; intros [[[a b] c] d]; simpl.
  - split; [eauto|constructor].
  - unfold getitem. destruct (metadata n !! "page#") as [p|] eqn:Hp.
    + rewrite <- IH. split.
      * intros H. now inversion H.
      * intros H. constructor; [|assumption]. unfold has_page. simpl. rewrite Hp. eauto.
    + split.
      * intros H. inversion H as [|? ? [p Hp'] _]; subst. simpl in Hp'. congruence.
      * intros [l Hl]. discriminate.
Qed.

Lemma persist_attrs (self : OracleVectorStore.instance) (w : world) :
  OracleVectorStore.attrs (fst (snd (OracleVectorStore.persist cfg drv (self, w)))) =
  OracleVectorStore.attrs self.
Proof.
  rewrite persist_run.
  destruct (OracleVectorStore.node_dict self); [reflexivity|].
  destruct (OracleVectorStore.collect _ _) as [[[[? ?] ?] ?]|?]; [|reflexivity].
  destruct (OracleVectorStore.getattr self "DSN"); [|reflexivity].
  destruct (with_connect _ _ _ _) as [[[]|?] ?]; reflexivity.
Qed.

Lemma query_instance (q : VectorStoreQuery) (self : OracleVectorStore.instance) (w : world) :
  fst (snd (OracleVectorStore.query cfg drv q (self, w))) = self.
Proof.
  unfold OracleVectorStore.query. unfold bind at 1. rewrite in_world_run.
  unfold session_get, bind, get.
  destruct (ss_top_k (session w)) as [k|]; [|reflexivity].
  simpl. destruct (OracleVectorStore.verbose self).
  - rewrite in_world_run. simpl. rewrite in_world_run. reflexivity.
  - simpl. rewrite in_world_run. reflexivity.
Qed.

Lemma produced_attrs (self : OracleVectorStore.instance) :
  produced cfg drv self -> OracleVectorStore.attrs self = ∅.
Proof.
  induction 1 as [v h|self nodes _ IH|self w _ IH|self q w _ IH|self node_id kw w _ IH].
  - reflexivity.
  - rewrite add_run. exact IH.
  - rewrite persist_attrs. exact IH.
  - rewrite query_instance. exact IH.
  - exact IH.
Qed.

Lemma produced_getattr_DSN (self : OracleVectorStore.instance) :
  produced cfg drv self ->
  OracleVectorStore.getattr self "DSN" = Raise (AttributeError "DSN").
Proof.
  intros H. unfold OracleVectorStore.getattr. now rewrite (produced_attrs self H).
Qed.

End Persist.

(* ===================================================================== *)
(** * Binary64 arithmetic: order and rounding *)
(* ===================================================================== *)

Module Binary64.

#[local] Open Scope Z_scope.

Lemma digits2_size (m : positive) : digits2_pos m = Pos.size m.
Proof. induction m; simpl; congruence. Qed.

Lemma digits2_log2 (m : positive) : Z.pos (digits2_pos m) = Z.log2 (Z.pos m) + 1.
Proof.
rewrite digits2_size. destruct m; simpl; try reflexivity; rewrite Pos2Z.inj_succ; lia.
Qed.

Lemma iter_pos_iter {A} (f : A -> A) (p : positive) :
forall x, SpecFloat.iter_pos f p x = Pos.iter f x p.
Proof.
induction p; intros x; simpl.
- rewrite !IHp. rewrite !Pos.iter_swap. reflexivity.
- rewrite !IHp. reflexivity.
- reflexivity.
Qed.

Lemma shift_left_value (m d : positive) :
Z.pos (Pos.iter xO m d) = Z.pos m * 2 ^ Z.pos d.
Proof.
induction d using Pos.peano_ind.
- simpl. lia.
- rewrite Pos.iter_succ, Pos2Z.inj_succ, Z.pow_succ_r by lia.
  rewrite Pos2Z.inj_xO, IHd. lia.
Qed.

Lemma shl_align_value (m : positive) (e e' : Z) :
e' <= e ->
Z.pos (fst (shl_align m e e')) = Z.pos m * 2 ^ (e - e') /\ snd (shl_align m e e') = e'.
Proof.
intros H. unfold shl_align.
destruct (e' - e) as [|p|p] eqn:E; cbn [fst snd].
- assert (e = e') by lia. subst. rewrite Z.sub_diag, Z.pow_0_r. split; lia.
- lia.
- rewrite shift_left_value. split; [|reflexivity]. f_equal. f_equal. lia.
Qed.

Lemma shr_inv_0 (m : Z) : 0 <= m -> shr_inv m 0 (Build_shr_record m false false).
Proof.
intros H. split; [assumption|]. exists 0. simpl. repeat split; lia.
Qed.

Lemma shr_inv_step (m k : Z) (mrs : shr_record) :
0 <= k -> shr_inv m k mrs -> shr_inv m (k + 1) (shr_1 mrs).
Proof.
intros Hk [Hq (rem & Hm & Hrem & Hloc)].
destruct mrs as [q r s]. simpl in *. unfold shr_inv.
assert (HP2 : 2 ^ (k + 1) = 2 * 2 ^ k) by (rewrite Z.pow_add_r, Z.pow_1_r; lia).
assert (HP : 0 < 2 ^ k) by (apply Z.pow_pos_nonneg; lia).
rewrite HP2. unfold loc_ok in *. rewrite HP2.
set (P := 2 ^ k) in *. clearbody P.
destruct q as [|[p|p|]|p]; cbn [shr_m shr_r shr_s]; try lia.
- split; [lia|]. exists rem.
  repeat split; try lia. destruct r, s; cbn [orb] in *; lia.
- split; [lia|]. exists (P + rem). rewrite Pos2Z.inj_xI in Hm.
  repeat split; try lia. destruct r, s; cbn [orb] in *; lia.
- split; [lia|]. exists rem. rewrite Pos2Z.inj_xO in Hm.
  repeat split; try lia. destruct r, s; cbn [orb] in *; lia.
- split; [lia|]. exists (P + rem).
  repeat split; try lia. destruct r, s; cbn [orb] in *; lia.
Qed.

Lemma shr_inv_iter (m : Z) (p : positive) :
0 <= m -> shr_inv m (Z.pos p) (SpecFloat.iter_pos shr_1 p (Build_shr_record m false false)).
Proof.
intros Hm. rewrite iter_pos_iter.
induction p using Pos.peano_ind.
- change (Pos.iter shr_1 (Build_shr_record m false false) 1)
    with (shr_1 (Build_shr_record m false false)).
  change (Z.pos 1) with (0 + 1). apply (shr_inv_step m 0); [lia|].
  now apply shr_inv_0.
- rewrite Pos.iter_succ, Pos2Z.inj_succ. apply shr_inv_step; [lia|]. exact IHp.
Qed.

Lemma round_rne (m k : Z) (mrs : shr_record) :
0 <= k -> shr_inv m k mrs ->
round_nearest_even (shr_m mrs) (loc_of_shr_record mrs) = rne m k.
Proof.
intros Hk [Hq (rem & Hm & Hrem & Hloc)].
destruct mrs as [q r s]. cbn [shr_m shr_r shr_s loc_of_shr_record] in *.
assert (HP : 0 < 2 ^ k) by (apply Z.pow_pos_nonneg; lia).
unfold rne.
assert (Hd : m / 2 ^ k = q) by (symmetry; apply (Z.div_unique m (2 ^ k) q rem); [lia | rewrite Hm; ring]).
assert (Hr : m mod 2 ^ k = rem) by (symmetry; apply (Z.mod_unique m (2 ^ k) q rem); [lia | rewrite Hm; ring]).
rewrite Hd, Hr. cbv zeta.
destruct r, s; cbn [loc_ok round_nearest_even] in Hloc |- *.
- assert (H : (2 * rem ?= 2 ^ k) = Gt) by (apply Z.compare_gt_iff; lia). now rewrite H.
- assert (H : (2 * rem ?= 2 ^ k) = Eq) by (apply Z.compare_eq_iff; lia). now rewrite H.
- assert (H : (2 * rem ?= 2 ^ k) = Lt) by (apply Z.compare_lt_iff; lia). now rewrite H.
- assert (H : (2 * rem ?= 2 ^ k) = Lt) by (apply Z.compare_lt_iff; lia). now rewrite H.
Qed.

Lemma rne_0 (m : Z) : rne m 0 = m.
Proof. unfold rne. rewrite Z.pow_0_r, Z.mod_1_r, Z.div_1_r. reflexivity. Qed.

Lemma rne_bounds (m k : Z) :
0 <= k -> 0 <= m -> m / 2 ^ k <= rne m k <= m / 2 ^ k + 1.
Proof.
intros Hk Hm. unfold rne. cbv zeta.
destruct (2 * (m mod 2 ^ k) ?= 2 ^ k); [destruct (Z.even _)| |]; lia.
Qed.

Lemma fexp64_eq (z : Z) : fexp 53 1024 z = Z.max (z - 53) (-1074).
Proof. reflexivity. Qed.

Lemma shr_fexp_canonical (m : positive) (e : Z) :
fexp 53 1024 (Z.pos (digits2_pos m) + e) = e ->
shr_fexp 53 1024 (Z.pos m) e loc_Exact = (Build_shr_record (Z.pos m) false false, e).
Proof.
intros H. unfold shr_fexp. cbn [Zdigits2]. rewrite H, Z.sub_diag. reflexivity.
Qed.

Lemma binary_round_aux_canonical (s : bool) (m : positive) (e : Z) :
fexp 53 1024 (Z.pos (digits2_pos m) + e) = e ->
binary_round_aux 53 1024 s (Z.pos m) e loc_Exact =
if e <=? 971 then S754_finite s m e else S754_infinity s.
Proof.
intros H. unfold binary_round_aux. rewrite (shr_fexp_canonical m e H).
cbn [shr_m shr_r shr_s loc_of_shr_record round_nearest_even].
rewrite (shr_fexp_canonical m e H). reflexivity.
Qed.

Lemma pow2_pos (k : Z) : 0 <= k -> 0 < 2 ^ k.
Proof. intros. apply Z.pow_pos_nonneg; lia. Qed.

Lemma pow2_lt_inv (a b : Z) : 0 <= b -> 2 ^ a < 2 ^ b -> a < b.
Proof. intros Hb H. apply (Z.pow_lt_mono_r_iff 2); lia. Qed.

Lemma log2_bounds (m : positive) :
2 ^ Z.log2 (Z.pos m) <= Z.pos m < 2 ^ (Z.log2 (Z.pos m) + 1).
Proof. apply (Z.log2_spec (Z.pos m)). lia. Qed.

(** The exponent of a number below the overflow threshold. *)
Lemma magnitude_bound (m : positive) (e : Z) :
-1074 <= e ->
Z.pos m * 2 ^ (e + 1074) < 2 ^ 2098 - 2 ^ 2044 ->
Z.log2 (Z.pos m) + e < 1024.
Proof.
intros He HV.
pose proof (log2_bounds m) as [Hlo _].
pose proof (Z.log2_nonneg (Z.pos m)) as HL.
assert (H : 2 ^ (Z.log2 (Z.pos m) + (e + 1074)) < 2 ^ 2098).
{ rewrite Z.pow_add_r by lia.
  pose proof (pow2_pos (e + 1074)).
  assert (0 < 2 ^ 2044) by (apply pow2_pos; lia). nia. }
apply pow2_lt_inv in H; lia.
Qed.

Lemma binary_round_exact (s : bool) (m : positive) (e : Z) :
-1074 <= e ->
Z.log2 (Z.pos m) <= 52 ->
Z.log2 (Z.pos m) + e < 1024 ->
exists mf ef,
  binary_round 53 1024 s m e = S754_finite s mf ef /\
  -1074 <= ef /\
  Z.pos mf * 2 ^ (ef + 1074) = Z.pos m * 2 ^ (e + 1074).
Proof.
intros He HL Hmag.
pose proof (Z.log2_nonneg (Z.pos m)) as HL0.
unfold binary_round.
set (te := fexp 53 1024 (Z.pos (digits2_pos m) + e)).
assert (Hte : te = Z.max (Z.log2 (Z.pos m) + e - 52) (-1074)).
{ unfold te. rewrite fexp64_eq, digits2_log2. f_equal. lia. }
assert (Hle : te <= e) by lia.
destruct (shl_align_value m e te Hle) as [Hval Hsnd].
destruct (shl_align m e te) as [mz ez]. cbn [fst snd] in Hval, Hsnd. subst ez.
assert (Hcanon : fexp 53 1024 (Z.pos (digits2_pos mz) + te) = te).
{ rewrite fexp64_eq, digits2_log2, Hval.
  rewrite Z.log2_mul_pow2 by lia. lia. }
rewrite (binary_round_aux_canonical s mz te Hcanon).
assert (Hte971 : (te <=? 971) = true) by (apply Z.leb_le; lia).
rewrite Hte971. exists mz, te. split; [reflexivity|]. split; [lia|].
rewrite Hval, <- Z.mul_assoc, <- Z.pow_add_r by lia. f_equal. f_equal. lia.
Qed.

Lemma rne_up (m k : Z) :
rne m k = m / 2 ^ k + 1 -> 2 ^ k <= 2 * (m mod 2 ^ k).
Proof.
unfold rne. cbv zeta.
destruct (Z.compare_spec (2 * (m mod 2 ^ k)) (2 ^ k)); lia.
Qed.

Lemma shr_fexp_shift (m : positive) (e : Z) (p : positive) :
fexp 53 1024 (Z.pos (digits2_pos m) + e) - e = Z.pos p ->
shr_fexp 53 1024 (Z.pos m) e loc_Exact =
(SpecFloat.iter_pos shr_1 p (Build_shr_record (Z.pos m) false false), e + Z.pos p).
Proof.
intros H. unfold shr_fexp. cbn [Zdigits2 shr_record_of_loc]. rewrite H. reflexivity.
Qed.

Lemma shr_fexp_carry (e : Z) :
-1074 <= e ->
shr_fexp 53 1024 (2 ^ 53) e loc_Exact = (Build_shr_record (2 ^ 52) false false, e + 1).
Proof.
intros He. unfold shr_fexp.
replace (fexp 53 1024 (Zdigits2 (2 ^ 53) + e) - e) with 1
  by (rewrite fexp64_eq; change (Zdigits2 (2 ^ 53)) with 54; lia).
reflexivity.
Qed.

Lemma quotient_bounds (m : positive) (k : Z) :
0 <= k -> Z.log2 (Z.pos m) = 52 + k ->
2 ^ 52 <= Z.pos m / 2 ^ k < 2 ^ 53.
Proof.
intros Hk HL. pose proof (log2_bounds m) as [Hlo Hhi]. rewrite HL in Hlo, Hhi.
pose proof (pow2_pos k Hk) as HP.
replace (52 + k + 1) with (53 + k) in Hhi by lia.
rewrite Z.pow_add_r in Hlo, Hhi by lia.
split.
- apply Z.div_le_lower_bound; lia.
- apply Z.div_lt_upper_bound; lia.
Qed.

Lemma binary_round_inexact (s : bool) (m : positive) (e : Z) (p : positive) :
-1074 <= e ->
Z.log2 (Z.pos m) = 52 + Z.pos p ->
Z.pos m * 2 ^ (e + 1074) < 2 ^ 2098 - 2 ^ 2044 ->
exists mf ef,
  binary_round 53 1024 s m e = S754_finite s mf ef /\
  -1074 <= ef /\
  Z.pos mf * 2 ^ (ef + 1074) = rne (Z.pos m) (Z.pos p) * 2 ^ (e + Z.pos p + 1074).
Proof.
intros He HL HV.
pose proof (magnitude_bound m e He HV) as Hmag.
pose proof (quotient_bounds m (Z.pos p) ltac:(lia) HL) as Hq.
pose proof (rne_bounds (Z.pos m) (Z.pos p) ltac:(lia) ltac:(lia)) as Hr.
unfold binary_round.
set (te := fexp 53 1024 (Z.pos (digits2_pos m) + e)).
assert (Hte : te - e = Z.pos p).
{ unfold te. rewrite fexp64_eq, digits2_log2. lia. }
unfold shl_align. rewrite Hte.
unfold binary_round_aux.
rewrite (shr_fexp_shift m e p Hte).
rewrite (round_rne (Z.pos m) (Z.pos p)) by (try apply shr_inv_iter; lia).
set (q' := rne (Z.pos m) (Z.pos p)) in *.
destruct (Z.eq_dec q' (2 ^ 53)) as [Hcarry|Hnocarry].
- rewrite Hcarry. rewrite shr_fexp_carry by lia.
  cbn [shr_m].
  assert (Hup : 2 ^ Z.pos p <= 2 * (Z.pos m mod 2 ^ Z.pos p)).
  { apply rne_up. fold q'. lia. }
  assert (Hexp : e + Z.pos p < 971).
  { pose proof (pow2_pos (Z.pos p) ltac:(lia)) as HP.
    pose proof (pow2_pos (e + 1074) ltac:(lia)) as HE.
    pose proof (Z.div_mod (Z.pos m) (2 ^ Z.pos p) ltac:(lia)) as Hdm.
    assert (Hq53 : Z.pos m / 2 ^ Z.pos p = 2 ^ 53 - 1) by lia.
    assert (H2m : (2 ^ 54 - 1) * 2 ^ Z.pos p <= 2 * Z.pos m).
    { rewrite Hq53 in Hdm. lia. }
    assert (H : 2 ^ (Z.pos p + (e + 1074)) < 2 ^ 2045).
    { rewrite Z.pow_add_r by lia.
      assert (H2V : (2 ^ 54 - 1) * (2 ^ Z.pos p * 2 ^ (e + 1074))
                    <= 2 * (Z.pos m * 2 ^ (e + 1074))) by nia.
      assert (Hb : 2 * (2 ^ 2098 - 2 ^ 2044) = (2 ^ 54 - 1) * 2 ^ 2045) by reflexivity.
      nia. }
    apply pow2_lt_inv in H; lia. }
  change (2 ^ 52) with (Z.pos (2 ^ 52)%positive).
  assert (Hleb : (e + Z.pos p + 1 <=? 1024 - 53) = true) by (apply Z.leb_le; lia).
  rewrite Hleb. eexists _, _. split; [reflexivity|]. split; [lia|].
  replace (e + Z.pos p + 1 + 1074) with (1 + (e + Z.pos p + 1074)) by lia.
  rewrite Z.pow_add_r by lia. change (Z.pos (2 ^ 52)) with (2 ^ 52).
  change (2 ^ 1) with 2. change (2 ^ 53) with (2 ^ 52 * 2). ring.
- destruct q' as [|qp|qp] eqn:Hq'; try lia.
  assert (Hlog : Z.log2 (Z.pos qp) = 52).
  { apply Z.log2_unique; lia. }
  assert (Hcanon : fexp 53 1024 (Z.pos (digits2_pos qp) + (e + Z.pos p)) = e + Z.pos p).
  { rewrite fexp64_eq, digits2_log2, Hlog. lia. }
  rewrite (shr_fexp_canonical qp _ Hcanon). cbn [shr_m].
  assert (Hleb : (e + Z.pos p <=? 1024 - 53) = true) by (apply Z.leb_le; lia).
  rewrite Hleb. eexists _, _. split; [reflexivity|]. split; [lia|]. reflexivity.
Qed.

Lemma rnd53_small (v : Z) : Z.log2 v <= 52 -> rnd53 v = v.
Proof.
intros H. unfold rnd53. rewrite Z.max_l by lia. rewrite rne_0, Z.pow_0_r. lia.
Qed.

Lemma rnd53_large (v k : Z) : 0 <= k -> Z.log2 v = 52 + k -> rnd53 v = rne v k * 2 ^ k.
Proof.
intros Hk H. unfold rnd53. rewrite Z.max_r by lia. replace (Z.log2 v - 52) with k by lia.
reflexivity.
Qed.

(** Rounding a positive significand at an exponent that is a multiple of
  the smallest subnormal: the result is finite and its value is the
  rounded value. *)
Lemma binary_round_value (s : bool) (m : positive) (e : Z) :
-1074 <= e ->
Z.pos m * 2 ^ (e + 1074) < 2 ^ 2098 - 2 ^ 2044 ->
exists mf ef,
  binary_round 53 1024 s m e = S754_finite s mf ef /\
  -1074 <= ef /\
  Z.pos mf * 2 ^ (ef + 1074) = rnd53 (Z.pos m) * 2 ^ (e + 1074).
Proof.
intros He HV.
pose proof (magnitude_bound m e He HV) as Hmag.
destruct (Z_le_gt_dec (Z.log2 (Z.pos m)) 52) as [Hsmall|Hlarge].
- rewrite rnd53_small by assumption. now apply binary_round_exact.
- destruct (Z.log2 (Z.pos m) - 52) as [|p|p] eqn:Hk; try lia.
  destruct (binary_round_inexact s m e p He ltac:(lia) HV) as (mf & ef & Hr & Hef & Hval).
  exists mf, ef. split; [assumption|]. split; [assumption|].
  rewrite Hval, (rnd53_large (Z.pos m) (Z.pos p)) by lia.
  rewrite <- Z.mul_assoc, <- Z.pow_add_r by lia. f_equal. f_equal. lia.
Qed.

Lemma rne_exact (v k : Z) : 0 <= k -> rne (v * 2 ^ k) k = v.
Proof.
intros Hk. pose proof (pow2_pos k Hk) as HP. unfold rne.
rewrite Z.div_mul, Z.mod_mul by lia. cbv zeta.
assert (H : (2 * 0 ?= 2 ^ k) = Lt) by (apply Z.compare_lt_iff; lia).
now rewrite H.
Qed.

Lemma rne_scale (v k j : Z) : 0 <= k -> 0 <= j -> rne (v * 2 ^ j) (k + j) = rne v k.
Proof.
intros Hk Hj.
pose proof (pow2_pos k Hk) as HPk. pose proof (pow2_pos j Hj) as HPj.
unfold rne. rewrite Z.pow_add_r by lia.
rewrite Z.div_mul_cancel_r by lia.
rewrite Z.mul_mod_distr_r by lia. cbv zeta.
replace (2 * (v mod 2 ^ k * 2 ^ j)) with (2 * (v mod 2 ^ k) * 2 ^ j) by ring.
rewrite <- Zmult_compare_compat_r by lia. reflexivity.
Qed.

Lemma rnd53_scale (v j : Z) : 0 < v -> 0 <= j -> rnd53 (v * 2 ^ j) = rnd53 v * 2 ^ j.
Proof.
intros Hv Hj.
pose proof (Z.log2_nonneg v) as HL.
assert (Hlog : Z.log2 (v * 2 ^ j) = j + Z.log2 v) by (apply Z.log2_mul_pow2; lia).
destruct (Z_le_gt_dec 52 (Z.log2 v)) as [Hlarge|Hsmall].
- rewrite (rnd53_large (v * 2 ^ j) (Z.log2 v - 52 + j)) by lia.
  rewrite (rnd53_large v (Z.log2 v - 52)) by lia.
  rewrite rne_scale by lia. rewrite Z.pow_add_r by lia. ring.
- rewrite (rnd53_small v) by lia.
  destruct (Z_le_gt_dec (Z.log2 (v * 2 ^ j)) 52) as [Hs|Hl].
  + now rewrite rnd53_small.
  + set (k := Z.log2 v + j - 52).
    rewrite (rnd53_large (v * 2 ^ j) k) by (unfold k; lia).
    replace (v * 2 ^ j) with (v * 2 ^ (j - k) * 2 ^ k)
      by (rewrite <- Z.mul_assoc, <- Z.pow_add_r by (unfold k; lia);
          f_equal; f_equal; lia).
    rewrite rne_exact by (unfold k; lia). reflexivity.
Qed.

Lemma rne_mono (a b k : Z) : 0 <= k -> 0 <= a <= b -> rne a k <= rne b k.
Proof.
intros Hk Hab. pose proof (pow2_pos k Hk) as HP.
pose proof (Z.div_le_mono a b (2 ^ k) HP ltac:(lia)) as Hq.
pose proof (rne_bounds a k Hk ltac:(lia)) as Ha.
pose proof (rne_bounds b k Hk ltac:(lia)) as Hb.
destruct (Z.eq_dec (a / 2 ^ k) (b / 2 ^ k)) as [Heq|Hne]; [|lia].
pose proof (Z.div_mod a (2 ^ k) ltac:(lia)) as Hda.
pose proof (Z.div_mod b (2 ^ k) ltac:(lia)) as Hdb.
assert (Hrem : a mod 2 ^ k <= b mod 2 ^ k) by (rewrite Heq in Hda; lia).
unfold rne. cbv zeta. rewrite Heq.
destruct (Z.compare_spec (2 * (a mod 2 ^ k)) (2 ^ k));
  destruct (Z.compare_spec (2 * (b mod 2 ^ k)) (2 ^ k));
  destruct (Z.even (b / 2 ^ k)); lia.
Qed.

Lemma rnd53_upper (a : Z) : 0 < a -> rnd53 a <= 2 ^ (Z.log2 a + 1).
Proof.
intros Ha. pose proof (Z.log2_nonneg a) as HL.
pose proof (Z.log2_spec a Ha) as [_ Hhi]. unfold Z.succ in Hhi.
unfold rnd53. set (k := Z.max 0 (Z.log2 a - 52)).
assert (Hk : 0 <= k <= Z.log2 a + 1) by (unfold k; lia).
pose proof (pow2_pos k ltac:(lia)) as HP.
pose proof (rne_bounds a k ltac:(lia) ltac:(lia)) as Hr.
replace (Z.log2 a + 1) with (Z.log2 a + 1 - k + k) in Hhi |- * by lia.
rewrite Z.pow_add_r in Hhi |- * by lia.
assert (Hq : a / 2 ^ k < 2 ^ (Z.log2 a + 1 - k)) by (apply Z.div_lt_upper_bound; lia).
apply Z.mul_le_mono_nonneg_r; lia.
Qed.

Lemma rnd53_lower (b : Z) : 0 < b -> 2 ^ Z.log2 b <= rnd53 b.
Proof.
intros Hb. pose proof (Z.log2_nonneg b) as HL.
pose proof (Z.log2_spec b Hb) as [Hlo _].
unfold rnd53. set (k := Z.max 0 (Z.log2 b - 52)).
assert (Hk : 0 <= k <= Z.log2 b) by (unfold k; lia).
pose proof (pow2_pos k ltac:(lia)) as HP.
pose proof (rne_bounds b k ltac:(lia) ltac:(lia)) as Hr.
replace (Z.log2 b) with (Z.log2 b - k + k) in Hlo |- * at 1 by lia.
rewrite Z.pow_add_r in Hlo |- * by lia.
assert (Hq : 2 ^ (Z.log2 b - k) <= b / 2 ^ k) by (apply Z.div_le_lower_bound; lia).
apply Z.mul_le_mono_nonneg_r; lia.
Qed.

Lemma rnd53_mono (a b : Z) : 0 < a <= b -> rnd53 a <= rnd53 b.
Proof.
intros Hab.
pose proof (Z.log2_le_mono a b ltac:(lia)) as HL.
destruct (Z.eq_dec (Z.max 0 (Z.log2 a - 52)) (Z.max 0 (Z.log2 b - 52))) as [Heq|Hne].
- unfold rnd53. rewrite Heq.
  set (k := Z.max 0 (Z.log2 b - 52)).
  pose proof (pow2_pos k ltac:(unfold k; lia)) as HP.
  apply Z.mul_le_mono_nonneg_r; [lia|]. apply rne_mono; unfold k; lia.
- assert (Hlt : Z.log2 a + 1 <= Z.log2 b) by lia.
  pose proof (rnd53_upper a ltac:(lia)) as Hu.
  pose proof (rnd53_lower b ltac:(lia)) as Hl.
  pose proof (Z.log2_nonneg a).
  assert (2 ^ (Z.log2 a + 1) <= 2 ^ Z.log2 b) by (apply Z.pow_le_mono_r; lia).
  lia.
Qed.

Lemma rnd53_pos (a : Z) : 0 < a -> 0 < rnd53 a.
Proof.
intros Ha. pose proof (rnd53_lower a Ha) as H.
pose proof (pow2_pos (Z.log2 a) (Z.log2_nonneg a)). lia.
Qed.

Lemma rndZ_mono (a b : Z) : a <= b -> rndZ a <= rndZ b.
Proof.
intros Hab.
destruct a as [|pa|pa], b as [|pb|pb]; simpl; try lia.
- pose proof (rnd53_pos (Z.pos pb)). lia.
- apply rnd53_mono. lia.
- pose proof (rnd53_pos (Z.pos pa)). lia.
- pose proof (rnd53_pos (Z.pos pa)). pose proof (rnd53_pos (Z.pos pb)). lia.
- pose proof (rnd53_mono (Z.pos pb) (Z.pos pa)). lia.
Qed.

Lemma rndZ_pos (v : Z) : 0 < v -> rndZ v = rnd53 v.
Proof. destruct v; simpl; lia || reflexivity. Qed.

Lemma rndZ_neg (v : Z) : v < 0 -> rndZ v = - rnd53 (- v).
Proof. destruct v; simpl; lia || reflexivity. Qed.

(** ** Valid binary64 numbers and their order *)

Lemma valid_finite (s : bool) (m : positive) (e : Z) :
valid_binary (S754_finite s m e) = true ->
-1074 <= e <= 971 /\ Z.log2 (Z.pos m) <= 52 /\ (e = -1074 \/ Z.log2 (Z.pos m) = 52).
Proof.
unfold valid_binary, SpecFloat.valid_binary, bounded, canonical_mantissa.
intros H. apply andb_prop in H as [Hc He].
apply Z.eqb_eq in Hc. apply Z.leb_le in He.
rewrite fexp64_eq, digits2_log2 in Hc.
change (emax - prec) with 971 in He.
pose proof (Z.log2_nonneg (Z.pos m)). lia.
Qed.

Lemma valid_value (s : bool) (m : positive) (e : Z) :
valid_binary (S754_finite s m e) = true ->
0 < Z.pos m * 2 ^ (e + 1074) <= 2 ^ 2098 - 2 ^ 2045.
Proof.
intros H. apply valid_finite in H as (He & HL & _).
pose proof (log2_bounds m) as [_ Hhi].
pose proof (pow2_pos (e + 1074) ltac:(lia)) as HP.
assert (Hm : Z.pos m <= 2 ^ 53 - 1).
{ assert (2 ^ (Z.log2 (Z.pos m) + 1) <= 2 ^ 53) by (apply Z.pow_le_mono_r; lia). lia. }
assert (HE : 2 ^ (e + 1074) <= 2 ^ 2045) by (apply Z.pow_le_mono_r; lia).
split; [lia|].
replace (2 ^ 2098 - 2 ^ 2045) with ((2 ^ 53 - 1) * 2 ^ 2045) by reflexivity.
apply Z.mul_le_mono_nonneg; lia.
Qed.

Lemma magnitude_lt (m1 : positive) (e1 : Z) (m2 : positive) (e2 : Z) (s1 s2 : bool) :
valid_binary (S754_finite s1 m1 e1) = true ->
valid_binary (S754_finite s2 m2 e2) = true ->
e1 < e2 ->
Z.pos m1 * 2 ^ (e1 + 1074) < Z.pos m2 * 2 ^ (e2 + 1074).
Proof.
intros H1 H2 Hlt.
apply valid_finite in H1 as (He1 & HL1 & _).
apply valid_finite in H2 as (He2 & HL2 & Hn2).
assert (HL : Z.log2 (Z.pos m2) = 52) by lia.
pose proof (log2_bounds m1) as [_ Hhi1].
pose proof (log2_bounds m2) as [Hlo2 _]. rewrite HL in Hlo2.
assert (Hm1 : Z.pos m1 < 2 ^ 53).
{ assert (2 ^ (Z.log2 (Z.pos m1) + 1) <= 2 ^ 53) by (apply Z.pow_le_mono_r; lia). lia. }
pose proof (pow2_pos (e1 + 1074) ltac:(lia)) as HP1.
assert (HE : 2 * 2 ^ (e1 + 1074) <= 2 ^ (e2 + 1074)).
{ replace (2 * 2 ^ (e1 + 1074)) with (2 ^ (e1 + 1074 + 1))
    by (rewrite Z.pow_add_r by lia; change (2 ^ 1) with 2; ring).
  apply Z.pow_le_mono_r; lia. }
change (2 ^ 53) with (2 ^ 52 * 2) in Hm1.
nia.
Qed.

Lemma magnitude_compare (m1 : positive) (e1 : Z) (m2 : positive) (e2 : Z) (s1 s2 : bool) :
valid_binary (S754_finite s1 m1 e1) = true ->
valid_binary (S754_finite s2 m2 e2) = true ->
match e1 ?= e2 with
| Lt => Lt
| Gt => Gt
| Eq => Pos.compare_cont Eq m1 m2
end = (Z.pos m1 * 2 ^ (e1 + 1074) ?= Z.pos m2 * 2 ^ (e2 + 1074)).
Proof.
intros H1 H2.
destruct (Z.compare_spec e1 e2) as [Heq|Hlt|Hgt].
- subst e2. apply valid_finite in H1 as (He1 & _).
  pose proof (pow2_pos (e1 + 1074) ltac:(lia)) as HP.
  rewrite <- Zmult_compare_compat_r by lia. reflexivity.
- symmetry. apply Z.compare_lt_iff. eapply magnitude_lt; eassumption.
- symmetry. apply Z.compare_gt_iff. eapply magnitude_lt; eassumption.
Qed.

(** [SF2Z] embeds the order of the valid numbers into the integers. *)
Lemma SFcompare_SF2Z (x y : spec_float) :
valid_binary x = true -> valid_binary y = true ->
not_nan x -> not_nan y ->
SFcompare x y = Some (SF2Z x ?= SF2Z y).
Proof.
intros Vx Vy Nx Ny.
destruct x as [sx|sx| |sx mx ex], y as [sy|sy| |sy my ey];
  try contradiction; cbn [SFcompare SF2Z].
- reflexivity.
- destruct sy; reflexivity.
- pose proof (valid_value _ _ _ Vy). destruct sy; cbn [cond_Zopp]; f_equal; symmetry.
  + apply Z.compare_gt_iff; lia.
  + apply Z.compare_lt_iff; lia.
- destruct sx; reflexivity.
- destruct sx, sy; reflexivity.
- pose proof (valid_value _ _ _ Vy).
  destruct sx, sy; cbn [cond_Zopp]; f_equal; symmetry;
    (apply Z.compare_gt_iff; lia) || (apply Z.compare_lt_iff; lia).
- pose proof (valid_value _ _ _ Vx). destruct sx; cbn [cond_Zopp]; f_equal; symmetry.
  + apply Z.compare_lt_iff; lia.
  + apply Z.compare_gt_iff; lia.
- pose proof (valid_value _ _ _ Vx).
  destruct sx, sy; cbn [cond_Zopp]; f_equal; symmetry;
    (apply Z.compare_gt_iff; lia) || (apply Z.compare_lt_iff; lia).
- pose proof (valid_value _ _ _ Vx) as Bx. pose proof (valid_value _ _ _ Vy) as By.
  pose proof (magnitude_compare mx ex my ey sx sy Vx Vy) as Hc.
  destruct sx, sy; cbn [cond_Zopp]; f_equal.
  + rewrite Z.compare_opp.
    rewrite (Z.compare_antisym (Z.pos mx * 2 ^ (ex + 1074)) (Z.pos my * 2 ^ (ey + 1074))).
    rewrite <- Hc.
    destruct (ex ?= ey); reflexivity.
  + symmetry. apply Z.compare_lt_iff; lia.
  + symmetry. apply Z.compare_gt_iff; lia.
  + exact Hc.
Qed.

Lemma SFleb_SF2Z (x y : spec_float) :
valid_binary x = true -> valid_binary y = true ->
not_nan x -> not_nan y ->
SFleb x y = (SF2Z x <=? SF2Z y).
Proof.
intros Vx Vy Nx Ny. unfold SFleb. rewrite SFcompare_SF2Z by assumption.
unfold Z.leb. destruct (SF2Z x ?= SF2Z y); reflexivity.
Qed.

Lemma SFleb_not_nan (x y : spec_float) : SFleb x y = true -> not_nan x /\ not_nan y.
Proof. destruct x, y; cbn; intros H; try discriminate; auto. Qed.

Lemma valid_range (x : spec_float) :
valid_binary x = true -> - 2 ^ 2098 <= SF2Z x <= 2 ^ 2098.
Proof.
intros V. destruct x as [s|s| |s m e]; cbn [SF2Z].
- lia.
- destruct s; cbn [cond_Zopp]; lia.
- lia.
- pose proof (valid_value _ _ _ V). assert (0 < 2 ^ 2045) by (apply pow2_pos; lia).
  destruct s; cbn [cond_Zopp]; lia.
Qed.

(** ** Subtraction from one *)

Lemma binary_normalize_value (D ez : Z) :
-1074 <= ez ->
Z.abs D * 2 ^ (ez + 1074) < 2 ^ 2098 - 2 ^ 2044 ->
not_nan (binary_normalize 53 1024 D ez false) /\
SF2Z (binary_normalize 53 1024 D ez false) = rndZ (D * 2 ^ (ez + 1074)).
Proof.
intros He HV. pose proof (pow2_pos (ez + 1074) ltac:(lia)) as HP.
destruct D as [|p|p]; cbn [binary_normalize].
- split; [exact I|reflexivity].
- destruct (binary_round_value false p ez He HV) as (mf & ef & -> & Hef & Hval).
  split; [exact I|]. cbn [SF2Z cond_Zopp]. rewrite Hval.
  rewrite rndZ_pos by lia. now rewrite rnd53_scale by lia.
- destruct (binary_round_value true p ez He HV) as (mf & ef & -> & Hef & Hval).
  split; [exact I|]. cbn [SF2Z cond_Zopp]. rewrite Hval.
  rewrite rndZ_neg by lia.
  replace (- (Z.neg p * 2 ^ (ez + 1074))) with (Z.pos p * 2 ^ (ez + 1074)) by lia.
  now rewrite rnd53_scale by lia.
Qed.

Lemma SFsub_one_finite (s : bool) (m : positive) (e : Z) :
valid_binary (S754_finite s m e) = true ->
not_nan (SFsub 53 1024 SF_one (S754_finite s m e)) /\
SF2Z (SFsub 53 1024 SF_one (S754_finite s m e)) =
rndZ (2 ^ 1074 - SF2Z (S754_finite s m e)).
Proof.
intros V. pose proof (valid_value s m e V) as Hval.
apply valid_finite in V as (He & _).
cbv beta iota delta [SFsub SF_one]. cbv zeta.
set (ez := Z.min (-52) e).
assert (Hez : -1074 <= ez <= -52 /\ ez <= e) by (unfold ez; lia).
destruct (shl_align_value (2 ^ 52) (-52) ez ltac:(lia)) as [H1 _].
destruct (shl_align_value m e ez ltac:(lia)) as [H2 _].
rewrite H1, H2.
set (D := cond_Zopp false (Z.pos (2 ^ 52) * 2 ^ (-52 - ez))
          - cond_Zopp s (Z.pos m * 2 ^ (e - ez))).
assert (HD : D * 2 ^ (ez + 1074) = 2 ^ 1074 - SF2Z (S754_finite s m e)).
{ unfold D. cbn [SF2Z].
  assert (Ha : Z.pos (2 ^ 52) * 2 ^ (-52 - ez) * 2 ^ (ez + 1074) = 2 ^ 1074).
  { rewrite <- Z.mul_assoc, <- Z.pow_add_r by lia.
    change (Z.pos (2 ^ 52)) with (2 ^ 52). rewrite <- Z.pow_add_r by lia.
    f_equal. lia. }
  assert (Hb : Z.pos m * 2 ^ (e - ez) * 2 ^ (ez + 1074) = Z.pos m * 2 ^ (e + 1074)).
  { rewrite <- Z.mul_assoc, <- Z.pow_add_r by lia. f_equal. f_equal. lia. }
  destruct s; cbn [cond_Zopp]; lia. }
rewrite <- HD. apply binary_normalize_value; [lia|].
pose proof (pow2_pos (ez + 1074) ltac:(lia)) as HP.
replace (Z.abs D * 2 ^ (ez + 1074)) with (Z.abs (D * 2 ^ (ez + 1074)))
  by (rewrite Z.abs_mul, (Z.abs_eq (2 ^ (ez + 1074))) by lia; reflexivity).
rewrite HD. cbn [SF2Z].
assert (H1074 : 2 ^ 1074 + 2 ^ 2044 < 2 ^ 2045) by reflexivity.
destruct s; cbn [cond_Zopp]; lia.
Qed.

Lemma SFsub_one_zero (s : bool) :
SFsub 53 1024 SF_one (S754_zero s) = SF_one.
Proof. reflexivity. Qed.

Lemma SFsub_one_infinity (s : bool) :
SFsub 53 1024 SF_one (S754_infinity s) = S754_infinity (negb s).
Proof. reflexivity. Qed.

Lemma rndZ_one : rndZ (2 ^ 1074) = 2 ^ 1074.
Proof.
rewrite rndZ_pos by (apply pow2_pos; lia).
replace (2 ^ 1074) with (1 * 2 ^ 1074) at 1 by lia.
rewrite rnd53_scale by lia. rewrite rnd53_small by (simpl; lia). lia.
Qed.

(** Subtraction from one never yields NaN on a number, and its value is
  the rounded exact difference. *)
Lemma SFsub_one_value (x : spec_float) :
valid_binary x = true -> not_nan x ->
not_nan (SFsub 53 1024 SF_one x) /\
match x with
| S754_infinity s => SFsub 53 1024 SF_one x = S754_infinity (negb s)
| _ => SF2Z (SFsub 53 1024 SF_one x) = rndZ (2 ^ 1074 - SF2Z x)
end.
Proof.
intros V N. destruct x as [s|s| |s m e]; try contradiction.
- rewrite SFsub_one_zero. split; [exact I|].
  cbn [SF2Z]. rewrite Z.sub_0_r, rndZ_one. reflexivity.
- rewrite SFsub_one_infinity. split; [exact I|reflexivity].
- now apply SFsub_one_finite.
Qed.

#[local] Open Scope float_scope.

(** ** The facts about Python floats that the query relies on *)

Lemma Prim2SF_one : Prim2SF 1 = SF_one.
Proof. reflexivity. Qed.

Lemma leb_SF2Z (x y : float) :
(x <=? y) = true <->
not_nan (Prim2SF x) /\ not_nan (Prim2SF y) /\ (SF2Z (Prim2SF x) <= SF2Z (Prim2SF y))%Z.
Proof.
rewrite leb_spec. split.
- intros H. destruct (SFleb_not_nan _ _ H) as [Nx Ny].
  rewrite SFleb_SF2Z in H by (assumption || apply Prim2SF_valid).
  apply Z.leb_le in H. auto.
- intros (Nx & Ny & H).
  rewrite SFleb_SF2Z by (assumption || apply Prim2SF_valid).
  now apply Z.leb_le.
Qed.

(** The order of floats is transitive. *)
Lemma leb_trans (x y z : float) :
(x <=? y) = true -> (y <=? z) = true -> (x <=? z) = true.
Proof.
rewrite !leb_SF2Z. intros (Nx & Ny & Hxy) (_ & Nz & Hyz). repeat split; auto. lia.
Qed.

(** [fun d => 1 - d] reverses the order of floats. *)
Lemma sub_one_antitone (x y : float) :
(x <=? y) = true -> (1 - y <=? 1 - x) = true.
Proof.
intros H. apply leb_SF2Z in H as (Nx & Ny & Hxy). apply leb_SF2Z.
pose proof (Prim2SF_valid x) as Vx. pose proof (Prim2SF_valid y) as Vy.
pose proof (Prim2SF_valid (1 - x)) as Vrx. pose proof (Prim2SF_valid (1 - y)) as Vry.
rewrite (sub_spec 1 x), Prim2SF_one in Vrx |- *.
rewrite (sub_spec 1 y), Prim2SF_one in Vry |- *.
change SF64sub with (SFsub 53 1024) in *.
destruct (SFsub_one_value _ Vx Nx) as [Nrx Hrx].
destruct (SFsub_one_value _ Vy Ny) as [Nry Hry].
split; [assumption|]. split; [assumption|].
pose proof (valid_range _ Vrx) as Rx. pose proof (valid_range _ Vry) as Ry.
destruct (Prim2SF x) as [sx|sx| |sx mx ex] eqn:Ex; try contradiction;
  destruct (Prim2SF y) as [sy|sy| |sy my ey] eqn:Ey; try contradiction;
  try (rewrite Hrx, Hry; apply rndZ_mono; lia).
all: try rewrite Hrx in *; try rewrite Hry in *.
all: try (pose proof (valid_value _ _ _ Vx)); try (pose proof (valid_value _ _ _ Vy)).
all: assert (0 < 2 ^ 2045)%Z by reflexivity.
all: destruct sx, sy; cbn [SF2Z cond_Zopp negb] in *; try lia.
Qed.

(** A distance that passes a threshold is a number. *)
Lemma passes_number (t d : float) : (t <=? 1 - d) = true -> (d =? d) = true.
Proof.
intros H. apply leb_SF2Z in H as (_ & N & _).
rewrite FloatAxioms.eqb_spec. rewrite sub_spec, Prim2SF_one in N.
pose proof (Prim2SF_valid d) as V.
destruct (Prim2SF d) as [s|s| |s m e] eqn:E.
- reflexivity.
- destruct s; reflexivity.
- contradiction.
- unfold SFeqb. rewrite SFcompare_SF2Z by (assumption || exact I).
  now rewrite Z.compare_refl.
Qed.

End Binary64.

(* ===================================================================== *)
(** * The lifecycle operations: [delete], [add], [persist] *)
(* ===================================================================== *)

(** C9.  For every id, staged or not, and in every state of the instance
    and of the world, [delete] raises [NotImplementedError] with its fixed
    message: it never returns, never raises another exception, and leaves
    the instance and the world as they were. *)
Theorem delete_always_unsupported
    (node_id : string) (delete_kwargs : list (string * pyobj))
    (self : OracleVectorStore.instance) (w : world) :
  OracleVectorStore.delete node_id delete_kwargs (self, w) =
  (Raise (NotImplementedError delete_message), (self, w)).
Proof. reflexivity. Qed.

Lemma odict_set_length_keys {V} (k : string) (v : V) (d : odict V) :
  In k (odict_keys d) -> List.length (odict_set k v d) = List.length d.
Proof.
  induction d as [|[k0 v0] d IH]; simpl; [intros []|].
  destruct (String.eqb_spec k k0) as [->|Hne]; simpl; [reflexivity|].
  intros [Heq|Hin]; [congruence|]. now rewrite IH.
Qed.

(** C8.  [add] touches nothing but the staging buffer of the instance (it
    has no access to the world).  It returns the ids of the nodes of this
    call; afterwards the entry of an id is the last node added under it
    and the entries of all other ids are as before; an id that was already
    staged is replaced without growing the buffer; starting from an empty
    buffer, adding nodes with M distinct ids leaves exactly M entries; and
    adding in two calls stages what one call with all the nodes stages. *)
Theorem add_last_write_wins (self : OracleVectorStore.instance) (nodes : list TextNode) :
  let self' := fst (OracleVectorStore.add self nodes) in
  snd (OracleVectorStore.add self nodes) = map id_ nodes /\
  OracleVectorStore.verbose self' = OracleVectorStore.verbose self /\
  OracleVectorStore.enable_hnsw_indexes self' = OracleVectorStore.enable_hnsw_indexes self /\
  OracleVectorStore.attrs self' = OracleVectorStore.attrs self /\
  (forall k,
      odict_get k (OracleVectorStore.node_dict self') =
      match last_with_id k nodes with
      | Some n => Some n
      | None => odict_get k (OracleVectorStore.node_dict self)
      end) /\
  (forall n,
      In (id_ n) (odict_keys (OracleVectorStore.node_dict self)) ->
      List.length (OracleVectorStore.node_dict (fst (OracleVectorStore.add self [n]))) =
      List.length (OracleVectorStore.node_dict self)) /\
  (OracleVectorStore.node_dict self = [] ->
   List.length (OracleVectorStore.node_dict self') =
   List.length (nodup string_dec (map id_ nodes))) /\
  (forall more,
      fst (OracleVectorStore.add self' more) =
      fst (OracleVectorStore.add self (nodes ++ more))).
Proof.
  cbv zeta. rewrite add_run. cbn [fst snd].
  repeat split; try reflexivity.
  - intros k. apply add_loop_get.
  - intros n Hin. rewrite add_run. cbn. now apply odict_set_length_keys.
  - intros Hempty. cbn. rewrite Hempty. apply staged_count.
  - intros more. rewrite !add_run. unfold OracleVectorStore.set_node_dict. cbn.
    now rewrite add_loop_app.
Qed.

Section PersistClaims.

Variable cfg : config.
Variable drv : oracledb.

(** Rows are attempted one by one: when every embedding is present,
    the loop of [save_chunks_with_embeddings_in_db] ends normally, and
    every row was either inserted or counted as an error. *)
Lemma insert_chunks_attempts_all
    (items : list (string * string * pyobj * option (list float))) (book_id : pyobj) :
  Forall (fun it => is_Some (snd it)) items ->
  forall tot_errors w,
  exists n w',
    insert_chunks cfg drv items book_id tot_errors w = (Ok n, w') /\
    (List.length (pending w') + n = List.length (pending w) + tot_errors + List.length items)%nat /\
    opened w' = opened w /\ committed w' = committed w.
Proof.
  induction 1 as [|[[[id txt] page] vector] rest [v Hv] _ IH]; intros tot_errors w.
  - exists tot_errors, w. simpl. unfold ret. repeat split; lia.
  - simpl in Hv. subst vector. simpl.
    rewrite array_of_array_type.
    cbv [lift_result bind ret try_except execute_insert get outcome].
    destruct (insert_outcome drv _ (pending w)) as [e|].
    + cbv [raise logging_error emit modify].
      destruct (IH (S tot_errors) (set_log (fun l => l ++
                  [LogRecord "root" ERROR "Error in save_chunks_with_embeddings: " (ExnArg e)]) w))
        as (n & w' & Hrun & Hcount & Ho & Hc).
      exists n, w'. rewrite Hrun. simpl in *. repeat split; try assumption; lia.
    + cbv [modify].
      match goal with |- context [insert_chunks cfg drv rest book_id tot_errors ?w1] =>
        destruct (IH tot_errors w1) as (n & w' & Hrun & Hcount & Ho & Hc) end.
      exists n, w'. rewrite Hrun. simpl in *. rewrite length_app in Hcount. simpl in Hcount.
      repeat split; try assumption; lia.
Qed.

(** The amended C3.  For every instance that the class produces, no
    [DSN] attribute exists, and [persist] on a non-empty staging buffer
    raises before it connects: [KeyError] for ["page#"] when a staged
    node has no page number, [AttributeError] for [DSN] otherwise.  The
    only effect is the first log record; no connection is opened, no
    row is inserted or committed, and the staging buffer is as before. *)
Theorem persist_fails_before_connecting (self : OracleVectorStore.instance) (w : world) :
  produced cfg drv self ->
  OracleVectorStore.node_dict self <> [] ->
  OracleVectorStore.attrs self !! "DSN" = None /\
  exists e,
    OracleVectorStore.persist cfg drv (self, w) =
      (Raise e, (self, logged persisting_record w)) /\
    (Forall has_page (OracleVectorStore.node_dict self) -> e = AttributeError "DSN") /\
    (~ Forall has_page (OracleVectorStore.node_dict self) -> e = KeyError "page#") /\
    opened (logged persisting_record w) = opened w /\
    pending (logged persisting_record w) = pending w /\
    committed (logged persisting_record w) = committed w.
Proof.
  intros Hprod Hne. split.
  { now rewrite (produced_attrs cfg drv self Hprod). }
  rewrite persist_run.
  destruct (OracleVectorStore.node_dict self) as [|kv rest] eqn:Hd; [congruence|].
  destruct (OracleVectorStore.collect (kv :: rest) ([], [], [], []))
    as [[[[pages_id pages_text] embeddings] pages_num]|e] eqn:Hc.
  - rewrite (produced_getattr_DSN cfg drv self Hprod).
    exists (AttributeError "DSN"). repeat split.
    intros Hnot. exfalso. apply Hnot.
    apply (collect_succeeds (kv :: rest) ([], [], [], [])). eauto.
  - exists e. repeat split.
    + intros Hall. apply (collect_succeeds (kv :: rest) ([], [], [], [])) in Hall.
      destruct Hall as [l Hl]. congruence.
    + intros _. eapply collect_raises, Hc.
Qed.

End PersistClaims.

(** The amended C3 on a staged batch of three nodes with page numbers. *)
Lemma persist_fails_before_connecting_witness :
  let staged := fst (OracleVectorStore.add fresh
                       [example_node "a" 1; example_node "b" 2; example_node "c" 3]) in
  let w := example_world 3 0.5%float in
  OracleVectorStore.attrs staged !! "DSN" = None /\
  exists e,
    OracleVectorStore.persist example_cfg (rejecting "b") (staged, w) =
      (Raise e, (staged, logged persisting_record w)) /\
    (Forall has_page (OracleVectorStore.node_dict staged) -> e = AttributeError "DSN") /\
    (~ Forall has_page (OracleVectorStore.node_dict staged) -> e = KeyError "page#") /\
    opened (logged persisting_record w) = opened w /\
    pending (logged persisting_record w) = pending w /\
    committed (logged persisting_record w) = committed w.
Proof.
  apply (persist_fails_before_connecting example_cfg (rejecting "b")).
  - apply produced_add, produced_init.
  - vm_compute. discriminate.
Defined.

(** C3 as stated fails on a staged node without a page number: [persist]
    raises [KeyError], not an attribute error, and it does so before the
    connection arguments are built. *)
Lemma persist_pageless_raises_KeyError :
  let staged := fst (OracleVectorStore.add fresh [pageless_node "a"]) in
  let w := example_world 3 0.5%float in
  OracleVectorStore.persist example_cfg (serving []) (staged, w) =
    (Raise (KeyError "page#"), (staged, logged persisting_record w)) /\
  KeyError "page#" <> AttributeError "DSN".
Proof. split; [vm_compute; reflexivity | discriminate]. Qed.

(** C2 at a staged batch of three nodes, against a database that would
    refuse only the second row: [persist] raises [AttributeError] for
    [DSN]; no connection is opened, no insert is attempted, nothing is
    committed, and the three nodes are still staged. *)
Theorem persist_staged_batch_never_connects :
  let staged := fst (OracleVectorStore.add fresh
                       [example_node "a" 1; example_node "b" 2; example_node "c" 3]) in
  let w := example_world 3 0.5%float in
  let after := OracleVectorStore.persist example_cfg (rejecting "b") (staged, w) in
  fst after = Raise (AttributeError "DSN") /\
  fst (snd after) = staged /\
  List.length (OracleVectorStore.node_dict staged) = 3%nat /\
  opened (snd (snd after)) = [] /\
  pending (snd (snd after)) = [] /\
  committed (snd (snd after)) = [] /\
  log (snd (snd after)) = [persisting_record].
Proof. vm_compute. repeat split; reflexivity. Qed.

(** What [persist] does once a caller has assigned a [DSN] attribute to
    the instance from outside: on the same batch and database the second
    insert fails and is counted, the first and third rows are committed,
    and the buffer is cleared. *)
Example persist_with_DSN_assigned :
  let staged := fst (OracleVectorStore.add
                       (OracleVectorStore.Build_instance false false []
                          (<["DSN" := PyStr "ragdb_high"]> ∅))
                       [example_node "a" 1; example_node "b" 2; example_node "c" 3]) in
  let w := example_world 3 0.5%float in
  let after := OracleVectorStore.persist example_cfg (rejecting "b") (staged, w) in
  fst after = Ok tt /\
  OracleVectorStore.node_dict (fst (snd after)) = [] /\
  map ins_id (committed (snd (snd after))) = ["a"; "c"] /\
  List.length (opened (snd (snd after))) = 1%nat /\
  map lr_arg (log (snd (snd after))) =
    [NoArg; NoArg; ExnArg (DatabaseError "ORA-00001"); NatArg 1].
Proof. vm_compute. repeat split; reflexivity. Qed.

(** [persist] on an empty buffer does nothing at all. *)
Lemma persist_empty_is_noop (cfg : config) (drv : oracledb)
    (self : OracleVectorStore.instance) (w : world) :
  OracleVectorStore.node_dict self = [] ->
  OracleVectorStore.persist cfg drv (self, w) = (Ok tt, (self, w)).
Proof. intros H. rewrite persist_run, H. reflexivity. Qed.

(* ===================================================================== *)
(** * The query: failures and the shape of the result *)
(* ===================================================================== *)

Lemma float_ne (x y : float) : Prim2SF x <> Prim2SF y -> x <> y.
Proof. intros H ->. now apply H. Qed.

Section QueryClaims.

Variable cfg : config.
Variable drv : oracledb.

(** The amended C1.  [oracle_query] never raises.  When connecting
    fails, when the cursor cannot be opened, when the statement fails,
    or when the CLOB of a row that passed the floor cannot be read, it
    logs the exception on [ConsoleLogger] and returns [None], with none
    of the rows already processed.  [None] is not the result of a
    successful query in which no row meets the floor: that result is a
    [VectorStoreQueryResult] with three empty lists. *)
Theorem oracle_query_failure_returns_None
    (embed_query : list float) (top_k : Z) (verbose approximate : bool) (w : world) :
  let run := oracle_query cfg drv embed_query top_k verbose approximate w in
  let clause := if approximate then "APPROXIMATE" else "" in
  (exists o w', run = (Ok o, w')) /\
  (forall e,
      connect_outcome drv (query_connect_args cfg) = Some e ->
      run = (Ok None, logged (query_error_record e) w)) /\
  (forall e,
      connect_outcome drv (query_connect_args cfg) = None ->
      cursor_outcome drv = Some e ->
      run = (Ok None, logged (query_error_record e) (after_connection cfg w))) /\
  (forall e,
      connect_outcome drv (query_connect_args cfg) = None ->
      cursor_outcome drv = None ->
      ordered_rows drv clause (bound_vector cfg embed_query) = Raise e ->
      run = (Ok None, logged (query_error_record e) (after_connection cfg w))) /\
  (forall rows threshold e,
      connect_outcome drv (query_connect_args cfg) = None ->
      cursor_outcome drv = None ->
      ordered_rows drv clause (bound_vector cfg embed_query) = Ok rows ->
      ss_similarity (session w) = Some threshold ->
      read_rows (List.filter (passes threshold) (firstn (Z.to_nat top_k) rows)) = Raise e ->
      run = (Ok None, logged (query_error_record e) (after_connection cfg w))) /\
  (forall rows threshold,
      connect_outcome drv (query_connect_args cfg) = None ->
      cursor_outcome drv = None ->
      ordered_rows drv clause (bound_vector cfg embed_query) = Ok rows ->
      ss_similarity (session w) = Some threshold ->
      List.filter (passes threshold) (firstn (Z.to_nat top_k) rows) = [] ->
      run = (Ok (Some empty_result), after_connection cfg w)) /\
  @None VectorStoreQueryResult <> Some empty_result.
Proof.
  cbv zeta. rewrite oracle_query_run. unfold connected_outcome.
  split; [|split; [|split; [|split; [|split; [|split]]]]].
  - destruct (connect_outcome drv _); [eauto|].
    destruct (cursor_outcome drv); [eauto|].
    destruct (ordered_rows drv _ _); [|eauto].
    destruct (scan _ _); eauto.
  - intros e ->. reflexivity.
  - intros e -> ->. reflexivity.
  - intros e -> -> ->. reflexivity.
  - intros rows threshold e -> -> -> Hth Hread. unfold scan. rewrite Hth.
    destruct (firstn (Z.to_nat top_k) rows) as [|r l]; [discriminate|].
    now rewrite Hread.
  - intros rows threshold -> -> -> Hth Hnone. unfold scan. rewrite Hth.
    destruct (firstn (Z.to_nat top_k) rows) as [|r l]; [reflexivity|].
    now rewrite Hnone.
  - discriminate.
Qed.

(** Every returned node carries, as its ["Similarity Score"], one minus
    the number at the same position of the [similarities] list, and its
    id is the id at the same position of [ids]. *)
Lemma result_of_positions (l : list (select_row * string)) :
  Forall2 (fun n d => similarity_score n = Some (PyFloat (1 - d)%float))
          (nodes (result_of l)) (similarities (result_of l)) /\
  map id_ (nodes (result_of l)) = ids (result_of l).
Proof.
  unfold result_of. simpl. split.
  - induction l as [|[row t] l IH]; simpl; constructor; [|exact IH].
    unfold similarity_score, node_of, node_of_row. simpl.
    rewrite lookup_insert_ne by discriminate.
    rewrite lookup_insert_ne by discriminate.
    apply lookup_insert_eq.
  - rewrite map_map. reflexivity.
Qed.

(** A successful query is [result_of] the rows that passed. *)
Lemma oracle_query_success
    (embed_query : list float) (top_k : Z) (verbose approximate : bool)
    (w : world) (r : VectorStoreQueryResult) :
  fst (oracle_query cfg drv embed_query top_k verbose approximate w) = Ok (Some r) ->
  exists l,
    connect_outcome drv (query_connect_args cfg) = None /\
    connected_outcome cfg drv embed_query top_k approximate (session w) = Ok l /\
    r = result_of l.
Proof.
  rewrite oracle_query_run.
  destruct (connect_outcome drv _); [discriminate|].
  destruct (connected_outcome _ _ _ _ _ _) as [l|e]; [|discriminate].
  simpl. intros [= <-]. eauto.
Qed.

End QueryClaims.

(** C1 as stated fails: a query against an unreachable database returns
    [None], a query in which no row meets the floor returns the empty
    result object, and the two differ. *)
Lemma failed_query_differs_from_empty_result :
  fst (oracle_query example_cfg unreachable [0.5%float] 3 true false
         (example_world 3 0.5%float)) = Ok None /\
  fst (oracle_query example_cfg (serving [example_row "a" 0.75%float]) [0.5%float] 3 true false
         (example_world 3 0.5%float)) = Ok (Some empty_result) /\
  @None VectorStoreQueryResult <> Some empty_result.
Proof. split; [|split]; [vm_compute; reflexivity | vm_compute; reflexivity | discriminate]. Qed.

(** C4 at a single row at cosine distance 0.25 with floor 0.5: the row
    passes, its node carries the similarity 0.75 as ["Similarity Score"],
    and the [similarities] list of the result holds 0.25, the raw
    distance. *)
Theorem similarities_hold_raw_distance :
  exists n,
    fst (oracle_query example_cfg (serving [example_row "a" 0.25%float]) [0.5%float] 3 true false
           (example_world 3 0.5%float)) =
      Ok (Some (Build_VectorStoreQueryResult [n] [0.25%float] ["a"])) /\
    similarity_score n = Some (PyFloat 0.75%float) /\
    (1 - 0.25 = 0.75)%float /\
    0.25%float <> 0.75%float.
Proof.
  eexists. split; [vm_compute; reflexivity|].
  split; [vm_compute; reflexivity|].
  split; [reflexivity|].
  apply float_ne. vm_compute. discriminate.
Qed.

(* ===================================================================== *)
(** * The query: floor, limit and order *)
(* ===================================================================== *)

Lemma filter_sublist {A} (p : A -> bool) (l : list A) : sublist (List.filter p l) l.
Proof.
  induction l as [|x l IH]; simpl.
  - constructor.
  - destruct (p x); now constructor.
Qed.


Lemma firstn_sublist {A} (n : nat) (l : list A) : sublist (firstn n l) l.
Proof.
  revert n. induction l as [|x l IH]; intros [|n]; simpl.
  - constructor.
  - constructor.
  - apply sublist_nil_l.
  - constructor. apply IH.
Qed.


Lemma read_rows_fst (rows : list select_row) :
  forall l, read_rows rows = Ok l -> map fst l = rows.
Proof.
  induction rows as [|row rest IH]; simpl; intros l.
  - now intros [= <-].
  - destruct (read_outcome (row_1 row)); [|discriminate].
    destruct (read_rows rest) as [l'|]; [|discriminate].
    intros [= <-]. simpl. now rewrite (IH l').
Qed.


Lemma sublist_In {A} (l k : list A) (x : A) : sublist l k -> In x l -> In x k.
Proof.
  induction 1 as [|y l k _ IH|y l k _ IH]; simpl; intuition.
Qed.

Lemma StronglySorted_sublist {A} (R : A -> A -> Prop) (l k : list A) :
  sublist l k -> StronglySorted R k -> StronglySorted R l.
Proof.
  induction 1 as [|x l k Hsub IH|x l k Hsub IH]; intros Hk.
  - constructor.
  - inversion Hk as [|? ? Hk' Hall]; subst. constructor; [auto|].
    rewrite List.Forall_forall in *. intros y Hy. apply Hall.
    eapply sublist_In; eassumption.
  - inversion Hk; subst. auto.
Qed.

Lemma StronglySorted_map {A B} (f : A -> B) (R : B -> B -> Prop) (l : list A) :
  StronglySorted (fun a b => R (f a) (f b)) l -> StronglySorted R (map f l).
Proof.
  induction 1 as [|x l _ IH Hall]; simpl; constructor; [assumption|].
  now apply List.Forall_map.
Qed.

Lemma StronglySorted_weaken {A} (R R' : A -> A -> Prop) (P : A -> Prop) (l : list A) :
  (forall a b, P b -> R a b -> R' a b) ->
  Forall P l -> StronglySorted R l -> StronglySorted R' l.
Proof.
  intros HR HP. induction 1 as [|x l _ IH Hall]; constructor.
  - apply IH. now inversion HP.
  - inversion HP as [|? ? _ HPl]; subst.
    rewrite List.Forall_forall in *. intros y Hy. apply HR; auto.
Qed.

Lemma StronglySorted_app_inv {A} (R : A -> A -> Prop) (l k : list A) :
  StronglySorted R (l ++ k) -> forall a b, In a l -> In b k -> R a b.
Proof.
  induction l as [|x l IH]; simpl; intros Hs a b Ha Hb; [contradiction|].
  inversion Hs as [|? ? Hs' Hall]; subst.
  destruct Ha as [<-|Ha].
  - rewrite List.Forall_forall in Hall. apply Hall, in_or_app. now right.
  - eapply IH; eassumption.
Qed.

Section FloorLimitOrder.

Variable cfg : config.
Variable drv : oracledb.

(** The rows behind a successful query: the rows that the statement
    fetched, and among them, in the same order, the rows that were
    kept, each with the text of its CLOB. *)
Lemma oracle_query_rows
    (embed_query : list float) (top_k : Z) (verbose approximate : bool)
    (w : world) (r : VectorStoreQueryResult) :
  fst (oracle_query cfg drv embed_query top_k verbose approximate w) = Ok (Some r) ->
  exists ranking l,
    connect_outcome drv (query_connect_args cfg) = None /\
    cursor_outcome drv = None /\
    ordered_rows drv (clause_of approximate) (bound_vector cfg embed_query) = Ok ranking /\
    scan (session w) (firstn (Z.to_nat top_k) ranking) = Ok l /\
    r = result_of l /\
    sublist (map fst l) (firstn (Z.to_nat top_k) ranking) /\
    (forall threshold, ss_similarity (session w) = Some threshold ->
       map fst l = List.filter (passes threshold) (firstn (Z.to_nat top_k) ranking)) /\
    (l <> [] -> exists threshold, ss_similarity (session w) = Some threshold).
Proof.
  intros H. apply oracle_query_success in H as (l & Hconn & Hout & ->).
  unfold connected_outcome in Hout. fold (clause_of approximate) in Hout.
  destruct (cursor_outcome drv); [discriminate|].
  destruct (ordered_rows drv _ _) as [ranking|]; [|discriminate].
  exists ranking, l. repeat split; try assumption.
  - unfold scan in Hout. destruct (firstn _ ranking) as [|row rest] eqn:Hf.
    + injection Hout as <-. constructor.
    + destruct (ss_similarity (session w)) as [th|]; [|discriminate].
      rewrite (read_rows_fst _ _ Hout). apply filter_sublist.
  - intros th Hth. unfold scan in Hout. rewrite Hth in Hout.
    destruct (firstn _ ranking) as [|row rest] eqn:Hf.
    + injection Hout as <-. reflexivity.
    + apply (read_rows_fst _ _ Hout).
  - intros Hne. unfold scan in Hout.
    destruct (firstn _ ranking) as [|row rest]; [injection Hout as <-; congruence|].
    destruct (ss_similarity (session w)) as [th|]; [eauto|discriminate].
Qed.


(** In a ranking by distance, a row beyond the fetched ones that
    satisfies the floor forces every fetched row to satisfy it. *)
Lemma qualifying_row_beyond (ranking : list select_row) (n : nat) (threshold : float) :
  ranked ranking ->
  Exists (fun row => passes threshold row = true) (skipn n ranking) ->
  List.filter (passes threshold) (firstn n ranking) = firstn n ranking /\
  List.length (firstn n ranking) = n.
Proof.
  intros Hranked Hex. apply List.Exists_exists in Hex as (rb & Hin & Hpass).
  split.
  - apply forallb_filter_id, forallb_forall. intros rf Hrf.
    unfold ranked in Hranked. rewrite <- (firstn_skipn n ranking) in Hranked.
    pose proof (StronglySorted_app_inv _ _ _ Hranked rf rb Hrf Hin) as Hle.
    unfold passes in *. unfold dist_le in Hle.
    rewrite (Binary64.passes_number _ _ Hpass) in Hle. simpl in Hle.
    eapply Binary64.leb_trans; [exact Hpass|].
    now apply Binary64.sub_one_antitone.
  - apply firstn_length_le.
    destruct (Nat.le_gt_cases n (List.length ranking)) as [|Hlt]; [assumption|].
    rewrite skipn_all2 in Hin by lia. contradiction.
Qed.

(** The amended C6.  A successful query considers the first [top_k]
    rows of the ranking of the store and nothing else: the rows it
    returns are a sub-sequence of them, so there are at most [top_k]
    results.  When the store ranks by distance, filtering after the
    limit cannot return fewer than [top_k] results while a row beyond
    the limit satisfies the floor: such a row forces every fetched row
    to satisfy the floor, and exactly [top_k] results are returned. *)
Theorem results_within_top_k
    (embed_query : list float) (top_k : Z) (verbose approximate : bool)
    (w : world) (r : VectorStoreQueryResult) :
  fst (oracle_query cfg drv embed_query top_k verbose approximate w) = Ok (Some r) ->
  exists ranking kept,
    ordered_rows drv (clause_of approximate) (bound_vector cfg embed_query) = Ok ranking /\
    sublist kept (firstn (Z.to_nat top_k) ranking) /\
    ids r = map row_0 kept /\
    map id_ (nodes r) = map row_0 kept /\
    similarities r = map row_3 kept /\
    (List.length (nodes r) <= Z.to_nat top_k)%nat /\
    (0 <= top_k -> Z.of_nat (List.length (nodes r)) <= top_k)%Z /\
    (forall threshold,
        ranked ranking ->
        ss_similarity (session w) = Some threshold ->
        Exists (fun row => passes threshold row = true) (skipn (Z.to_nat top_k) ranking) ->
        kept = firstn (Z.to_nat top_k) ranking /\
        List.length (nodes r) = Z.to_nat top_k).
Proof.
  intros H.
  apply oracle_query_rows in H
    as (ranking & l & _ & _ & Hrows & _ & -> & Hsub & Hkept & _).
  exists ranking, (map fst l).
  assert (Hlen : (List.length (nodes (result_of l)) <= Z.to_nat top_k)%nat).
  { unfold result_of. cbn [nodes]. rewrite length_map, <- (length_map fst).
    etransitivity; [apply sublist_length, Hsub|]. apply firstn_le_length. }
  unfold result_of in *. cbn [nodes ids similarities] in *.
  rewrite !map_map. cbn [node_of node_of_row id_].
  repeat split; try assumption; try reflexivity.
  - lia.
  - rewrite (Hkept threshold) by assumption.
    now apply qualifying_row_beyond.
  - rewrite length_map, <- (length_map fst), (Hkept threshold) by assumption.
    destruct (qualifying_row_beyond ranking (Z.to_nat top_k) threshold) as [-> ->];
      auto.
Qed.

(** C7.  Suppose that the store returns its rows ranked closest first.
    Then in every successful query the nodes, the ids and the
    similarities list are built, position by position, from one
    sub-sequence of the fetched rows in the order of the ranking; the
    distances of the returned rows (which is what the similarities list
    holds) ascend, and the similarity scores of the returned nodes,
    [1 - distance], descend. *)
Theorem results_ranked_closest_first
    (embed_query : list float) (top_k : Z) (verbose approximate : bool)
    (w : world) (r : VectorStoreQueryResult) :
  (forall ranking,
      ordered_rows drv (clause_of approximate) (bound_vector cfg embed_query) = Ok ranking ->
      ranked ranking) ->
  fst (oracle_query cfg drv embed_query top_k verbose approximate w) = Ok (Some r) ->
  exists ranking kept,
    ordered_rows drv (clause_of approximate) (bound_vector cfg embed_query) = Ok ranking /\
    sublist kept (firstn (Z.to_nat top_k) ranking) /\
    ids r = map row_0 kept /\
    map id_ (nodes r) = map row_0 kept /\
    similarities r = map row_3 kept /\
    map similarity_score (nodes r) =
      map (fun row => Some (PyFloat (1 - row_3 row)%float)) kept /\
    ascending (map row_3 kept) /\
    descending (map (fun row => (1 - row_3 row)%float) kept).
Proof.
  intros Hranked H.
  apply oracle_query_rows in H
    as (ranking & l & _ & _ & Hrows & _ & -> & Hsub & Hkept & Hsome).
  specialize (Hranked ranking Hrows).
  exists ranking, (map fst l).
  pose proof (result_of_positions l) as [Hscore _].
  unfold result_of in *. cbn [nodes ids similarities] in *.
  rewrite !map_map. cbn [node_of node_of_row id_].
  assert (Hsorted : StronglySorted (fun a b => dist_le (row_3 a) (row_3 b) = true)
                      (map fst l)).
  { eapply StronglySorted_sublist; [exact Hsub|].
    eapply StronglySorted_sublist; [apply firstn_sublist|exact Hranked]. }
  assert (Hnum : Forall (fun row => (row_3 row =? row_3 row)%float = true) (map fst l)).
  { destruct l as [|rt l']; [constructor|].
    destruct Hsome as [th Hth]; [discriminate|].
    rewrite (Hkept th Hth). rewrite List.Forall_forall. intros row Hin.
    apply filter_In in Hin as [_ Hpass]. unfold passes in Hpass.
    eapply Binary64.passes_number, Hpass. }
  assert (Hasc : StronglySorted (fun a b => (row_3 a <=? row_3 b)%float = true)
                   (map fst l)).
  { eapply StronglySorted_weaken; [|exact Hnum|exact Hsorted].
    intros a b Hb. unfold dist_le. cbv beta. rewrite Hb. simpl. auto. }
  split; [exact Hrows|]. split; [exact Hsub|].
  split; [reflexivity|]. split; [reflexivity|]. split; [reflexivity|].
  split; [|split].
  - clear -Hscore. induction l as [|rt l IH]; simpl; [reflexivity|].
    inversion Hscore; subst. f_equal; auto.
  - rewrite <- (map_map fst row_3). apply StronglySorted_map. exact Hasc.
  - rewrite <- (map_map fst (fun row => (1 - row_3 row)%float)).
    apply StronglySorted_map.
    eapply StronglySorted_weaken with (P := fun _ => True);
      [|apply List.Forall_forall; auto|exact Hasc].
    intros a b _ Hab. now apply Binary64.sub_one_antitone.
Qed.

End FloorLimitOrder.

(** C6 as stated fails: over a store that ranks by distance, no
    successful query returns fewer than [top_k] results while a row
    beyond the first [top_k] satisfies the floor. *)
Lemma limit_then_filter_loses_nothing :
  fewer_than_top_k_despite_qualifying_row <-> False.
Proof.
  split; [|contradiction].
  intros (cfg & drv & embed_query & top_k & verbose & approximate & w & r & ranking
          & threshold & Hq & Hrows & Hranked & Hth & Hfew & Hex).
  apply oracle_query_rows in Hq
    as (ranking' & l & _ & _ & Hrows' & _ & -> & _ & Hkept & _).
  rewrite Hrows in Hrows'. injection Hrows' as <-.
  destruct (qualifying_row_beyond ranking (Z.to_nat top_k) threshold Hranked Hex)
    as [Hall Hlen].
  unfold result_of in Hfew. cbn [nodes] in Hfew.
  rewrite length_map, <- (length_map fst), (Hkept threshold Hth), Hall, Hlen in Hfew.
  lia.
Qed.

(* ===================================================================== *)
(** * Witnesses of the query theorems *)
(* ===================================================================== *)

Lemma three_rows_ranked : ranked three_rows.
Proof. unfold ranked, three_rows. repeat constructor. Qed.


(** The amended C6 on [three_rows] with limit 2. *)
Lemma results_within_top_k_witness :
  exists r,
    fst (oracle_query example_cfg (serving three_rows) [0.5%float] 2 true false
           (example_world 2 0.5)) = Ok (Some r) /\
    exists ranking kept,
      ordered_rows (serving three_rows) (clause_of false)
        (bound_vector example_cfg [0.5%float]) = Ok ranking /\
      sublist kept (firstn (Z.to_nat 2) ranking) /\
      ids r = map row_0 kept /\
      map id_ (nodes r) = map row_0 kept /\
      similarities r = map row_3 kept /\
      (List.length (nodes r) <= Z.to_nat 2)%nat /\
      (0 <= 2 -> Z.of_nat (List.length (nodes r)) <= 2)%Z /\
      (forall threshold,
          ranked ranking ->
          ss_similarity (session (example_world 2 0.5)) = Some threshold ->
          Exists (fun row => passes threshold row = true) (skipn (Z.to_nat 2) ranking) ->
          kept = firstn (Z.to_nat 2) ranking /\
          List.length (nodes r) = Z.to_nat 2).
Proof.
  eexists. split; [vm_compute; reflexivity|].
  apply (results_within_top_k example_cfg (serving three_rows)
           [0.5%float] 2 true false (example_world 2 0.5)).
  vm_compute; reflexivity.
Defined.

(** C7 on [three_rows] under floor 0.75. *)
Lemma results_ranked_closest_first_witness :
  (forall ranking,
      ordered_rows (serving three_rows) (clause_of false)
        (bound_vector example_cfg [0.5%float]) = Ok ranking ->
      ranked ranking) /\
  exists r,
    fst (oracle_query example_cfg (serving three_rows) [0.5%float] 3 true false
           (example_world 3 0.75)) = Ok (Some r) /\
    exists ranking kept,
      ordered_rows (serving three_rows) (clause_of false)
        (bound_vector example_cfg [0.5%float]) = Ok ranking /\
      sublist kept (firstn (Z.to_nat 3) ranking) /\
      ids r = map row_0 kept /\
      map id_ (nodes r) = map row_0 kept /\
      similarities r = map row_3 kept /\
      map similarity_score (nodes r) =
        map (fun row => Some (PyFloat (1 - row_3 row)%float)) kept /\
      ascending (map row_3 kept) /\
      descending (map (fun row => (1 - row_3 row)%float) kept).
Proof.
  split.
  - intros ranking [= <-]. exact three_rows_ranked.
  - eexists. split; [vm_compute; reflexivity|].
    apply (results_ranked_closest_first example_cfg (serving three_rows)
             [0.5%float] 3 true false (example_world 3 0.75)).
    + intros ranking [= <-]. exact three_rows_ranked.
    + vm_compute; reflexivity.
Defined.

(** The first hypothesis of C5 cannot be dropped.  When the CLOB of a row
    that only the lower floor admits cannot be read, the query under the
    lower floor returns [None], and the query under the higher floor,
    which never reads that CLOB, returns its two rows. *)
Example higher_floor_avoids_unreadable_row :
  let rows := [example_row "a" 0.125; example_row "b" 0.25; unreadable_row "c" 0.5]%float in
  fst (oracle_query example_cfg (serving rows) [0.5%float] 3 true false
         (example_world 3 0.5)) = Ok None /\
  exists r,
    fst (oracle_query example_cfg (serving rows) [0.5%float] 3 true false
           (example_world 3 0.75)) = Ok (Some r) /\
    ids r = ["a"; "b"].
Proof. split; [vm_compute; reflexivity|]. eexists. split; vm_compute; reflexivity. Qed.

(** The scenario of the specification: similarities 0.9, 0.7 and 0.5
    (distances 0.1, 0.3 and 0.5), limit 3 and floor 0.6 give the first
    two rows, in that order. *)
Example scenario_two_of_three :
  exists r,
    fst (oracle_query example_cfg
           (serving [example_row "a" 0x1.999999999999ap-4;
                     example_row "b" 0x1.3333333333333p-2;
                     example_row "c" 0.5]%float)
           [0.5%float] 3 true false (example_world 3 0x1.3333333333333p-1)) = Ok (Some r) /\
    ids r = ["a"; "b"].
Proof. eexists. split; vm_compute; reflexivity. Qed.

(* ===================================================================== *)
(** * The vector encoding *)
(* ===================================================================== *)

Lemma le_bytes_length (n : nat) : forall z, List.length (Array.le_bytes n z) = n.
Proof. induction n as [|n IH]; intros z; simpl; [reflexivity|]. now rewrite IH. Qed.

Lemma pack_item_length (tc : string) (x : float) :
  List.length (Array.pack_item tc x) = Array.itemsize tc.
Proof.
  unfold Array.pack_item, Array.itemsize.
  destruct (String.eqb tc "d"); apply le_bytes_length.
Qed.

Lemma concat_length_uniform {A B} (f : A -> list B) (n : nat) (l : list A) :
  (forall x, List.length (f x) = n) ->
  List.length (concat (map f l)) = (n * List.length l)%nat.
Proof.
  intros Hf. induction l as [|x l IH]; simpl; [lia|].
  rewrite length_app, Hf, IH. lia.
Qed.

Section Binary64Encoding.

#[local] Open Scope Z_scope.

Lemma Z_of_byte_of_Z (z : Z) : Array.Z_of_byte (Array.byte_of_Z z) = z mod 256.
Proof.
  unfold Array.Z_of_byte, Array.byte_of_Z.
  assert (Hb : 0 <= z mod 256 < 256) by (apply Z.mod_pos_bound; lia).
  destruct (Byte.of_N (Z.to_N (z mod 256))) as [b|] eqn:E.
  - apply Byte.to_of_N in E. rewrite E. lia.
  - apply Byte.of_N_None_iff in E. lia.
Qed.

Lemma le_value_le_bytes (n : nat) :
  forall z, Array.le_value (Array.le_bytes n z) = z mod 256 ^ Z.of_nat n.
Proof.
  induction n as [|n IH]; intros z.
  - simpl. now rewrite Z.mod_1_r.
  - cbn [Array.le_bytes Array.le_value]. rewrite Z_of_byte_of_Z, IH.
    rewrite Nat2Z.inj_succ, Z.pow_succ_r by lia.
    rewrite Z.rem_mul_r by (try apply Z.pow_nonzero; lia). lia.
Qed.

Lemma fields_of_bits (s : bool) (E F : Z) :
  0 <= E < 2 ^ 11 -> 0 <= F < 2 ^ 52 ->
  let b := (if s then 2 ^ 63 else 0) + E * 2 ^ 52 + F in
  Z.testbit b 63 = s /\ (b / 2 ^ 52) mod 2 ^ 11 = E /\ b mod 2 ^ 52 = F /\ 0 <= b < 2 ^ 64.
Proof.
  intros HE HF b.
  assert (Hdiv : b / 2 ^ 52 = (if s then 2 ^ 11 else 0) + E).
  { symmetry. apply (Z.div_unique b (2 ^ 52) _ F); [lia|]. unfold b. destruct s; lia. }
  assert (Hhi : b / 2 ^ 63 = if s then 1 else 0).
  { symmetry. apply (Z.div_unique b (2 ^ 63) _ (E * 2 ^ 52 + F)); [lia|].
    unfold b. destruct s; lia. }
  repeat split.
  - rewrite Z.testbit_odd, Z.shiftr_div_pow2, Hhi by lia. now destruct s.
  - rewrite Hdiv. symmetry.
    apply (Z.mod_unique _ (2 ^ 11) (if s then 1 else 0) E); [lia|]. destruct s; lia.
  - symmetry. apply (Z.mod_unique b (2 ^ 52) ((if s then 2 ^ 11 else 0) + E) F); [lia|].
    unfold b. destruct s; lia.
  - unfold b. destruct s; lia.
  - unfold b. destruct s; lia.
Qed.

(** Decoding the binary64 bit pattern of a valid number gives the number
    back. *)
Lemma SF_of_bits_of_SF (x : spec_float) :
  valid_binary x = true ->
  Array.SF_of_bits 53 11 (Array.bits_of_SF 53 11 x) = x /\
  0 <= Array.bits_of_SF 53 11 x < 2 ^ 64.
Proof.
  intros V. destruct x as [s|s| |s m e].
  - destruct s; split; try reflexivity; cbv; split; congruence.
  - destruct s; split; try reflexivity; cbv; split; congruence.
  - split; [reflexivity|]. cbv; split; congruence.
  - pose proof (Binary64.valid_finite s m e V) as (He & HL & Hn).
    pose proof (Binary64.log2_bounds m) as [Hlo Hhi].
    assert (Hm53 : Z.pos m < 2 ^ 53).
    { assert (2 ^ (Z.log2 (Z.pos m) + 1) <= 2 ^ 53) by (apply Z.pow_le_mono_r; lia). lia. }
    unfold Array.SF_of_bits, Array.bits_of_SF.
    change (53 - 1) with 52. change (2 ^ (11 - 1)) with 1024.
    change (SpecFloat.emin 53 1024) with (-1074). change (52 + 11) with 63.
    cbv zeta.
    destruct (Z.leb_spec (2 ^ 52) (Z.pos m)) as [Hnorm|Hsub].
    + assert (HL52 : Z.log2 (Z.pos m) = 52).
      { apply Z.log2_unique; lia. }
      destruct (fields_of_bits s (e - -1074 + 1) (Z.pos m - 2 ^ 52) ltac:(lia) ltac:(lia))
        as (Hs & HE & HF & Hb).
      rewrite Hs, HE, HF. split; [|exact Hb].
      assert (H0 : (e - -1074 + 1 =? 0) = false) by (apply Z.eqb_neq; lia).
      assert (H1 : (e - -1074 + 1 =? 2 ^ 11 - 1) = false) by (apply Z.eqb_neq; lia).
      rewrite H0, H1.
      replace (Z.pos m - 2 ^ 52 + 2 ^ 52) with (Z.pos m) by lia.
      f_equal. lia.
    + assert (He' : e = -1074).
      { destruct Hn as [|Hn]; [assumption|]. rewrite Hn in Hlo. lia. }
      destruct (fields_of_bits s 0 (Z.pos m) ltac:(lia) ltac:(lia)) as (Hs & HE & HF & Hb).
      replace ((if s then 2 ^ 63 else 0) + Z.pos m)
        with ((if s then 2 ^ 63 else 0) + 0 * 2 ^ 52 + Z.pos m) by lia.
      rewrite Hs, HE, HF. split; [|exact Hb].
      cbn [Z.eqb]. now subst e.
Qed.

Lemma unpack_pack_binary64 (x : float) :
  Array.unpack_item "d" (Array.pack_item "d" x) = x.
Proof.
  unfold Array.unpack_item, Array.pack_item. cbn [String.eqb Ascii.eqb Bool.eqb].
  destruct (SF_of_bits_of_SF (Prim2SF x) (Prim2SF_valid x)) as [Hround Hrange].
  rewrite le_value_le_bytes. change (256 ^ Z.of_nat 8) with (2 ^ 64).
  rewrite Z.mod_small by exact Hrange. rewrite Hround. apply SF2Prim_Prim2SF.
Qed.

Lemma chunks_concat {A} (f : A -> list byte) (n : nat) (l : list A) :
  (0 < n)%nat -> (forall x, List.length (f x) = n) ->
  forall fuel, (List.length l <= fuel)%nat ->
               Array.chunks n fuel (List.concat (map f l)) = map f l.
Proof.
  intros Hn Hf. induction l as [|x l IH]; intros fuel Hfuel.
  - destruct fuel; reflexivity.
  - destruct fuel as [|fuel]; [simpl in Hfuel; lia|].
    cbn [map List.concat Array.chunks].
    destruct (f x ++ List.concat (map f l)) as [|b bs] eqn:E.
    + apply (f_equal (@List.length byte)) in E. rewrite length_app, Hf in E. simpl in E. lia.
    + rewrite <- E.
      rewrite firstn_app, skipn_app, Hf, Nat.sub_diag.
      rewrite firstn_all2, skipn_all2 by (rewrite Hf; lia).
      cbn [firstn skipn]. rewrite app_nil_r. cbn [app].
      f_equal. apply IH. simpl in Hfuel. lia.
Qed.

Lemma tolist_binary64 (cfg : config) (v : list float) :
  EMBEDDINGS_BITS cfg = 64 -> Array.tolist (bound_vector cfg v) = v.
Proof.
  intros H64. unfold Array.tolist, bound_vector, array_type. rewrite H64.
  cbn [Z.eqb Pos.eqb Array.typecode Array.buffer].
  change (Array.itemsize "d") with 8%nat.
  rewrite chunks_concat.
  - rewrite map_map. rewrite <- (map_id v) at 2. apply map_ext. intros x.
    apply unpack_pack_binary64.
  - lia.
  - intros x. reflexivity || (unfold Array.pack_item; cbn [String.eqb Ascii.eqb Bool.eqb]).
    all: try apply length_le_bytes.
  - rewrite (concat_length_uniform (Array.pack_item "d") 8).
    + lia.
    + intros x. apply pack_item_length.
Qed.

End Binary64Encoding.

(** C10.  The element width is a function of the configuration alone:
    typecode ["d"] when [EMBEDDINGS_BITS] is 64 and ["f"] otherwise, the
    same for the vector that [oracle_query] binds and for the vectors
    that [save_chunks_with_embeddings_in_db] inserts.  The buffer is the
    concatenation of the encodings of the elements, the IEEE binary64
    bit pattern in 8 bytes or the binary32 bit pattern of the rounded
    element in 4 bytes, so its length is the element size times the
    number of elements.  In a 64-bit configuration reading the buffer
    back gives exactly the encoded vector.  In a 32-bit configuration
    the vector [0.1, 0.2, 0.3] is encoded in 12 bytes, and reading the
    elements back gives numbers within the binary32 epsilon of 0.1, 0.2
    and 0.3. *)
Theorem vector_encoding :
  (forall cfg,
      array_type cfg = (if (EMBEDDINGS_BITS cfg =? 64)%Z then "d" else "f") /\
      Array.itemsize (array_type cfg) =
        (if (EMBEDDINGS_BITS cfg =? 64)%Z then 8 else 4)%nat) /\
  (forall cfg v,
      Array.array_ (array_type cfg) v = Ok (bound_vector cfg v) /\
      array_of_embedding cfg (Some v) = Ok (bound_vector cfg v) /\
      Array.typecode (bound_vector cfg v) = array_type cfg /\
      Array.buffer (bound_vector cfg v) =
        concat (map (Array.pack_item (array_type cfg)) v) /\
      List.length (Array.buffer (bound_vector cfg v)) =
        (Array.itemsize (array_type cfg) * List.length v)%nat) /\
  (forall x,
      Array.pack_item "d" x = Array.le_bytes 8 (Array.bits_of_SF 53 11 (Prim2SF x)) /\
      Array.pack_item "f" x =
        Array.le_bytes 4 (Array.bits_of_SF 24 8 (Array.SF_to_binary32 (Prim2SF x)))) /\
  (forall cfg v,
      EMBEDDINGS_BITS cfg = 64%Z -> Array.tolist (bound_vector cfg v) = v) /\
  EMBEDDINGS_BITS example_cfg = 32%Z /\
  Array.buffer (bound_vector example_cfg scenario_vector) =
    [xcd; xcc; xcc; x3d; xcd; xcc; x4c; x3e; x9a; x99; x99; x3e]%byte /\
  List.length (Array.buffer (bound_vector example_cfg scenario_vector)) = 12%nat /\
  Forall2 (fun x y => within float32_epsilon x y = true)
    scenario_vector (Array.tolist (bound_vector example_cfg scenario_vector)).
Proof.
  split; [|split; [|split; [|split; [|split; [|split; [|split]]]]]].
  - intros cfg. unfold array_type, Array.itemsize.
    destruct (EMBEDDINGS_BITS cfg =? 64)%Z; split; reflexivity.
  - intros cfg v. split; [apply array_of_array_type|].
    split; [apply array_of_array_type|].
    split; [reflexivity|]. split; [reflexivity|].
    unfold bound_vector. cbn [Array.buffer].
    apply concat_length_uniform, pack_item_length.
  - intros x. split; reflexivity.
  - apply tolist_binary64.
  - reflexivity.
  - vm_compute. reflexivity.
  - vm_compute. reflexivity.
  - vm_compute. repeat constructor.
Qed.

(* ===================================================================== *)
(** * The method [query] *)
(* ===================================================================== *)

Lemma with_tracing_oracle_query (b : bool) (cfg : config) (drv : oracledb) :
  oracle_query (with_tracing b cfg) drv = oracle_query cfg drv.
Proof. reflexivity. Qed.

Lemma with_tracing_same (cfg : config) : with_tracing (ADD_PHX_TRACING cfg) cfg = cfg.
Proof. destruct cfg; reflexivity. Qed.

Lemma before_oracle_query_frame (cfg : config) (self : OracleVectorStore.instance)
    (top_k : Z) (w : world) :
  let w' := before_oracle_query cfg self top_k w in
  session w' = session w /\ opened w' = opened w /\ pending w' = pending w /\
  committed w' = committed w /\
  log w' = (if OracleVectorStore.verbose self then log w ++ [calling_record top_k] else log w) /\
  spans w' = (if ADD_PHX_TRACING cfg then spans w ++ ["oracle_vector_db"] else spans w).
Proof.
  unfold before_oracle_query.
  destruct (OracleVectorStore.verbose self), (ADD_PHX_TRACING cfg); repeat split.
Qed.

(** [query] in closed form. *)
Lemma query_run (cfg : config) (drv : oracledb) (q : VectorStoreQuery)
    (self : OracleVectorStore.instance) (w : world) :
  OracleVectorStore.query cfg drv q (self, w) =
  match ss_top_k (session w) with
  | None => (Raise (KeyError "top_k"), (self, w))
  | Some top_k =>
      let run := oracle_query cfg drv (query_embedding q) top_k
                   (OracleVectorStore.verbose self)
                   (OracleVectorStore.enable_hnsw_indexes self)
                   (before_oracle_query cfg self top_k w) in
      (fst run, (self, snd run))
  end.
Proof.
  unfold OracleVectorStore.query. unfold bind at 1. rewrite in_world_run.
  unfold session_get, bind, get.
  destruct (ss_top_k (session w)) as [k|]; [|reflexivity].
  cbn [fst snd ret]. unfold before_oracle_query, optional_tracing.
  destruct (OracleVectorStore.verbose self).
  - rewrite in_world_run. cbn [fst snd logging_info emit modify].
    rewrite in_world_run. destruct (ADD_PHX_TRACING cfg); reflexivity.
  - cbn [ret]. rewrite in_world_run. destruct (ADD_PHX_TRACING cfg); reflexivity.
Qed.

(** The effects of [oracle_query] on the world. *)
Lemma oracle_query_frame (cfg : config) (drv : oracledb) (embed_query : list float)
    (top_k : Z) (verbose approximate : bool) (w : world) :
  let w' := snd (oracle_query cfg drv embed_query top_k verbose approximate w) in
  committed w' = committed w /\ session w' = session w /\ spans w' = spans w.
Proof.
  cbv zeta. rewrite oracle_query_run.
  destruct (connect_outcome drv _); [repeat split|].
  destruct (connected_outcome _ _ _ _ _ _); repeat split.
Qed.


(** X2.  What [query] returns depends on the instance through
    [enable_hnsw_indexes] only, and on the world through the session
    only: nodes that were added and not persisted are never searched,
    and neither the verbosity of the instance nor what was logged,
    traced or connected before changes the answer. *)
Theorem query_result_ignores_staging
    (cfg : config) (drv : oracledb) (q : VectorStoreQuery)
    (self1 self2 : OracleVectorStore.instance) (w1 w2 : world) :
  OracleVectorStore.enable_hnsw_indexes self1 = OracleVectorStore.enable_hnsw_indexes self2 ->
  session w1 = session w2 ->
  fst (OracleVectorStore.query cfg drv q (self1, w1)) =
  fst (OracleVectorStore.query cfg drv q (self2, w2)).
Proof.
  intros Hh Hs. rewrite !query_run, Hs.
  destruct (ss_top_k (session w2)) as [k|]; [|reflexivity].
  cbv zeta. cbn [fst]. rewrite !oracle_query_run, Hh.
  destruct (before_oracle_query_frame cfg self1 k w1) as (-> & _).
  destruct (before_oracle_query_frame cfg self2 k w2) as (-> & _).
  rewrite Hs.
  destruct (connect_outcome drv _); [reflexivity|].
  destruct (connected_outcome _ _ _ _ _ _); reflexivity.
Qed.

(** X3.  Tracing is transparent.  With [ADD_PHX_TRACING] on, [query]
    returns what it returns with tracing off and has the same effects
    on the instance, the log and the database; the only difference is
    one span named ["oracle_vector_db"], started when the call gets as
    far as [oracle_query], that is, when ["top_k"] is in the session. *)
Theorem query_tracing_only_adds_span
    (cfg : config) (drv : oracledb) (q : VectorStoreQuery)
    (self : OracleVectorStore.instance) (w : world) :
  let off := OracleVectorStore.query (with_tracing false cfg) drv q (self, w) in
  let on := OracleVectorStore.query (with_tracing true cfg) drv q (self, w) in
  fst on = fst off /\
  fst (snd on) = fst (snd off) /\
  log (snd (snd on)) = log (snd (snd off)) /\
  opened (snd (snd on)) = opened (snd (snd off)) /\
  pending (snd (snd on)) = pending (snd (snd off)) /\
  committed (snd (snd on)) = committed (snd (snd off)) /\
  session (snd (snd on)) = session (snd (snd off)) /\
  spans (snd (snd off)) = spans w /\
  spans (snd (snd on)) =
    match ss_top_k (session w) with
    | Some _ => spans w ++ ["oracle_vector_db"]
    | None => spans w
    end.
Proof.
  cbv zeta. rewrite !query_run.
  destruct (ss_top_k (session w)) as [k|]; [|repeat split].
  cbv zeta. cbn [fst snd]. rewrite !with_tracing_oracle_query, !oracle_query_run.
  unfold before_oracle_query. cbn [ADD_PHX_TRACING with_tracing].
  destruct (OracleVectorStore.verbose self); cbn [session set_spans logged set_log];
    (destruct (connect_outcome drv _); [repeat split|]);
    (destruct (connected_outcome _ _ _ _ _ _); repeat split).
Qed.

(* ===================================================================== *)
(** * [oracle_query]: effects and the session key *)
(* ===================================================================== *)

(** X4.  [oracle_query] only reads.  In every call the committed rows,
    the session and the spans are as before, and at most one connection
    is opened, with the credentials of the configuration.  The call
    either returns a result, and then exactly one connection was opened
    and nothing was logged, or it returns [None], and then exactly one
    record was logged, the error on [ConsoleLogger]: a [None] is never
    silent and a result never comes with an error record. *)
Theorem oracle_query_reads_only
    (cfg : config) (drv : oracledb) (embed_query : list float)
    (top_k : Z) (verbose approximate : bool) (w : world) :
  let run := oracle_query cfg drv embed_query top_k verbose approximate w in
  committed (snd run) = committed w /\
  session (snd run) = session w /\
  spans (snd run) = spans w /\
  (opened (snd run) = opened w \/
   opened (snd run) = opened w ++ [query_connect_args cfg]) /\
  (((exists r, fst run = Ok (Some r)) /\
    log (snd run) = log w /\
    opened (snd run) = opened w ++ [query_connect_args cfg])
   \/
   (fst run = Ok None /\
    exists e, log (snd run) = log w ++ [query_error_record e])).
Proof.
  cbv zeta. rewrite oracle_query_run.
  destruct (connect_outcome drv _) as [e|].
  - repeat split; [left; reflexivity|]. right. split; [reflexivity|]. now exists e.
  - destruct (connected_outcome _ _ _ _ _ _) as [l|e].
    + repeat split; [right; reflexivity|]. left. repeat split. now exists (result_of l).
    + repeat split; [right; reflexivity|]. right. split; [reflexivity|]. now exists e.
Qed.

(** X5.  The similarity floor is read from the session once per fetched
    row, inside the [try].  When the key ["similarity"] is missing and
    the statement delivers at least one row, the [KeyError] is caught:
    the query returns [None] and logs the error.  When no row is
    fetched the key is never read and the query returns the empty
    result. *)
Theorem oracle_query_missing_similarity_key
    (cfg : config) (drv : oracledb) (embed_query : list float)
    (top_k : Z) (verbose approximate : bool) (w : world) (ranking : list select_row) :
  ss_similarity (session w) = None ->
  connect_outcome drv (query_connect_args cfg) = None ->
  cursor_outcome drv = None ->
  ordered_rows drv (clause_of approximate) (bound_vector cfg embed_query) = Ok ranking ->
  oracle_query cfg drv embed_query top_k verbose approximate w =
  match firstn (Z.to_nat top_k) ranking with
  | [] => (Ok (Some empty_result), after_connection cfg w)
  | _ :: _ =>
      (Ok None, logged (query_error_record (KeyError "similarity")) (after_connection cfg w))
  end.
Proof.
  intros Hs Hc Hcur Hrows. rewrite oracle_query_run, Hc.
  unfold connected_outcome. rewrite Hcur.
  fold (clause_of approximate). rewrite Hrows.
  unfold scan. rewrite Hs.
  destruct (firstn (Z.to_nat top_k) ranking); reflexivity.
Qed.

(* ===================================================================== *)
(** * [save_chunks_with_embeddings_in_db] *)
(* ===================================================================== *)

Lemma accepted_length (drv : oracledb) (rows : list insert_row) :
  forall done,
    (List.length (accepted drv rows done) + List.length (refusals drv rows done) =
     List.length done + List.length rows)%nat.
Proof.
  induction rows as [|r rest IH]; intros done; simpl.
  - lia.
  - destruct (insert_outcome drv r done).
    + specialize (IH done). simpl. lia.
    + specialize (IH (done ++ [r])). rewrite length_app in IH. simpl in IH. lia.
Qed.

Lemma accepted_extends (drv : oracledb) (rows : list insert_row) :
  forall done, exists kept, accepted drv rows done = done ++ kept /\ sublist kept rows.
Proof.
  induction rows as [|r rest IH]; intros done; simpl.
  - exists []. split; [now rewrite app_nil_r | constructor].
  - destruct (insert_outcome drv r done).
    + destruct (IH done) as (kept & -> & Hsub). exists kept. split; [reflexivity|].
      now apply sublist_cons.
    + destruct (IH (done ++ [r])) as (kept & -> & Hsub). exists (r :: kept).
      split; [now rewrite <- app_assoc | now apply sublist_skip].
Qed.

Lemma after_inserts_nil (drv : oracledb) (w : world) : after_inserts drv [] w = w.
Proof.
  destruct w. unfold after_inserts, set_pending, set_log. simpl. now rewrite app_nil_r.
Qed.

(** The insert loop on items that all have an embedding. *)
Lemma insert_chunks_run (cfg : config) (drv : oracledb) (book_id : pyobj)
    (items : list (string * string * pyobj * option (list float)))
    (rows : list insert_row) :
  Forall2 (fun it r => item_row cfg book_id it = Some r) items rows ->
  forall tot_errors w,
    insert_chunks cfg drv items book_id tot_errors w =
    (Ok (tot_errors + List.length (refusals drv rows (pending w)))%nat,
     after_inserts drv rows w).
Proof.
  induction 1 as [|[[[id txt] page] vector] r items rows Hr _ IH]; intros tot_errors w.
  - simpl. unfold ret. now rewrite after_inserts_nil, Nat.add_0_r.
  - simpl in Hr. destruct vector as [v|]; [|discriminate]. injection Hr as <-.
    cbn [insert_chunks array_of_embedding]. rewrite array_of_array_type.
    cbv [lift_result bind ret try_except execute_insert get outcome].
    cbn [accepted refusals].
    unfold after_inserts. cbn [accepted refusals].
    destruct (insert_outcome drv _ (pending w)) as [e|].
    + cbv [raise logging_error emit modify]. rewrite IH.
      destruct w. unfold after_inserts, set_pending, set_log. cbn.
      rewrite <- app_assoc. cbn. f_equal. f_equal. lia.
    + cbv [modify]. rewrite IH.
      destruct w. unfold after_inserts, set_pending, set_log. cbn. reflexivity.
Qed.

(** The insert loop stops at the first item without an embedding. *)
Lemma insert_chunks_stops (cfg : config) (drv : oracledb) (book_id : pyobj)
    (pre : list (string * string * pyobj * option (list float)))
    (rows : list insert_row) (id txt : string) (page : pyobj)
    (post : list (string * string * pyobj * option (list float))) :
  Forall2 (fun it r => item_row cfg book_id it = Some r) pre rows ->
  forall tot_errors w,
    insert_chunks cfg drv (pre ++ (id, txt, page, None) :: post) book_id tot_errors w =
    (Raise not_iterable, after_inserts drv rows w).
Proof.
  induction 1 as [|[[[id' txt'] page'] vector] r items rows Hr _ IH]; intros tot_errors w.
  - simpl. cbv [lift_result bind raise]. now rewrite after_inserts_nil.
  - simpl in Hr. destruct vector as [v|]; [|discriminate]. injection Hr as <-.
    cbn [insert_chunks array_of_embedding app]. rewrite array_of_array_type.
    cbv [lift_result bind ret try_except execute_insert get outcome].
    unfold after_inserts. cbn [accepted refusals].
    destruct (insert_outcome drv _ (pending w)) as [e|].
    + cbv [raise logging_error emit modify]. rewrite IH.
      destruct w. unfold after_inserts, set_pending, set_log. cbn.
      rewrite <- app_assoc. reflexivity.
    + cbv [modify]. rewrite IH.
      destruct w. unfold after_inserts, set_pending, set_log. cbn. reflexivity.
Qed.

(** What the insert loop never touches, and the bounds of its counter. *)
Lemma insert_chunks_frame (cfg : config) (drv : oracledb) (book_id : pyobj)
    (items : list (string * string * pyobj * option (list float))) :
  forall tot_errors w,
    let run := insert_chunks cfg drv items book_id tot_errors w in
    opened (snd run) = opened w /\
    committed (snd run) = committed w /\
    session (snd run) = session w /\
    spans (snd run) = spans w /\
    (exists l, log (snd run) = log w ++ l) /\
    match fst run with
    | Ok n => (tot_errors <= n <= tot_errors + List.length items)%nat
    | Raise e => e = not_iterable
    end.
Proof.
  induction items as [|[[[id txt] page] vector] rest IH]; intros tot_errors w; cbv zeta.
  - simpl. repeat split; try lia. exists []. now rewrite app_nil_r.
  - destruct vector as [v|].
    + cbn [insert_chunks array_of_embedding]. rewrite array_of_array_type.
      cbv [lift_result bind ret try_except execute_insert get outcome].
      destruct (insert_outcome drv _ (pending w)) as [e|].
      * cbv [raise logging_error emit modify].
        match goal with |- context [insert_chunks cfg drv rest book_id ?n ?w1] =>
          destruct (IH n w1) as (Ho & Hc & Hs & Hsp & [l Hl] & Hn) end.
        rewrite Ho, Hc, Hs, Hsp, Hl. repeat split.
        -- destruct w; cbn. rewrite <- app_assoc. eauto.
        -- destruct (fst (insert_chunks _ _ _ _ _ _)); [simpl; lia|assumption].
      * cbv [modify].
        match goal with |- context [insert_chunks cfg drv rest book_id ?n ?w1] =>
          destruct (IH n w1) as (Ho & Hc & Hs & Hsp & [l Hl] & Hn) end.
        rewrite Ho, Hc, Hs, Hsp, Hl. repeat split.
        -- destruct w; cbn. eauto.
        -- destruct (fst (insert_chunks _ _ _ _ _ _)); [simpl; lia|assumption].
    + simpl. cbv [lift_result bind raise]. simpl. repeat split.
      exists []. now rewrite app_nil_r.
Qed.

(** X6.  The insert loop attempts every row.  When the cursor opens and
    every zipped item has an embedding, the function returns normally
    whatever the database answers to the inserts: a refused row is
    logged and counted, and the loop goes on with the next row.  The
    transaction then holds what it held before followed by the accepted
    rows in their order, the log has one error record per refused row
    and ends with the total, and accepted and refused rows together are
    all the rows. *)
Theorem save_chunks_attempts_every_row
    (cfg : config) (drv : oracledb)
    (pages_id pages_text : list string) (pages_num : list pyobj)
    (embeddings : list (option (list float))) (book_id : pyobj)
    (rows : list insert_row) (w : world) :
  cursor_outcome drv = None ->
  Forall2 (fun it r => item_row cfg book_id it = Some r)
    (zip4 pages_id pages_text pages_num embeddings) rows ->
  let run := save_chunks_with_embeddings_in_db cfg drv
               pages_id pages_text pages_num embeddings book_id w in
  let errors := refusals drv rows (pending w) in
  fst run = Ok tt /\
  pending (snd run) = accepted drv rows (pending w) /\
  log (snd run) =
    log w ++ saving_record :: map row_error_record errors ++
    [total_record (List.length errors)] /\
  (List.length (pending (snd run)) + List.length errors =
   List.length (pending w) + List.length rows)%nat /\
  (exists kept, pending (snd run) = pending w ++ kept /\ sublist kept rows) /\
  opened (snd run) = opened w /\
  committed (snd run) = committed w.
Proof.
  intros Hcur Hrows. cbv zeta.
  unfold save_chunks_with_embeddings_in_db.
  cbv [try_except bind with_cursor]. rewrite Hcur.
  cbv [outcome ret logging_info emit modify].
  rewrite (insert_chunks_run cfg drv book_id _ rows Hrows).
  destruct w as [lg op pe co sp se].
  unfold after_inserts, set_pending, set_log. cbn.
  repeat split.
  - rewrite <- !app_assoc. reflexivity.
  - apply accepted_length.
  - apply accepted_extends.
Qed.

(** X7.  An item without an embedding aborts the batch.
    [array.array(array_type, None)] is outside the inner [try], so its
    [TypeError] ends the loop: the rows before the item were attempted,
    the item and every row after it are not, the total is not logged,
    and the exception is logged as critical and raised again. *)
Theorem save_chunks_missing_embedding_aborts
    (cfg : config) (drv : oracledb)
    (pages_id pages_text : list string) (pages_num : list pyobj)
    (embeddings : list (option (list float))) (book_id : pyobj)
    (pre : list (string * string * pyobj * option (list float)))
    (rows : list insert_row) (id txt : string) (page : pyobj)
    (post : list (string * string * pyobj * option (list float))) (w : world) :
  cursor_outcome drv = None ->
  zip4 pages_id pages_text pages_num embeddings = pre ++ (id, txt, page, None) :: post ->
  Forall2 (fun it r => item_row cfg book_id it = Some r) pre rows ->
  let run := save_chunks_with_embeddings_in_db cfg drv
               pages_id pages_text pages_num embeddings book_id w in
  fst run = Raise not_iterable /\
  pending (snd run) = accepted drv rows (pending w) /\
  log (snd run) =
    log w ++ saving_record :: map row_error_record (refusals drv rows (pending w)) ++
    [critical_record not_iterable] /\
  (List.length (pending (snd run)) <= List.length (pending w) + List.length pre)%nat /\
  committed (snd run) = committed w.
Proof.
  intros Hcur Hzip Hrows. cbv zeta.
  unfold save_chunks_with_embeddings_in_db.
  cbv [try_except bind with_cursor]. rewrite Hcur, Hzip.
  cbv [outcome ret logging_info emit modify].
  rewrite (insert_chunks_stops cfg drv book_id pre rows id txt page post Hrows).
  pose proof (accepted_length drv rows (pending w)) as Hlen.
  pose proof (List.Forall2_length Hrows) as Hl.
  destruct w as [lg op pe co sp se].
  unfold after_inserts, set_pending, set_log, logging_error, emit, modify, bind, raise.
  cbn in *. repeat split.
  - rewrite <- !app_assoc. reflexivity.
  - lia.
Qed.

(** X8.  [save_chunks_with_embeddings_in_db] never fails silently and
    never commits.  In every call, whatever the lists and the database:
    a raised exception is the last record of the log, at level ERROR,
    before it leaves the function; a normal return ends the log with
    the total of the refused rows, which is at most the number of zipped
    items; and the connections opened and the rows committed are those
    of before. *)
Theorem save_chunks_logs_before_raising
    (cfg : config) (drv : oracledb)
    (pages_id pages_text : list string) (pages_num : list pyobj)
    (embeddings : list (option (list float))) (book_id : pyobj) (w : world) :
  let run := save_chunks_with_embeddings_in_db cfg drv
               pages_id pages_text pages_num embeddings book_id w in
  opened (snd run) = opened w /\
  committed (snd run) = committed w /\
  match fst run with
  | Raise e => exists l, log (snd run) = log w ++ l ++ [critical_record e]
  | Ok _ =>
      exists l n,
        log (snd run) = log w ++ l ++ [total_record n] /\
        (n <= List.length (zip4 pages_id pages_text pages_num embeddings))%nat
  end.
Proof.
  cbv zeta. unfold save_chunks_with_embeddings_in_db.
  cbv [try_except bind with_cursor].
  destruct (cursor_outcome drv) as [e|].
  - cbv [outcome raise logging_error emit modify]. destruct w; cbn.
    repeat split. now exists [].
  - cbv [outcome ret logging_info emit modify].
    match goal with |- context [insert_chunks cfg drv ?items book_id 0%nat ?w1] =>
      pose proof (insert_chunks_frame cfg drv book_id items 0%nat w1) as H;
      cbv zeta in H; destruct H as (Ho & Hc & _ & _ & [l Hl] & Hn);
      destruct (insert_chunks cfg drv items book_id 0%nat w1) as [[n|e] w'] end.
    + cbn in *. destruct w, w'; cbn in *. subst. repeat split.
      exists (saving_record :: l), n. rewrite <- !app_assoc. split; [reflexivity|lia].
    + cbv [logging_error emit modify raise]. cbn in *. destruct w, w'; cbn in *. subst.
      repeat split. exists (saving_record :: l). now rewrite <- !app_assoc.
Qed.

Lemma zip4_length {A B C D} (la : list A) :
  forall (lb : list B) (lc : list C) (ld : list D),
    List.length (zip4 la lb lc ld) = shortest la lb lc ld.
Proof.
  unfold shortest.
  induction la as [|a la IH]; intros [|b lb] [|c lc] [|d ld]; simpl; try lia.
  rewrite IH. lia.
Qed.

Lemma zip4_firstn {A B C D} (n : nat) :
  forall (la : list A) (lb : list B) (lc : list C) (ld : list D),
    zip4 (firstn n la) (firstn n lb) (firstn n lc) (firstn n ld) =
    firstn n (zip4 la lb lc ld).
Proof.
  induction n as [|n IH]; intros la lb lc ld.
  - reflexivity.
  - destruct la as [|a la]; [reflexivity|].
    destruct lb as [|b lb]; [reflexivity|].
    destruct lc as [|c lc]; [simpl; now destruct (firstn n lb)|].
    destruct ld as [|d ld]; [simpl; now destruct (firstn n lb), (firstn n lc)|].
    simpl. now rewrite IH.
Qed.

(** X9.  The four lists are zipped: the loop runs as many times as the
    shortest list is long, and what the longer lists hold beyond that
    is ignored without an error or a log record.  A call is the call on
    the lists cut to the shortest length. *)
Theorem save_chunks_truncates_to_shortest
    (cfg : config) (drv : oracledb)
    (pages_id pages_text : list string) (pages_num : list pyobj)
    (embeddings : list (option (list float))) (book_id : pyobj) :
  let n := shortest pages_id pages_text pages_num embeddings in
  List.length (zip4 pages_id pages_text pages_num embeddings) = n /\
  save_chunks_with_embeddings_in_db cfg drv
    pages_id pages_text pages_num embeddings book_id =
  save_chunks_with_embeddings_in_db cfg drv
    (firstn n pages_id) (firstn n pages_text) (firstn n pages_num) (firstn n embeddings)
    book_id.
Proof.
  cbv zeta. split; [apply zip4_length|].
  unfold save_chunks_with_embeddings_in_db.
  rewrite zip4_firstn, firstn_all2; [reflexivity|].
  rewrite zip4_length. lia.
Qed.

(* ===================================================================== *)
(** * [persist] on an instance with a [DSN] attribute *)
(* ===================================================================== *)

Lemma save_chunks_frame
    (cfg : config) (drv : oracledb)
    (pages_id pages_text : list string) (pages_num : list pyobj)
    (embeddings : list (option (list float))) (book_id : pyobj) (w : world) :
  let run := save_chunks_with_embeddings_in_db cfg drv
               pages_id pages_text pages_num embeddings book_id w in
  opened (snd run) = opened w /\ committed (snd run) = committed w.
Proof.
  cbv zeta. unfold save_chunks_with_embeddings_in_db.
  cbv [try_except bind with_cursor].
  destruct (cursor_outcome drv) as [e|].
  - cbv [outcome raise logging_error emit modify]. destruct w; cbn. now split.
  - cbv [outcome ret logging_info emit modify].
    match goal with |- context [insert_chunks cfg drv ?items book_id 0%nat ?w1] =>
      pose proof (insert_chunks_frame cfg drv book_id items 0%nat w1) as H;
      cbv zeta in H; destruct H as (Ho & Hc & _);
      destruct (insert_chunks cfg drv items book_id 0%nat w1) as [[n|e] w'] end.
    + cbn in *. destruct w, w'; cbn in *. now split.
    + cbv [logging_error emit modify raise]. cbn in *. destruct w, w'; cbn in *. now split.
Qed.

(** The lists that [persist] collects from a buffer whose nodes all have
    a page number. *)
Lemma collect_lists (items : odict TextNode) :
  Forall has_page items ->
  forall a b c d,
    OracleVectorStore.collect items (a, b, c, d) =
    Ok (a ++ map (fun kv => id_ (snd kv)) items,
        b ++ map (fun kv => text (snd kv)) items,
        c ++ map (fun kv => embedding (snd kv)) items,
        d ++ map (fun kv => default PyNone (metadata (snd kv) !! "page#")) items).
Proof.
  induction 1 as [|[k n] rest [p Hp] _ IH]; intros a b c d; simpl.
  - now rewrite !app_nil_r.
  - simpl in Hp. unfold getitem. rewrite Hp. rewrite IH. simpl.
    now rewrite <- !app_assoc.
Qed.

Lemma staged_rows_zip (cfg : config) (items : odict TextNode) (rows : list insert_row) :
  Forall2 (fun kv r => staged_row cfg (snd kv) = Some r) items rows ->
  Forall has_page items /\
  Forall2 (fun it r => item_row cfg PyNone it = Some r)
    (zip4 (map (fun kv => id_ (snd kv)) items)
          (map (fun kv => text (snd kv)) items)
          (map (fun kv => default PyNone (metadata (snd kv) !! "page#")) items)
          (map (fun kv => embedding (snd kv)) items))
    rows.
Proof.
  induction 1 as [|[k n] r items rows Hr _ [IH1 IH2]]; simpl.
  - split; constructor.
  - unfold staged_row in Hr. simpl in Hr.
    destruct (metadata n !! "page#") as [p|] eqn:Hp; [|discriminate].
    split; constructor; try assumption.
    unfold has_page. simpl. rewrite Hp. eauto.
Qed.

(** What [persist] leaves of the staging buffer. *)
Lemma persist_node_dict (cfg : config) (drv : oracledb)
    (self : OracleVectorStore.instance) (w : world) :
  let after := OracleVectorStore.persist cfg drv (self, w) in
  match fst after with
  | Ok _ => fst (snd after) = OracleVectorStore.set_node_dict [] self
  | Raise _ => fst (snd after) = self
  end.
Proof.
  cbv zeta. rewrite persist_run.
  destruct (OracleVectorStore.node_dict self) eqn:Hd.
  - simpl. destruct self; simpl in *. now subst.
  - destruct (OracleVectorStore.collect _ _) as [[[[? ?] ?] ?]|?]; [|reflexivity].
    destruct (OracleVectorStore.getattr self "DSN"); [|reflexivity].
    destruct (with_connect _ _ _ _) as [[[]|?] ?]; reflexivity.
Qed.

(** X10.  [persist] on an instance to which a caller has assigned a
    [DSN] attribute, with every staged node carrying a page number and
    an embedding, and a database that connects, opens the cursor and
    commits.  One connection is opened, with the instance's [DSN] and
    the wallet location as configuration directory; the rows that the
    database accepts are committed, in staging order; the buffer is
    cleared and the call returns normally, also when rows were refused:
    a refused row is logged and counted, and is afterwards neither in
    the table nor in the buffer. *)
Theorem persist_commits_accepted_rows
    (cfg : config) (drv : oracledb) (self : OracleVectorStore.instance) (w : world)
    (dsn : pyobj) (rows : list insert_row) :
  OracleVectorStore.attrs self !! "DSN" = Some dsn ->
  OracleVectorStore.node_dict self <> [] ->
  Forall2 (fun kv r => staged_row cfg (snd kv) = Some r)
    (OracleVectorStore.node_dict self) rows ->
  connect_outcome drv (persist_connect_args cfg dsn) = None ->
  cursor_outcome drv = None ->
  commit_outcome drv = None ->
  pending w = [] ->
  let after := OracleVectorStore.persist cfg drv (self, w) in
  let errors := refusals drv rows [] in
  fst after = Ok tt /\
  fst (snd after) = OracleVectorStore.set_node_dict [] self /\
  committed (snd (snd after)) = committed w ++ accepted drv rows [] /\
  sublist (accepted drv rows []) rows /\
  (List.length (accepted drv rows []) + List.length errors = List.length rows)%nat /\
  pending (snd (snd after)) = [] /\
  opened (snd (snd after)) = opened w ++ [persist_connect_args cfg dsn] /\
  log (snd (snd after)) =
    log w ++ persisting_record :: saving_record :: map row_error_record errors ++
    [total_record (List.length errors)].
Proof.
  intros Hdsn Hne Hrows Hconn Hcur Hcommit Hpend. cbv zeta.
  rewrite persist_run.
  destruct (OracleVectorStore.node_dict self) as [|kv rest] eqn:Hd; [congruence|].
  destruct (staged_rows_zip cfg _ rows Hrows) as [Hpages Hzip].
  rewrite (collect_lists _ Hpages). cbn [app].
  unfold OracleVectorStore.getattr. rewrite Hdsn.
  unfold with_connect. cbv [bind]. rewrite Hconn.
  cbv [outcome ret modify].
  set (w1 := set_opened _ _).
  pose proof (insert_chunks_run cfg drv PyNone _ rows Hzip 0%nat) as Hrun.
  unfold save_chunks_with_embeddings_in_db.
  cbv [try_except bind with_cursor]. rewrite Hcur.
  cbv [outcome ret logging_info emit modify]. rewrite Hrun.
  unfold commit. cbv [bind outcome]. rewrite Hcommit. cbv [ret modify].
  subst w1. destruct w as [lg op pe co sp se]. cbn in Hpend. subst pe.
  cbn [fst snd log opened pending committed spans session
       set_log set_opened set_pending set_committed logged after_inserts].
  rewrite Nat.add_0_l.
  pose proof (accepted_extends drv rows []) as (kept & Hk & Hsub).
  pose proof (accepted_length drv rows []) as Hlen.
  repeat split.
  - rewrite Hk. exact Hsub.
  - exact Hlen.
  - rewrite <- !app_assoc. reflexivity.
Qed.

(** X11.  [persist] clears the buffer exactly when it returns.  In every
    call, whatever the instance, the database and the world: when
    [persist] raises, the instance is as before, so every staged node
    is still staged, and no row has been committed; when it returns,
    the buffer is empty and the other attributes are as before. *)
Theorem persist_keeps_buffer_when_it_raises
    (cfg : config) (drv : oracledb) (self : OracleVectorStore.instance) (w : world) :
  let after := OracleVectorStore.persist cfg drv (self, w) in
  match fst after with
  | Raise _ =>
      fst (snd after) = self /\
      committed (snd (snd after)) = committed w
  | Ok _ =>
      fst (snd after) = OracleVectorStore.set_node_dict [] self
  end.
Proof.
  cbv zeta. rewrite persist_run.
  destruct (OracleVectorStore.node_dict self) as [|kv rest] eqn:Hd.
  - simpl. destruct self; simpl in *. now subst.
  - destruct (OracleVectorStore.collect _ _)
      as [[[[pages_id pages_text] embeddings] pages_num]|e]; [|now split].
    destruct (OracleVectorStore.getattr self "DSN") as [dsn|e]; [|now split].
    unfold with_connect. cbv [bind].
    destruct (connect_outcome drv _) as [e|].
    + cbv [outcome raise]. now split.
    + cbv [outcome ret modify].
      match goal with |- context [save_chunks_with_embeddings_in_db cfg drv ?a ?b ?c ?d ?k ?w1] =>
        pose proof (save_chunks_frame cfg drv a b c d k w1) as H;
        cbv zeta in H; destruct H as [_ Hc];
        destruct (save_chunks_with_embeddings_in_db cfg drv a b c d k w1) as [[[]|e] w2] end.
      * unfold commit. cbv [bind outcome].
        destruct (commit_outcome drv) as [e|].
        -- cbv [raise]. split; [reflexivity|].
           cbn in *. rewrite Hc. destruct w; reflexivity.
        -- reflexivity.
      * split; [reflexivity|]. cbn in *. rewrite Hc. destruct w; reflexivity.
Qed.

(** X12.  A [persist] that returned has left nothing to persist: a
    second [persist] right after it returns at once and changes
    nothing, so no row is sent to the database twice. *)
Theorem persist_again_is_noop
    (cfg : config) (drv : oracledb) (self : OracleVectorStore.instance) (w : world) :
  fst (OracleVectorStore.persist cfg drv (self, w)) = Ok tt ->
  OracleVectorStore.persist cfg drv (snd (OracleVectorStore.persist cfg drv (self, w))) =
  (Ok tt, snd (OracleVectorStore.persist cfg drv (self, w))).
Proof.
  intros Hok.
  pose proof (persist_node_dict cfg drv self w) as Hd. cbv zeta in Hd.
  rewrite Hok in Hd.
  destruct (OracleVectorStore.persist cfg drv (self, w)) as [r [self' w']].
  cbn [fst snd] in *. subst self'.
  rewrite persist_run. reflexivity.
Qed.

(* ===================================================================== *)
(** * The staging buffer: keys and order *)
(* ===================================================================== *)

Lemma existsb_eqb_In (k : string) (keys : list string) :
  existsb (String.eqb k) keys = true <-> In k keys.
Proof.
  rewrite existsb_exists. split.
  - intros (x & Hin & Heq). apply String.eqb_eq in Heq. now subst.
  - intros Hin. exists k. split; [assumption | apply String.eqb_refl].
Qed.

Lemma odict_set_keys {V} (k : string) (v : V) (d : odict V) :
  odict_keys (odict_set k v d) =
  odict_keys d ++ (if not_among (odict_keys d) k then [k] else []).
Proof.
  unfold not_among. induction d as [|[k0 v0] d IH]; simpl.
  - reflexivity.
  - destruct (String.eqb_spec k k0) as [->|Hne]; simpl.
    + now rewrite app_nil_r.
    + now rewrite IH.
Qed.

Lemma odict_set_own_id (n : TextNode) (d : odict TextNode) :
  Forall (fun kv => fst kv = id_ (snd kv)) d ->
  Forall (fun kv => fst kv = id_ (snd kv)) (odict_set (id_ n) n d).
Proof.
  induction 1 as [|[k0 n0] d Hk Hd IH]; simpl.
  - constructor; [reflexivity | constructor].
  - destruct (String.eqb (id_ n) k0).
    + constructor; [reflexivity | exact Hd].
    + constructor; [exact Hk | exact IH].
Qed.

Lemma add_loop_well_keyed (nodes : list TextNode) :
  forall d ids_list,
    well_keyed d -> well_keyed (fst (OracleVectorStore.add_loop nodes d ids_list)).
Proof.
  induction nodes as [|n rest IH]; intros d ids_list [Hnd Hown]; simpl.
  - now split.
  - apply IH. split; [now apply odict_set_NoDup | now apply odict_set_own_id].
Qed.

Lemma filter_not_among_app (keys : list string) (x : string) (l : list string) :
  List.filter (not_among (keys ++ [x])) l =
  List.filter (not_among keys) (List.filter (fun y => negb (String.eqb y x)) l).
Proof.
  induction l as [|y l IH]; simpl; [reflexivity|].
  unfold not_among at 1. rewrite existsb_app. simpl. rewrite orb_false_r.
  destruct (String.eqb y x) eqn:Hyx; simpl.
  - rewrite orb_true_r. simpl. exact IH.
  - rewrite orb_false_r. fold (not_among keys y).
    destruct (not_among keys y); now rewrite IH.
Qed.

Lemma filter_not_among_seen (keys : list string) (x : string) (l : list string) :
  In x keys ->
  List.filter (not_among keys) (List.filter (fun y => negb (String.eqb y x)) l) =
  List.filter (not_among keys) l.
Proof.
  intros Hin. induction l as [|y l IH]; simpl; [reflexivity|].
  destruct (String.eqb_spec y x) as [->|Hne]; simpl.
  - unfold not_among at 2.
    destruct (existsb (String.eqb x) keys) eqn:He; simpl; [exact IH|].
    apply existsb_eqb_In in Hin. congruence.
  - now rewrite IH.
Qed.

Lemma add_loop_keys (nodes : list TextNode) :
  forall d ids_list,
    odict_keys (fst (OracleVectorStore.add_loop nodes d ids_list)) =
    odict_keys d ++
    List.filter (not_among (odict_keys d)) (first_occurrences (map id_ nodes)).
Proof.
  induction nodes as [|n rest IH]; intros d ids_list; simpl.
  - now rewrite app_nil_r.
  - rewrite IH, odict_set_keys.
    destruct (not_among (odict_keys d) (id_ n)) eqn:Hn.
    + rewrite <- app_assoc. simpl. f_equal. f_equal. apply filter_not_among_app.
    + rewrite app_nil_r. f_equal. symmetry. apply filter_not_among_seen.
      apply existsb_eqb_In. unfold not_among in Hn.
      now destruct (existsb (String.eqb (id_ n)) (odict_keys d)).
Qed.

(** X13.  An invariant of the class.  On every instance that
    [__init__] builds and the methods change, the staging buffer has no
    key twice and holds every node under its own id, so the ids that
    [persist] collects are the keys of the buffer, all different. *)
Theorem produced_buffer_well_keyed
    (cfg : config) (drv : oracledb) (self : OracleVectorStore.instance) :
  produced cfg drv self ->
  List.NoDup (odict_keys (OracleVectorStore.node_dict self)) /\
  Forall (fun kv => fst kv = id_ (snd kv)) (OracleVectorStore.node_dict self) /\
  map (fun kv => id_ (snd kv)) (OracleVectorStore.node_dict self) =
    odict_keys (OracleVectorStore.node_dict self).
Proof.
  intros Hprod.
  assert (Hwk : well_keyed (OracleVectorStore.node_dict self)).
  { induction Hprod as [v h|self nodes _ IH|self w _ IH|self q w _ IH|self node_id kw w _ IH].
    - split; constructor.
    - rewrite add_run. cbn. now apply add_loop_well_keyed.
    - pose proof (persist_node_dict cfg drv self w) as Hd. cbv zeta in Hd.
      destruct (fst (OracleVectorStore.persist cfg drv (self, w))); rewrite Hd.
      + split; constructor.
      + exact IH.
    - now rewrite query_instance.
    - exact IH. }
  destruct Hwk as [Hnd Hown]. repeat split; try assumption.
  unfold odict_keys. apply List.map_ext_Forall.
  eapply List.Forall_impl; [|exact Hown]. intros kv H. now symmetry.
Qed.

(** X14.  [add] keeps the order of first staging.  The keys of the
    buffer after [add] are the keys of before, in their order, followed
    by the ids of the call that were not staged yet, in the order of
    their first occurrence: adding an id again replaces its node and
    does not move it. *)
Theorem add_keeps_staging_order (self : OracleVectorStore.instance) (nodes : list TextNode) :
  let before := odict_keys (OracleVectorStore.node_dict self) in
  odict_keys (OracleVectorStore.node_dict (fst (OracleVectorStore.add self nodes))) =
  before ++ List.filter (not_among before) (first_occurrences (map id_ nodes)).
Proof. cbv zeta. rewrite add_run. cbn. apply add_loop_keys. Qed.

(* ===================================================================== *)
(** * The dimension of a bound vector *)
(* ===================================================================== *)

Lemma itemsize_positive (tc : string) : (0 < Array.itemsize tc)%nat.
Proof. unfold Array.itemsize. destruct (String.eqb tc "d"); lia. Qed.

(** X15.  Encoding keeps the dimension.  At either element width the
    vector bound to the statement has as many items as the embedding
    has components: reading the buffer back gives a list of the same
    length, so a query vector and a stored vector of the same embedding
    model always have the same dimension. *)
Theorem bound_vector_dimension (cfg : config) (v : list float) :
  List.length (Array.tolist (bound_vector cfg v)) = List.length v.
Proof.
  assert (Hlen : List.length (Array.buffer (bound_vector cfg v)) =
                 (Array.itemsize (array_type cfg) * List.length v)%nat).
  { unfold bound_vector. cbn [Array.buffer].
    apply concat_length_uniform, pack_item_length. }
  unfold Array.tolist. rewrite Hlen. unfold bound_vector.
  cbn [Array.typecode Array.buffer].
  rewrite chunks_concat.
  - now rewrite !length_map.
  - apply itemsize_positive.
  - apply pack_item_length.
  - pose proof (itemsize_positive (array_type cfg)). nia.
Qed.

(* ===================================================================== *)
(** * The flags and the limit *)
(* ===================================================================== *)

(** X16.  [approximate] selects the clause of the statement and
    [verbose] only prints: when the database ranks the rows alike with
    and without [APPROXIMATE], the approximate query and the exact
    query, verbose or not, return the same result and have the same
    effects. *)
Theorem approximate_changes_only_the_clause
    (cfg : config) (drv : oracledb) (embed_query : list float) (top_k : Z)
    (verbose1 verbose2 : bool) (w : world) :
  ordered_rows drv (clause_of true) (bound_vector cfg embed_query) =
  ordered_rows drv (clause_of false) (bound_vector cfg embed_query) ->
  oracle_query cfg drv embed_query top_k verbose1 true w =
  oracle_query cfg drv embed_query top_k verbose2 false w.
Proof.
  intros Hsame. rewrite !oracle_query_run. unfold connected_outcome.
  fold (clause_of true). fold (clause_of false). now rewrite Hsame.
Qed.

(** X17.  A limit of zero or less.  [top_k] goes into the statement as
    it is; Oracle treats a negative row count as zero, so no row is
    fetched, the loop body never runs, and the query returns the empty
    result, whatever the floor and even when the session has no
    ["similarity"] key. *)
Theorem oracle_query_nonpositive_top_k
    (cfg : config) (drv : oracledb) (embed_query : list float) (top_k : Z)
    (verbose approximate : bool) (w : world) (ranking : list select_row) :
  (top_k <= 0)%Z ->
  connect_outcome drv (query_connect_args cfg) = None ->
  cursor_outcome drv = None ->
  ordered_rows drv (clause_of approximate) (bound_vector cfg embed_query) = Ok ranking ->
  oracle_query cfg drv embed_query top_k verbose approximate w =
  (Ok (Some empty_result), after_connection cfg w).
Proof.
  intros Hk Hc Hcur Hrows. rewrite oracle_query_run, Hc.
  unfold connected_outcome. rewrite Hcur.
  fold (clause_of approximate). rewrite Hrows.
  replace (Z.to_nat top_k) with 0%nat by lia. reflexivity.
Qed.

(** X18.  Verbosity only logs.  A verbose instance and a quiet one that
    agree otherwise get the same answer from [query], with the same
    connections, spans and rows; the log of the verbose call is the log
    of the quiet call with one record, the announcement with [top_k],
    put before whatever the query itself logs. *)
Theorem query_verbose_only_logs
    (cfg : config) (drv : oracledb) (q : VectorStoreQuery)
    (hnsw : bool) (d : odict TextNode) (a : gmap string pyobj) (w : world) (top_k : Z) :
  ss_top_k (session w) = Some top_k ->
  let quiet := OracleVectorStore.query cfg drv q
                 (OracleVectorStore.Build_instance false hnsw d a, w) in
  let loud := OracleVectorStore.query cfg drv q
                (OracleVectorStore.Build_instance true hnsw d a, w) in
  fst loud = fst quiet /\
  opened (snd (snd loud)) = opened (snd (snd quiet)) /\
  pending (snd (snd loud)) = pending (snd (snd quiet)) /\
  committed (snd (snd loud)) = committed (snd (snd quiet)) /\
  spans (snd (snd loud)) = spans (snd (snd quiet)) /\
  exists rest,
    log (snd (snd quiet)) = log w ++ rest /\
    log (snd (snd loud)) = log w ++ calling_record top_k :: rest.
Proof.
  intros Hk. cbv zeta. rewrite !query_run, Hk. cbv zeta. cbn [fst snd].
  rewrite !oracle_query_run. unfold before_oracle_query.
  cbn [OracleVectorStore.verbose OracleVectorStore.enable_hnsw_indexes].
  destruct (ADD_PHX_TRACING cfg); cbn [session set_spans logged set_log];
    (destruct (connect_outcome drv _) as [e|];
     [|destruct (connected_outcome _ _ _ _ _ _) as [l|e]]);
    repeat split; destruct w; cbn;
    first [ exists []; split; [now rewrite app_nil_r | reflexivity]
          | eexists; split; [reflexivity | now rewrite <- app_assoc] ].
Qed.

(** X16 at a database that ranks alike for both clauses. *)
Lemma approximate_changes_only_the_clause_witness :
  oracle_query example_cfg (serving three_rows) [0.5%float] 3 true true (example_world 3 0.5) =
  oracle_query example_cfg (serving three_rows) [0.5%float] 3 false false (example_world 3 0.5).
Proof.
  apply (approximate_changes_only_the_clause example_cfg (serving three_rows)
           [0.5%float] 3 true false (example_world 3 0.5)).
  reflexivity.
Defined.

(** X17 at limit 0 over three stored rows, without a floor in the
    session. *)
Lemma oracle_query_nonpositive_top_k_witness :
  oracle_query example_cfg (serving three_rows) [0.5%float] 0 true false (floorless_world 0) =
  (Ok (Some empty_result), after_connection example_cfg (floorless_world 0)).
Proof.
  apply (oracle_query_nonpositive_top_k example_cfg (serving three_rows)
           [0.5%float] 0 true false (floorless_world 0) three_rows).
  - lia.
  - reflexivity.
  - reflexivity.
  - reflexivity.
Defined.

(** X18 at a query over three rows. *)
Lemma query_verbose_only_logs_witness :
  let w := used_world 3 0.5%float in
  let quiet := OracleVectorStore.query example_cfg (serving three_rows)
                 (Build_VectorStoreQuery [0.5%float])
                 (OracleVectorStore.Build_instance false false [] ∅, w) in
  let loud := OracleVectorStore.query example_cfg (serving three_rows)
                (Build_VectorStoreQuery [0.5%float])
                (OracleVectorStore.Build_instance true false [] ∅, w) in
  fst loud = fst quiet /\
  opened (snd (snd loud)) = opened (snd (snd quiet)) /\
  pending (snd (snd loud)) = pending (snd (snd quiet)) /\
  committed (snd (snd loud)) = committed (snd (snd quiet)) /\
  spans (snd (snd loud)) = spans (snd (snd quiet)) /\
  exists rest,
    log (snd (snd quiet)) = log w ++ rest /\
    log (snd (snd loud)) = log w ++ calling_record 3 :: rest.
Proof.
  apply (query_verbose_only_logs example_cfg (serving three_rows)
           (Build_VectorStoreQuery [0.5%float]) false [] ∅ (used_world 3 0.5%float) 3).
  reflexivity.
Defined.

(* ===================================================================== *)
(** * The properties at concrete instances *)
(* ===================================================================== *)

(** X2 at a fresh instance and a verbose instance with a staged node,
    in worlds with different histories. *)
Lemma query_result_ignores_staging_witness :
  fst (OracleVectorStore.query example_cfg (serving three_rows)
         (Build_VectorStoreQuery [0.5%float]) (fresh, example_world 3 0.5)) =
  fst (OracleVectorStore.query example_cfg (serving three_rows)
         (Build_VectorStoreQuery [0.5%float]) (verbose_staged, used_world 3 0.5)).
Proof.
  apply (query_result_ignores_staging example_cfg (serving three_rows)
           (Build_VectorStoreQuery [0.5%float]) fresh verbose_staged
           (example_world 3 0.5) (used_world 3 0.5)); reflexivity.
Defined.

(** X5 at three fetched rows and a session without ["similarity"]. *)
Lemma oracle_query_missing_similarity_key_witness :
  oracle_query example_cfg (serving three_rows) [0.5%float] 3 true false (floorless_world 3) =
  (Ok None, logged (query_error_record (KeyError "similarity"))
              (after_connection example_cfg (floorless_world 3))).
Proof.
  apply (oracle_query_missing_similarity_key example_cfg (serving three_rows)
           [0.5%float] 3 true false (floorless_world 3) three_rows); reflexivity.
Defined.

(** X6 at three rows of which the database refuses the second. *)
Lemma save_chunks_attempts_every_row_witness :
  let run := save_chunks_with_embeddings_in_db example_cfg (rejecting "b")
               ["a"; "b"; "c"] ["chunk a"; "chunk b"; "chunk c"]
               [PyInt 1; PyInt 2; PyInt 3]
               [Some [0.5; 0.25]%float; Some [0.5; 0.25]%float; Some [0.5; 0.25]%float]
               PyNone (example_world 3 0.5) in
  let rows := [example_insert "a" 1; example_insert "b" 2; example_insert "c" 3] in
  let errors := refusals (rejecting "b") rows (pending (example_world 3 0.5)) in
  fst run = Ok tt /\
  pending (snd run) = accepted (rejecting "b") rows (pending (example_world 3 0.5)) /\
  log (snd run) =
    log (example_world 3 0.5) ++ saving_record :: map row_error_record errors ++
    [total_record (List.length errors)] /\
  (List.length (pending (snd run)) + List.length errors =
   List.length (pending (example_world 3 0.5)) + List.length rows)%nat /\
  (exists kept, pending (snd run) = pending (example_world 3 0.5) ++ kept /\
                sublist kept rows) /\
  opened (snd run) = opened (example_world 3 0.5) /\
  committed (snd run) = committed (example_world 3 0.5).
Proof.
  apply (save_chunks_attempts_every_row example_cfg (rejecting "b")).
  - reflexivity.
  - repeat constructor.
Defined.

(** X7 at three items of which the second has no embedding. *)
Lemma save_chunks_missing_embedding_aborts_witness :
  let w := example_world 3 0.5%float in
  let run := save_chunks_with_embeddings_in_db example_cfg (serving [])
               ["a"; "b"; "c"] ["chunk a"; "chunk b"; "chunk c"]
               [PyInt 1; PyInt 2; PyInt 3]
               [Some [0.5; 0.25]%float; None; Some [0.5; 0.25]%float]
               PyNone w in
  fst run = Raise not_iterable /\
  pending (snd run) = accepted (serving []) [example_insert "a" 1] (pending w) /\
  log (snd run) =
    log w ++ saving_record ::
    map row_error_record (refusals (serving []) [example_insert "a" 1] (pending w)) ++
    [critical_record not_iterable] /\
  (List.length (pending (snd run)) <=
   List.length (pending w) +
   List.length [("a", "chunk a", PyInt 1, Some [0.5; 0.25]%float)])%nat /\
  committed (snd run) = committed w.
Proof.
  apply (save_chunks_missing_embedding_aborts example_cfg (serving [])
           ["a"; "b"; "c"] ["chunk a"; "chunk b"; "chunk c"]
           [PyInt 1; PyInt 2; PyInt 3]
           [Some [0.5; 0.25]%float; None; Some [0.5; 0.25]%float] PyNone
           [("a", "chunk a", PyInt 1, Some [0.5; 0.25]%float)]
           [example_insert "a" 1] "b" "chunk b" (PyInt 2)
           [("c", "chunk c", PyInt 3, Some [0.5; 0.25]%float)]
           (example_world 3 0.5%float)).
  - reflexivity.
  - reflexivity.
  - repeat constructor.
Defined.

(** X10 at three staged nodes of which the database refuses the second. *)
Lemma persist_commits_accepted_rows_witness :
  let staged := fst (OracleVectorStore.add dsn_assigned
                       [example_node "a" 1; example_node "b" 2; example_node "c" 3]) in
  let w := example_world 3 0.5%float in
  let rows := [example_insert "a" 1; example_insert "b" 2; example_insert "c" 3] in
  let after := OracleVectorStore.persist example_cfg (rejecting "b") (staged, w) in
  let errors := refusals (rejecting "b") rows [] in
  fst after = Ok tt /\
  fst (snd after) = OracleVectorStore.set_node_dict [] staged /\
  committed (snd (snd after)) = committed w ++ accepted (rejecting "b") rows [] /\
  sublist (accepted (rejecting "b") rows []) rows /\
  (List.length (accepted (rejecting "b") rows []) + List.length errors =
   List.length rows)%nat /\
  pending (snd (snd after)) = [] /\
  opened (snd (snd after)) =
    opened w ++ [persist_connect_args example_cfg (PyStr "ragdb_high")] /\
  log (snd (snd after)) =
    log w ++ persisting_record :: saving_record :: map row_error_record errors ++
    [total_record (List.length errors)].
Proof.
  apply (persist_commits_accepted_rows example_cfg (rejecting "b")).
  - reflexivity.
  - vm_compute. discriminate.
  - repeat constructor.
  - reflexivity.
  - reflexivity.
  - reflexivity.
  - reflexivity.
Defined.

(** X12 after the [persist] of three staged nodes. *)
Lemma persist_again_is_noop_witness :
  let staged := fst (OracleVectorStore.add dsn_assigned
                       [example_node "a" 1; example_node "b" 2; example_node "c" 3]) in
  let w := example_world 3 0.5%float in
  OracleVectorStore.persist example_cfg (rejecting "b")
    (snd (OracleVectorStore.persist example_cfg (rejecting "b") (staged, w))) =
  (Ok tt, snd (OracleVectorStore.persist example_cfg (rejecting "b") (staged, w))).
Proof.
  apply (persist_again_is_noop example_cfg (rejecting "b")).
  vm_compute. reflexivity.
Defined.

(** X13 at an instance on which the same id was added twice. *)
Lemma produced_buffer_well_keyed_witness :
  let self := fst (OracleVectorStore.add fresh
                     [example_node "a" 1; example_node "b" 2; example_node "a" 3]) in
  List.NoDup (odict_keys (OracleVectorStore.node_dict self)) /\
  Forall (fun kv => fst kv = id_ (snd kv)) (OracleVectorStore.node_dict self) /\
  map (fun kv => id_ (snd kv)) (OracleVectorStore.node_dict self) =
    odict_keys (OracleVectorStore.node_dict self).
Proof.
  apply (produced_buffer_well_keyed example_cfg (serving [])).
  apply produced_add, produced_init.
Defined.
